(** * Booklet: the double-entry ledger and reporting core

    A shallow embedding of the posting workflows ([app/crud/journal.py],
    [employee.py], [sales.py], [purchase.py], [banking.py], [expenses.py],
    [other_income.py], [ledger.py]) and of the statement engine
    ([reports.py], [ledger.py]), followed by the properties the
    specification states about them.

    Modelling conventions.
    - Monetary amounts and rates are Python floats in the source.  The
      first part renders them as exact rationals [Q], compared with [==]:
      it settles which rows a workflow writes, on which accounts and under
      which ids, and its statements are about the exact amounts.  Where a
      statement turns on rounding, on a threshold or on a test for zero,
      the code is rendered once more on IEEE 754 binary64, in module
      [Binary64], and the statement is proved there.
    - A database session is an explicit [Db] value.  The crud functions never
      commit: they return [Ok] with the new session state or [Err] when the
      source raises; the request handlers keep the old state on [Err]
      (rollback).
    - Descriptions, customer/vendor back-references and timestamps carry no
      behaviour and are left out of the rows.  Document numbers are kept as
      their numeric part (the source formats them as [PREFIX-%04d]). *)

From Stdlib Require Import ZArith QArith Qround List String Bool Lia Lqa.
From Stdlib Require Import Ascii.
From Stdlib Require DecimalString DecimalNat DecimalFacts.
From Stdlib Require Import Sorted.
From Stdlib Require Import SpecFloat.
Import ListNotations.
Local Open Scope Q_scope.

(* ------------------------------------------------------------------ *)
(** ** Numbers *)

Definition Qltb (x y : Q) : bool := negb (Qle_bool y x).

(** Python's [sum]: a left fold from [0]. *)
Definition sum_Q (l : list Q) : Q := fold_left Qplus l 0.

(** [math.ceil] followed by arithmetic with floats. *)
Definition ceil (x : Q) : Q := inject_Z (Qceiling x).

(* ------------------------------------------------------------------ *)
(** ** Dates *)

Record date := mkDate { year : Z; month : Z; day : Z }.

Definition date_leb (a b : date) : bool :=
  (year a <? year b)%Z
  || ((year a =? year b)%Z
      && ((month a <? month b)%Z
          || ((month a =? month b)%Z && (day a <=? day b)%Z))).

(** [d.replace(month=1, day=1)] *)
Definition start_of_year (d : date) : date := mkDate (year d) 1 1.

(** [column.between(lo, hi)] *)
Definition between (lo hi d : date) : bool := date_leb lo d && date_leb d hi.

(* ------------------------------------------------------------------ *)
(** ** Rows of the relational store ([app/models.py]) *)

Inductive AccountType := ASSET | LIABILITY | EQUITY | REVENUE | EXPENSE.

Definition AccountType_eqb (a b : AccountType) : bool :=
  match a, b with
  | ASSET, ASSET | LIABILITY, LIABILITY | EQUITY, EQUITY
  | REVENUE, REVENUE | EXPENSE, EXPENSE => true
  | _, _ => false
  end.

Record Business := {
  biz_id : Z;
  is_vat_registered : bool;
  vat_rate : Q
}.

Record Account := {
  acc_id : Z;
  acc_name : string;
  acc_type : AccountType;
  is_system_account : bool;
  acc_business_id : Z
}.

(** The one non-null document foreign key of a ledger row, if any. *)
Inductive SourceDoc :=
| NoDoc
| SalesInvoiceDoc (sales_invoice_id : Z)
| PurchaseBillDoc (purchase_bill_id : Z)
| JournalVoucherDoc (journal_voucher_id : Z)
| PayslipDoc (payslip_id : Z)
| FundTransferDoc (fund_transfer_id : Z)
| OtherIncomeDoc (other_income_id : Z)
| CreditNoteDoc (credit_note_id : Z)
| DebitNoteDoc (debit_note_id : Z).

Record LedgerEntry := {
  entry_id : Z;
  transaction_date : date;
  debit : Q;
  credit : Q;
  account_id : Z;
  branch_id : Z;
  source : SourceDoc;
  is_reconciled : bool;
  reconciliation_id : option Z
}.

(** The arguments of one [models.LedgerEntry(...)] constructor call.  Columns
    not passed take their defaults on insertion: [debit] and [credit] are
    [0.0], [is_reconciled] is [False], [reconciliation_id] is [NULL]. *)
Record Posting := {
  p_date : date;
  p_debit : Q;
  p_credit : Q;
  p_account_id : Z;
  p_branch_id : Z;
  p_source : SourceDoc
}.

Definition Debit (d : date) (amount : Q) (account branch : Z) (s : SourceDoc) : Posting :=
  {| p_date := d; p_debit := amount; p_credit := 0;
     p_account_id := account; p_branch_id := branch; p_source := s |}.

Definition Credit (d : date) (amount : Q) (account branch : Z) (s : SourceDoc) : Posting :=
  {| p_date := d; p_debit := 0; p_credit := amount;
     p_account_id := account; p_branch_id := branch; p_source := s |}.

Record JournalVoucher := {
  jv_id : Z;
  voucher_number : Z;
  jv_transaction_date : date;
  jv_business_id : Z;
  jv_branch_id : Z
}.

Record Customer := {
  cust_id : Z;
  cust_business_id : Z;
  cust_branch_id : Z
}.

(** [stock_quantity] takes part in float arithmetic with the quantities of
    invoice lines, so it is an amount like the prices. *)
Record Product := {
  prod_id : Z;
  prod_branch_id : Z;
  purchase_price : Q;
  stock_quantity : Q
}.

Record SalesInvoice := {
  inv_id : Z;
  invoice_number : Z;
  inv_customer_id : Z;
  invoice_date : date;
  due_date : date;
  inv_sub_total : Q;
  inv_vat_amount : Q;
  inv_total_amount : Q;
  inv_paid_amount : Q;
  inv_status : string;
  inv_branch_id : Z;
  inv_business_id : Z
}.

Record SalesInvoiceItem := {
  sii_sales_invoice_id : Z;
  sii_product_id : Z;
  sii_quantity : Q;
  sii_price : Q;
  sii_returned_quantity : Q
}.

Record PurchaseBill := {
  bill_id : Z;
  bill_vendor_id : Z;
  bill_total_amount : Q;
  bill_paid_amount : Q;
  bill_status : string;
  bill_branch_id : Z;
  bill_business_id : Z
}.

Record PayrollConfig := {
  gross_salary : Q;
  paye_rate : option Q;
  pension_employee_rate : option Q;
  pension_employer_rate : option Q
}.

Record Employee := {
  emp_id : Z;
  emp_business_id : Z;
  emp_branch_id : Z;
  payroll_config : option PayrollConfig
}.

Record Payslip := {
  ps_id : Z;
  ps_employee_id : Z;
  ps_pay_period_start : date;
  ps_pay_period_end : date;
  ps_pay_date : date;
  gross_pay : Q;
  paye_deduction : Q;
  pension_employee_deduction : Q;
  pension_employer_contribution : Q;
  total_deductions : Q;
  net_pay : Q;
  ps_additions : list Q;
  ps_deductions : list Q
}.

Record BankAccount := {
  ba_id : Z;
  ba_account_name : string;
  chart_of_account_id : Z;
  ba_branch_id : Z;
  last_reconciliation_date : option date;
  last_reconciliation_balance : option Q
}.

Record BankReconciliation := {
  rec_id : Z;
  rec_account_id : Z;
  statement_date : date;
  statement_balance : Q;
  rec_business_id : Z;
  rec_branch_id : Z
}.

(** The session: one list of rows per table, oldest row first. *)
Record Db := {
  businesses : list Business;
  accounts : list Account;
  customers : list Customer;
  products : list Product;
  employees : list Employee;
  sales_invoices : list SalesInvoice;
  sales_invoice_items : list SalesInvoiceItem;
  purchase_bills : list PurchaseBill;
  journal_vouchers : list JournalVoucher;
  payslips : list Payslip;
  bank_accounts : list BankAccount;
  bank_reconciliations : list BankReconciliation;
  ledger_entries : list LedgerEntry
}.

Definition empty_db : Db :=
  {| businesses := []; accounts := []; customers := []; products := [];
     employees := []; sales_invoices := []; sales_invoice_items := [];
     purchase_bills := []; journal_vouchers := []; payslips := [];
     bank_accounts := []; bank_reconciliations := []; ledger_entries := [] |}.

Definition set_products (db : Db) (v : list Product) : Db :=
  {| businesses := businesses db; accounts := accounts db;
     customers := customers db; products := v; employees := employees db;
     sales_invoices := sales_invoices db;
     sales_invoice_items := sales_invoice_items db;
     purchase_bills := purchase_bills db;
     journal_vouchers := journal_vouchers db; payslips := payslips db;
     bank_accounts := bank_accounts db;
     bank_reconciliations := bank_reconciliations db;
     ledger_entries := ledger_entries db |}.

Definition set_sales_invoices (db : Db) (v : list SalesInvoice) : Db :=
  {| businesses := businesses db; accounts := accounts db;
     customers := customers db; products := products db;
     employees := employees db; sales_invoices := v;
     sales_invoice_items := sales_invoice_items db;
     purchase_bills := purchase_bills db;
     journal_vouchers := journal_vouchers db; payslips := payslips db;
     bank_accounts := bank_accounts db;
     bank_reconciliations := bank_reconciliations db;
     ledger_entries := ledger_entries db |}.

Definition set_sales_invoice_items (db : Db) (v : list SalesInvoiceItem) : Db :=
  {| businesses := businesses db; accounts := accounts db;
     customers := customers db; products := products db;
     employees := employees db; sales_invoices := sales_invoices db;
     sales_invoice_items := v;
     purchase_bills := purchase_bills db;
     journal_vouchers := journal_vouchers db; payslips := payslips db;
     bank_accounts := bank_accounts db;
     bank_reconciliations := bank_reconciliations db;
     ledger_entries := ledger_entries db |}.

Definition set_purchase_bills (db : Db) (v : list PurchaseBill) : Db :=
  {| businesses := businesses db; accounts := accounts db;
     customers := customers db; products := products db;
     employees := employees db; sales_invoices := sales_invoices db;
     sales_invoice_items := sales_invoice_items db;
     purchase_bills := v;
     journal_vouchers := journal_vouchers db; payslips := payslips db;
     bank_accounts := bank_accounts db;
     bank_reconciliations := bank_reconciliations db;
     ledger_entries := ledger_entries db |}.

Definition set_journal_vouchers (db : Db) (v : list JournalVoucher) : Db :=
  {| businesses := businesses db; accounts := accounts db;
     customers := customers db; products := products db;
     employees := employees db; sales_invoices := sales_invoices db;
     sales_invoice_items := sales_invoice_items db;
     purchase_bills := purchase_bills db;
     journal_vouchers := v; payslips := payslips db;
     bank_accounts := bank_accounts db;
     bank_reconciliations := bank_reconciliations db;
     ledger_entries := ledger_entries db |}.

Definition set_payslips (db : Db) (v : list Payslip) : Db :=
  {| businesses := businesses db; accounts := accounts db;
     customers := customers db; products := products db;
     employees := employees db; sales_invoices := sales_invoices db;
     sales_invoice_items := sales_invoice_items db;
     purchase_bills := purchase_bills db;
     journal_vouchers := journal_vouchers db; payslips := v;
     bank_accounts := bank_accounts db;
     bank_reconciliations := bank_reconciliations db;
     ledger_entries := ledger_entries db |}.

Definition set_bank_accounts (db : Db) (v : list BankAccount) : Db :=
  {| businesses := businesses db; accounts := accounts db;
     customers := customers db; products := products db;
     employees := employees db; sales_invoices := sales_invoices db;
     sales_invoice_items := sales_invoice_items db;
     purchase_bills := purchase_bills db;
     journal_vouchers := journal_vouchers db; payslips := payslips db;
     bank_accounts := v;
     bank_reconciliations := bank_reconciliations db;
     ledger_entries := ledger_entries db |}.

Definition set_bank_reconciliations (db : Db) (v : list BankReconciliation) : Db :=
  {| businesses := businesses db; accounts := accounts db;
     customers := customers db; products := products db;
     employees := employees db; sales_invoices := sales_invoices db;
     sales_invoice_items := sales_invoice_items db;
     purchase_bills := purchase_bills db;
     journal_vouchers := journal_vouchers db; payslips := payslips db;
     bank_accounts := bank_accounts db;
     bank_reconciliations := v;
     ledger_entries := ledger_entries db |}.

Definition set_ledger_entries (db : Db) (v : list LedgerEntry) : Db :=
  {| businesses := businesses db; accounts := accounts db;
     customers := customers db; products := products db;
     employees := employees db; sales_invoices := sales_invoices db;
     sales_invoice_items := sales_invoice_items db;
     purchase_bills := purchase_bills db;
     journal_vouchers := journal_vouchers db; payslips := payslips db;
     bank_accounts := bank_accounts db;
     bank_reconciliations := bank_reconciliations db;
     ledger_entries := v |}.

(* ------------------------------------------------------------------ *)
(** ** Failures and session primitives *)

(** One constructor per [raise ValueError(...)] site of the modelled code. *)
Inductive error :=
| JournalNotBalanced               (* "Journal entry is not balanced. ..." *)
| JournalTooFewLines               (* "A journal entry must have at least two lines." *)
| BusinessNotFound
| CustomerNotFound
| CustomerWrongBranch
| CoreAccountsMissing
| VatAccountMissing
| ProductNotFound (product_id : Z)
| InsufficientStock (product_id : Z)
| EmployeeOrConfigNotFound
| EmployeeNotInBranch
| SameTransferAccounts
| NonPositiveTransfer
| EmptyReturn
| DuplicateBankAccount.            (* IntegrityError on _branch_bank_account_name_uc *)

Inductive result (A : Type) :=
| Ok (a : A)
| Err (e : error).
Arguments Ok {A} a.
Arguments Err {A} e.

(** The handlers' [try: ... db.commit() except: db.rollback()]. *)
Definition commit_or_rollback (db : Db) (r : result Db) : Db :=
  match r with
  | Ok db' => db'
  | Err _ => db
  end.

(** Autoincrement primary key: one past the largest key in the table. *)
Definition next_id (ids : list Z) : Z := (1 + fold_right Z.max 0 ids)%Z.

Definition first {A} (l : list A) : option A := hd_error l.

(** [db.query(models.Account).filter_by(business_id=..., name=...).first()] *)
Definition account_by_name (db : Db) (business_id : Z) (name : string) : option Account :=
  first (filter (fun a => (acc_business_id a =? business_id)%Z
                          && String.eqb (acc_name a) name) (accounts db)).

Definition insert_entry (rows : list LedgerEntry) (p : Posting) : list LedgerEntry :=
  rows ++ [ {| entry_id := next_id (map entry_id rows);
               transaction_date := p_date p;
               debit := p_debit p;
               credit := p_credit p;
               account_id := p_account_id p;
               branch_id := p_branch_id p;
               source := p_source p;
               is_reconciled := false;
               reconciliation_id := None |} ].

(** A run of [db.add(models.LedgerEntry(...))] calls, in order. *)
Definition add_ledger_entries (db : Db) (ps : list Posting) : Db :=
  set_ledger_entries db (fold_left insert_entry ps (ledger_entries db)).

(** The posting group of a workflow: total debits and total credits. *)
Definition group_debits (ps : list Posting) : Q := sum_Q (map p_debit ps).
Definition group_credits (ps : list Posting) : Q := sum_Q (map p_credit ps).

(* ------------------------------------------------------------------ *)
(** ** Manual journal vouchers ([app/crud/journal.py], [app/routers/journal.py]) *)

(** One element of the [entries] list of dicts.  [None] stands for a missing,
    [None], empty or zero value, all of which [float(e.get(k, 0) or 0)] reads
    as [0.0]. *)
Record JournalLine := {
  jl_debit : option Q;
  jl_credit : option Q;
  jl_account_id : Z
}.

Definition float_or_zero (o : option Q) : Q :=
  match o with
  | Some q => q
  | None => 0
  end.

(** Numeric part of [get_next_journal_voucher_number]: the number of the
    voucher with the greatest id of this business, plus one; [1] if none. *)
Definition get_next_journal_voucher_number (db : Db) (business_id : Z) : Z :=
  match first (rev (filter (fun v => (jv_business_id v =? business_id)%Z)
                           (journal_vouchers db))) with
  | None => 1%Z
  | Some last_voucher => (voucher_number last_voucher + 1)%Z
  end.

Definition journal_total_debits (entries : list JournalLine) : Q :=
  sum_Q (map (fun e => float_or_zero (jl_debit e)) entries).

Definition journal_total_credits (entries : list JournalLine) : Q :=
  sum_Q (map (fun e => float_or_zero (jl_credit e)) entries).

(** [0.009 > total_debits - total_credits > -0.009] *)
Definition journal_balanced (total_debits total_credits : Q) : bool :=
  Qltb (total_debits - total_credits) (9 # 1000)
  && Qltb (- (9 # 1000)) (total_debits - total_credits).

(** The ledger rows of a voucher: one per line that carries an amount. *)
Definition journal_postings (transaction_date : date) (branch_id voucher_id : Z)
    (entries : list JournalLine) : list Posting :=
  flat_map (fun entry_data =>
    let debit := float_or_zero (jl_debit entry_data) in
    let credit := float_or_zero (jl_credit entry_data) in
    if Qltb 0 debit || Qltb 0 credit then
      [ {| p_date := transaction_date; p_debit := debit; p_credit := credit;
           p_account_id := jl_account_id entry_data; p_branch_id := branch_id;
           p_source := JournalVoucherDoc voucher_id |} ]
    else []) entries.

Definition create_journal_voucher (db : Db) (business_id branch_id : Z)
    (transaction_date : date) (entries : list JournalLine)
  : result (Db * JournalVoucher) :=
  let total_debits := journal_total_debits entries in
  let total_credits := journal_total_credits entries in
  if negb (journal_balanced total_debits total_credits) then
    Err JournalNotBalanced
  else
    let new_voucher :=
      {| jv_id := next_id (map jv_id (journal_vouchers db));
         voucher_number := get_next_journal_voucher_number db business_id;
         jv_transaction_date := transaction_date;
         jv_business_id := business_id;
         jv_branch_id := branch_id |} in
    let db1 := set_journal_vouchers db (journal_vouchers db ++ [new_voucher]) in
    Ok (add_ledger_entries db1
          (journal_postings transaction_date branch_id (jv_id new_voucher) entries),
        new_voucher).

(** [handle_create_journal_entry]: the line-count guard, the crud call, then
    commit or rollback. *)
Definition handle_create_journal_entry (db : Db) (business_id branch_id : Z)
    (transaction_date : date) (entries : list JournalLine) : result Db :=
  if (List.length entries <? 2)%nat then Err JournalTooFewLines
  else
    match create_journal_voucher db business_id branch_id transaction_date entries with
    | Ok (db', _) => Ok db'
    | Err e => Err e
    end.

(** The ledger rows a step added to the session, read back as postings. *)
Definition posting_of (e : LedgerEntry) : Posting :=
  {| p_date := transaction_date e; p_debit := debit e; p_credit := credit e;
     p_account_id := account_id e; p_branch_id := branch_id e;
     p_source := source e |}.

Definition posted (before after : Db) : list Posting :=
  map posting_of (skipn (List.length (ledger_entries before)) (ledger_entries after)).

(** Replace the first row satisfying [f] (the row an ORM object stands for). *)
Fixpoint update_first {A} (f : A -> bool) (g : A -> A) (l : list A) : list A :=
  match l with
  | [] => []
  | x :: l' => if f x then g x :: l' else x :: update_first f g l'
  end.

(* ------------------------------------------------------------------ *)
(** ** Payroll ([app/crud/employee.py]) *)

Definition get_employee_by_id (db : Db) (employee_id business_id : Z) : option Employee :=
  first (filter (fun e => (emp_id e =? employee_id)%Z
                          && (emp_business_id e =? business_id)%Z) (employees db)).

(** The ledger rows of one payslip; the PAYE and pension rows are written
    only for positive amounts. *)
Definition payroll_postings (today : date) (branch_id payslip_id : Z)
    (salary_expense_account payroll_liabilities_account
     paye_payable_account pension_payable_account : Account)
    (total_payroll_expense net_pay paye_deduction total_pension_contribution : Q)
  : list Posting :=
  [ Debit today total_payroll_expense (acc_id salary_expense_account)
      branch_id (PayslipDoc payslip_id);
    Credit today net_pay (acc_id payroll_liabilities_account)
      branch_id (PayslipDoc payslip_id) ]
  ++ (if Qltb 0 paye_deduction then
        [ Credit today paye_deduction (acc_id paye_payable_account)
            branch_id (PayslipDoc payslip_id) ]
      else [])
  ++ (if Qltb 0 total_pension_contribution then
        [ Credit today total_pension_contribution (acc_id pension_payable_account)
            branch_id (PayslipDoc payslip_id) ]
      else []).

(** [additions] and [deductions] are the ['amount'] values of the item dicts;
    [today] is [date.today()]. *)
Definition process_payroll_for_employee (db : Db) (today : date)
    (employee_id business_id : Z) (pay_period_start pay_period_end : date)
    (additions deductions : list Q) : result (Db * Payslip) :=
  match get_employee_by_id db employee_id business_id with
  | None => Err EmployeeOrConfigNotFound
  | Some employee =>
    match payroll_config employee with
    | None => Err EmployeeOrConfigNotFound
    | Some config =>
      let branch_id := emp_branch_id employee in
      match account_by_name db business_id "Salary Expense",
            account_by_name db business_id "Payroll Liabilities",
            account_by_name db business_id "PAYE Payable",
            account_by_name db business_id "Pension Payable" with
      | Some salary_expense_account, Some payroll_liabilities_account,
        Some paye_payable_account, Some pension_payable_account =>
        let gross_pay := gross_salary config in
        let total_additions := sum_Q additions in
        let taxable_income := gross_pay + total_additions in
        let paye_deduction :=
          ceil (taxable_income * float_or_zero (paye_rate config)) in
        let pension_employee_deduction :=
          ceil (gross_pay * float_or_zero (pension_employee_rate config)) in
        let pension_employer_contribution :=
          ceil (gross_pay * float_or_zero (pension_employer_rate config)) in
        let other_deductions := sum_Q deductions in
        let total_deductions :=
          paye_deduction + pension_employee_deduction + other_deductions in
        let net_pay := taxable_income - total_deductions in
        let db_payslip :=
          {| ps_id := next_id (map ps_id (payslips db));
             ps_employee_id := emp_id employee;
             ps_pay_period_start := pay_period_start;
             ps_pay_period_end := pay_period_end;
             ps_pay_date := today;
             gross_pay := gross_pay;
             paye_deduction := paye_deduction;
             pension_employee_deduction := pension_employee_deduction;
             pension_employer_contribution := pension_employer_contribution;
             total_deductions := total_deductions;
             net_pay := net_pay;
             ps_additions := additions;
             ps_deductions := deductions |} in
        let db1 := set_payslips db (payslips db ++ [db_payslip]) in
        let total_payroll_expense :=
          gross_pay + total_additions + pension_employer_contribution in
        let total_pension_contribution :=
          pension_employee_deduction + pension_employer_contribution in
        Ok (add_ledger_entries db1
              (payroll_postings today branch_id (ps_id db_payslip)
                 salary_expense_account payroll_liabilities_account
                 paye_payable_account pension_payable_account
                 total_payroll_expense net_pay paye_deduction
                 total_pension_contribution),
            db_payslip)
      | _, _, _, _ => Err CoreAccountsMissing
      end
    end
  end.

(* ------------------------------------------------------------------ *)
(** ** VAT remittance ([create_vat_payment_entry] in [app/crud/ledger.py]) *)

Definition create_vat_payment_entry (db : Db) (business_id branch_id : Z)
    (payment_date : date) (amount_paid : Q) (payment_account_id : Z)
    (output_vat_total input_vat_total : Q) : result (Db * JournalVoucher) :=
  match account_by_name db business_id "VAT Payable (Output VAT)",
        account_by_name db business_id "VAT Receivable (Input VAT)" with
  | Some output_vat_account, Some input_vat_account =>
    let new_voucher :=
      {| jv_id := next_id (map jv_id (journal_vouchers db));
         voucher_number := get_next_journal_voucher_number db business_id;
         jv_transaction_date := payment_date;
         jv_business_id := business_id;
         jv_branch_id := branch_id |} in
    let db1 := set_journal_vouchers db (journal_vouchers db ++ [new_voucher]) in
    Ok (add_ledger_entries db1
          [ Debit payment_date output_vat_total (acc_id output_vat_account)
              branch_id (JournalVoucherDoc (jv_id new_voucher));
            Credit payment_date input_vat_total (acc_id input_vat_account)
              branch_id (JournalVoucherDoc (jv_id new_voucher));
            Credit payment_date amount_paid payment_account_id
              branch_id (JournalVoucherDoc (jv_id new_voucher)) ],
        new_voucher)
  | _, _ => Err VatAccountMissing
  end.

(* ------------------------------------------------------------------ *)
(** ** Sales invoices and customer payments ([app/crud/sales.py]) *)

Record SalesInvoiceItemCreate := {
  item_product_id : Z;
  item_quantity : Q;
  item_price : Q
}.

Record SalesInvoiceCreate := {
  sic_customer_id : Z;
  sic_invoice_date : date;
  sic_due_date : date;
  sic_items : list SalesInvoiceItemCreate
}.

Definition get_business (db : Db) (business_id : Z) : option Business :=
  first (filter (fun b => (biz_id b =? business_id)%Z) (businesses db)).

Definition get_customer (db : Db) (customer_id business_id : Z) : option Customer :=
  first (filter (fun c => (cust_id c =? customer_id)%Z
                          && (cust_business_id c =? business_id)%Z) (customers db)).

Definition get_product_by_id (db : Db) (product_id : Z) : option Product :=
  first (filter (fun p => (prod_id p =? product_id)%Z) (products db)).

(** Numeric part of [get_next_invoice_number]. *)
Definition get_next_invoice_number (db : Db) (business_id : Z) : Z :=
  match first (rev (filter (fun i => (inv_business_id i =? business_id)%Z)
                           (sales_invoices db))) with
  | None => 1%Z
  | Some last_invoice => (invoice_number last_invoice + 1)%Z
  end.

(** The first loop of [create_sales_invoice]: every line is checked against
    the stock on hand before anything is written, accumulating the cost. *)
Fixpoint check_stock_and_cost (db : Db) (branch_id : Z)
    (items : list SalesInvoiceItemCreate) (total_cost : Q) : result Q :=
  match items with
  | [] => Ok total_cost
  | item_data :: rest =>
    match get_product_by_id db (item_product_id item_data) with
    | None => Err (ProductNotFound (item_product_id item_data))
    | Some product =>
      if negb (prod_branch_id product =? branch_id)%Z then
        Err (ProductNotFound (item_product_id item_data))
      else if Qltb (stock_quantity product) (item_quantity item_data) then
        Err (InsufficientStock (item_product_id item_data))
      else
        check_stock_and_cost db branch_id rest
          (total_cost + purchase_price product * item_quantity item_data)
    end
  end.

Definition adjust_stock (delta : Q) (p : Product) : Product :=
  {| prod_id := prod_id p; prod_branch_id := prod_branch_id p;
     purchase_price := purchase_price p;
     stock_quantity := stock_quantity p + delta |}.

(** The second loop: one item row per line, and the line's quantity taken
    off the product's stock. *)
Definition add_invoice_line (invoice_id : Z) (db : Db)
    (item_data : SalesInvoiceItemCreate) : Db :=
  let db1 := set_sales_invoice_items db
      (sales_invoice_items db ++
       [ {| sii_sales_invoice_id := invoice_id;
            sii_product_id := item_product_id item_data;
            sii_quantity := item_quantity item_data;
            sii_price := item_price item_data;
            sii_returned_quantity := 0 |} ]) in
  set_products db1
    (update_first (fun p => (prod_id p =? item_product_id item_data)%Z)
                  (adjust_stock (- item_quantity item_data))
                  (products db1)).

Definition sales_postings (invoice : SalesInvoice) (vat_registered : bool)
    (ar_account revenue_account cogs_account inventory_account : Account)
    (vat_account : option Account) (total_cost : Q) : list Posting :=
  let doc := SalesInvoiceDoc (inv_id invoice) in
  let on := invoice_date invoice in
  let branch := inv_branch_id invoice in
  [ Debit on (inv_total_amount invoice) (acc_id ar_account) branch doc;
    Credit on (inv_sub_total invoice) (acc_id revenue_account) branch doc ]
  ++ (if vat_registered && Qltb 0 (inv_vat_amount invoice) then
        match vat_account with
        | Some va => [ Credit on (inv_vat_amount invoice) (acc_id va) branch doc ]
        | None => []     (* excluded by the VAT-account check on entry *)
        end
      else [])
  ++ [ Debit on total_cost (acc_id cogs_account) branch doc;
       Credit on total_cost (acc_id inventory_account) branch doc ].

Definition create_sales_invoice (db : Db) (invoice_data : SalesInvoiceCreate)
    (business_id branch_id : Z) : result (Db * SalesInvoice) :=
  match get_business db business_id with
  | None => Err BusinessNotFound
  | Some business =>
    match get_customer db (sic_customer_id invoice_data) business_id with
    | None => Err CustomerNotFound
    | Some customer =>
      if negb (cust_branch_id customer =? branch_id)%Z then Err CustomerWrongBranch
      else
        let vat_account := account_by_name db business_id "VAT Payable (Output VAT)" in
        match account_by_name db business_id "Accounts Receivable",
              account_by_name db business_id "Sales Revenue",
              account_by_name db business_id "Cost of Goods Sold",
              account_by_name db business_id "Inventory" with
        | Some ar_account, Some revenue_account,
          Some cogs_account, Some inventory_account =>
          if is_vat_registered business
             && match vat_account with None => true | Some _ => false end
          then Err VatAccountMissing
          else
            let sub_total :=
              sum_Q (map (fun item => item_quantity item * item_price item)
                         (sic_items invoice_data)) in
            let vat_amount :=
              if is_vat_registered business then sub_total * vat_rate business
              else 0 in
            let total_amount := sub_total + vat_amount in
            match check_stock_and_cost db branch_id (sic_items invoice_data) 0 with
            | Err e => Err e
            | Ok total_cost =>
              let db_invoice :=
                {| inv_id := next_id (map inv_id (sales_invoices db));
                   invoice_number := get_next_invoice_number db business_id;
                   inv_customer_id := cust_id customer;
                   invoice_date := sic_invoice_date invoice_data;
                   due_date := sic_due_date invoice_data;
                   inv_sub_total := sub_total;
                   inv_vat_amount := vat_amount;
                   inv_total_amount := total_amount;
                   inv_paid_amount := 0;
                   inv_status := "Unpaid";
                   inv_branch_id := branch_id;
                   inv_business_id := business_id |} in
              let db1 := set_sales_invoices db (sales_invoices db ++ [db_invoice]) in
              let db2 := fold_left (add_invoice_line (inv_id db_invoice))
                                   (sic_items invoice_data) db1 in
              Ok (add_ledger_entries db2
                    (sales_postings db_invoice (is_vat_registered business)
                       ar_account revenue_account cogs_account inventory_account
                       vat_account total_cost),
                  db_invoice)
            end
        | _, _, _, _ => Err CoreAccountsMissing
        end
    end
  end.

Definition payment_status (paid_amount total_amount : Q) : string :=
  if Qle_bool (total_amount - (1 # 1000)) paid_amount then "Paid"
  else "Partially Paid".

Definition record_payment_for_invoice (db : Db) (invoice : SalesInvoice)
    (payment_date : date) (amount_paid : Q) (payment_account_id : Z)
  : result (Db * SalesInvoice) :=
  match account_by_name db (inv_business_id invoice) "Accounts Receivable" with
  | None => Err CoreAccountsMissing
  | Some ar_account =>
    let paid_amount := inv_paid_amount invoice + amount_paid in
    let invoice' :=
      {| inv_id := inv_id invoice;
         invoice_number := invoice_number invoice;
         inv_customer_id := inv_customer_id invoice;
         invoice_date := invoice_date invoice;
         due_date := due_date invoice;
         inv_sub_total := inv_sub_total invoice;
         inv_vat_amount := inv_vat_amount invoice;
         inv_total_amount := inv_total_amount invoice;
         inv_paid_amount := paid_amount;
         inv_status := payment_status paid_amount (inv_total_amount invoice);
         inv_branch_id := inv_branch_id invoice;
         inv_business_id := inv_business_id invoice |} in
    let db1 := set_sales_invoices db
        (update_first (fun i => (inv_id i =? inv_id invoice)%Z)
                      (fun _ => invoice') (sales_invoices db)) in
    let branch_id := inv_branch_id invoice in
    Ok (add_ledger_entries db1
          [ Credit payment_date amount_paid (acc_id ar_account) branch_id
              (SalesInvoiceDoc (inv_id invoice));
            Debit payment_date amount_paid payment_account_id branch_id
              (SalesInvoiceDoc (inv_id invoice)) ],
        invoice')
  end.

(** [record_payment_for_bill] in [app/crud/purchase.py]. *)
Definition record_payment_for_bill (db : Db) (bill : PurchaseBill)
    (payment_date : date) (amount_paid : Q) (payment_account_id : Z)
  : result (Db * PurchaseBill) :=
  match account_by_name db (bill_business_id bill) "Accounts Payable" with
  | None => Err CoreAccountsMissing
  | Some ap_account =>
    let paid_amount := bill_paid_amount bill + amount_paid in
    let bill' :=
      {| bill_id := bill_id bill;
         bill_vendor_id := bill_vendor_id bill;
         bill_total_amount := bill_total_amount bill;
         bill_paid_amount := paid_amount;
         bill_status := payment_status paid_amount (bill_total_amount bill);
         bill_branch_id := bill_branch_id bill;
         bill_business_id := bill_business_id bill |} in
    let db1 := set_purchase_bills db
        (update_first (fun b => (bill_id b =? bill_id bill)%Z)
                      (fun _ => bill') (purchase_bills db)) in
    let branch_id := bill_branch_id bill in
    Ok (add_ledger_entries db1
          [ Debit payment_date amount_paid (acc_id ap_account) branch_id
              (PurchaseBillDoc (bill_id bill));
            Credit payment_date amount_paid payment_account_id branch_id
              (PurchaseBillDoc (bill_id bill)) ],
        bill')
  end.

(* ------------------------------------------------------------------ *)
(** ** Statement engine: shared queries *)

(** Python dicts keyed by account name, in insertion order. *)
Definition dict := list (string * Q).

Fixpoint dict_set (d : dict) (k : string) (v : Q) : dict :=
  match d with
  | [] => [(k, v)]
  | (k', v') :: d' =>
    if String.eqb k' k then (k', v) :: d' else (k', v') :: dict_set d' k v
  end.

(** [d.pop(k, default)]: the value removed and the remaining dict. *)
Fixpoint dict_pop (d : dict) (k : string) (default : Q) : Q * dict :=
  match d with
  | [] => (default, [])
  | (k', v') :: d' =>
    if String.eqb k' k then (v', d')
    else let '(v, rest) := dict_pop d' k default in (v, (k', v') :: rest)
  end.

Definition dict_values (d : dict) : list Q := map snd d.

(** [if branch_id: query = query.filter(LedgerEntry.branch_id == branch_id)]:
    the filter is applied only for a truthy id, so neither [None] nor [0]
    restricts the query. *)
Definition branch_filter (branch : option Z) (e : LedgerEntry) : bool :=
  match branch with
  | Some b => if (b =? 0)%Z then true else (branch_id e =? b)%Z
  | None => true
  end.

(** Rows of one account dated on or before [as_of], optionally of one branch. *)
Definition entries_as_of (db : Db) (account : Z) (as_of : date)
    (branch : option Z) : list LedgerEntry :=
  filter (fun e => (account_id e =? account)%Z
                   && date_leb (transaction_date e) as_of
                   && branch_filter branch e) (ledger_entries db).

(** [db.query(func.sum(LedgerEntry.debit)).filter(...).scalar() or 0.0] *)
Definition debit_sum (db : Db) (account : Z) (as_of : date) (branch : option Z) : Q :=
  sum_Q (map debit (entries_as_of db account as_of branch)).

Definition credit_sum (db : Db) (account : Z) (as_of : date) (branch : option Z) : Q :=
  sum_Q (map credit (entries_as_of db account as_of branch)).

Definition accounts_of_business (db : Db) (business_id : Z) : list Account :=
  filter (fun a => (acc_business_id a =? business_id)%Z) (accounts db).

Definition accounts_of_type (db : Db) (business_id : Z) (t : AccountType) : list Account :=
  filter (fun a => (acc_business_id a =? business_id)%Z
                   && AccountType_eqb (acc_type a) t) (accounts db).

(* ------------------------------------------------------------------ *)
(** ** Trial balance ([get_trial_balance_data] in [app/crud/reports.py]) *)

Record TBLine := {
  account_name : string;
  line_debit : Q;
  line_credit : Q
}.

Record TBSection := {
  lines : list TBLine;
  total_debit : Q;
  total_credit : Q
}.

(** [report_data]: one section per account type and the two grand totals. *)
Record TrialBalance := {
  tb_asset : TBSection;
  tb_liability : TBSection;
  tb_equity : TBSection;
  tb_revenue : TBSection;
  tb_expense : TBSection;
  grand_total_debit : Q;
  grand_total_credit : Q
}.

Definition empty_section : TBSection :=
  {| lines := []; total_debit := 0; total_credit := 0 |}.

Definition empty_trial_balance : TrialBalance :=
  {| tb_asset := empty_section; tb_liability := empty_section;
     tb_equity := empty_section; tb_revenue := empty_section;
     tb_expense := empty_section;
     grand_total_debit := 0; grand_total_credit := 0 |}.

Definition add_line (s : TBSection) (l : TBLine) : TBSection :=
  {| lines := lines s ++ [l];
     total_debit := total_debit s + line_debit l;
     total_credit := total_credit s + line_credit l |}.

(** The four [+=] updates and the [append] at the end of the loop body. *)
Definition report_line (r : TrialBalance) (t : AccountType) (l : TBLine) : TrialBalance :=
  {| tb_asset := if AccountType_eqb t ASSET then add_line (tb_asset r) l else tb_asset r;
     tb_liability := if AccountType_eqb t LIABILITY then add_line (tb_liability r) l else tb_liability r;
     tb_equity := if AccountType_eqb t EQUITY then add_line (tb_equity r) l else tb_equity r;
     tb_revenue := if AccountType_eqb t REVENUE then add_line (tb_revenue r) l else tb_revenue r;
     tb_expense := if AccountType_eqb t EXPENSE then add_line (tb_expense r) l else tb_expense r;
     grand_total_debit := grand_total_debit r + line_debit l;
     grand_total_credit := grand_total_credit r + line_credit l |}.

(** The debit and credit columns of one account with raw balance [balance]. *)
Definition tb_columns (t : AccountType) (balance : Q) : Q * Q :=
  match t with
  | ASSET | EXPENSE =>
    (if Qltb 0 balance then balance else 0,
     if Qltb balance 0 then - balance else 0)
  | LIABILITY | EQUITY | REVENUE =>
    (if Qltb 0 balance then balance else 0,
     if Qltb balance 0 then - balance else balance)
  end.

(** One iteration of [for acc in all_accounts]. *)
Definition tb_account (db : Db) (as_of : date) (branch : option Z)
    (report_data : TrialBalance) (acc : Account) : TrialBalance :=
  let balance := debit_sum db (acc_id acc) as_of branch
                 - credit_sum db (acc_id acc) as_of branch in
  if Qeq_bool balance 0 then report_data
  else
    let '(debit_balance, credit_balance) := tb_columns (acc_type acc) balance in
    report_line report_data (acc_type acc)
      {| account_name := acc_name acc;
         line_debit := debit_balance;
         line_credit := credit_balance |}.

(** The accounts are visited in the order the store returns them; the
    source's [ORDER BY type, name] only fixes the order of the lines inside
    a section and follows the store's collation. *)
Definition get_trial_balance_data (db : Db) (business_id : Z) (as_of_date : date)
    (branch : option Z) : TrialBalance :=
  fold_left (tb_account db as_of_date branch)
            (accounts_of_business db business_id) empty_trial_balance.

(* ------------------------------------------------------------------ *)
(** ** Profit and loss, balance sheet ([app/crud/ledger.py]) *)

(** Signed movement of one account between two dates: credit minus debit for
    a revenue account, debit minus credit otherwise. *)
Definition period_balance (db : Db) (acc : Account) (start_date end_date : date)
    (branch : option Z) : Q :=
  sum_Q (map (fun e => match acc_type acc with
                       | REVENUE => credit e - debit e
                       | _ => debit e - credit e
                       end)
             (filter (fun e => (account_id e =? acc_id acc)%Z
                               && between start_date end_date (transaction_date e)
                               && branch_filter branch e) (ledger_entries db))).

(** The nested helper [get_balance_for_accounts]. *)
Definition get_balance_for_accounts (db : Db) (accs : list Account)
    (start_date end_date : date) (branch : option Z) : dict * Q :=
  fold_left (fun '(totals, total_balance) acc =>
               let balance := period_balance db acc start_date end_date branch in
               (dict_set totals (acc_name acc) balance, total_balance + balance))
            accs ([], 0).

Record ProfitAndLoss := {
  revenue_totals : dict;
  total_revenue : Q;
  cogs : Q;
  gross_profit : Q;
  operating_expenses : dict;
  total_operating_expenses : Q;
  net_profit : Q
}.

Definition get_profit_and_loss_data (db : Db) (business_id : Z)
    (start_date end_date : date) (branch : option Z) : ProfitAndLoss :=
  let revenue_accounts := accounts_of_type db business_id REVENUE in
  let expense_accounts := accounts_of_type db business_id EXPENSE in
  let '(revenue_totals, total_revenue) :=
    get_balance_for_accounts db revenue_accounts start_date end_date branch in
  let '(expense_totals0, total_expenses) :=
    get_balance_for_accounts db expense_accounts start_date end_date branch in
  let '(cogs, expense_totals) := dict_pop expense_totals0 "Cost of Goods Sold" 0 in
  let gross_profit := total_revenue - cogs in
  let net_profit := gross_profit - sum_Q (dict_values expense_totals) in
  {| revenue_totals := revenue_totals;
     total_revenue := total_revenue;
     cogs := cogs;
     gross_profit := gross_profit;
     operating_expenses := expense_totals;
     total_operating_expenses := sum_Q (dict_values expense_totals);
     net_profit := net_profit |}.

Record BalanceSheet := {
  assets : dict;
  total_assets : Q;
  liabilities : dict;
  total_liabilities : Q;
  equity : dict;
  total_equity : Q;
  total_liabilities_and_equity : Q
}.

(* ------------------------------------------------------------------ *)
(** ** Bank reconciliation ([app/crud/banking.py]) *)

Fixpoint insert_by_date (e : LedgerEntry) (l : list LedgerEntry) : list LedgerEntry :=
  match l with
  | [] => [e]
  | x :: l' =>
    if date_leb (transaction_date e) (transaction_date x) then e :: l
    else x :: insert_by_date e l'
  end.

(** [.order_by(LedgerEntry.transaction_date.asc())] *)
Definition order_by_transaction_date (l : list LedgerEntry) : list LedgerEntry :=
  fold_right insert_by_date [] l.

Definition get_unreconciled_transactions (db : Db) (account branch : Z)
  : list LedgerEntry :=
  order_by_transaction_date
    (filter (fun e => (account_id e =? account)%Z
                      && (branch_id e =? branch)%Z
                      && negb (is_reconciled e)) (ledger_entries db)).


(** The bulk [UPDATE ... WHERE id IN (...)]. *)
Definition mark_reconciled (reconciliation : Z) (ids : list Z) (e : LedgerEntry)
  : LedgerEntry :=
  if existsb (Z.eqb (entry_id e)) ids then
    {| entry_id := entry_id e;
       transaction_date := transaction_date e;
       debit := debit e;
       credit := credit e;
       account_id := account_id e;
       branch_id := branch_id e;
       source := source e;
       is_reconciled := true;
       reconciliation_id := Some reconciliation |}
  else e.

Definition process_reconciliation (db : Db) (business_id branch account : Z)
    (statement_date : date) (statement_balance : Q)
    (cleared_transaction_ids : list Z) : Db * BankReconciliation :=
  let reconciliation :=
    {| rec_id := next_id (map rec_id (bank_reconciliations db));
       rec_account_id := account;
       statement_date := statement_date;
       statement_balance := statement_balance;
       rec_business_id := business_id;
       rec_branch_id := branch |} in
  let db1 := set_bank_reconciliations db
               (bank_reconciliations db ++ [reconciliation]) in
  let db2 :=
    match cleared_transaction_ids with
    | [] => db1
    | _ :: _ =>
      set_ledger_entries db1
        (map (mark_reconciled (rec_id reconciliation) cleared_transaction_ids)
             (ledger_entries db1))
    end in
  let db3 := set_bank_accounts db2
      (update_first (fun b => (chart_of_account_id b =? account)%Z)
         (fun b => {| ba_id := ba_id b;
                      ba_account_name := ba_account_name b;
                      chart_of_account_id := chart_of_account_id b;
                      ba_branch_id := ba_branch_id b;
                      last_reconciliation_date := Some statement_date;
                      last_reconciliation_balance := Some statement_balance |})
         (bank_accounts db2)) in
  (db3, reconciliation).

(* ------------------------------------------------------------------ *)
(** ** The write operations of the core, as one transition system

    Each command is one request: the handler calls the crud function and
    commits, or rolls the session back when it raises. *)

Definition get_sales_invoice (db : Db) (invoice_id business_id : Z) : option SalesInvoice :=
  first (filter (fun i => (inv_id i =? invoice_id)%Z
                          && (inv_business_id i =? business_id)%Z) (sales_invoices db)).

Definition get_purchase_bill (db : Db) (bill business_id : Z) : option PurchaseBill :=
  first (filter (fun b => (bill_id b =? bill)%Z
                          && (bill_business_id b =? business_id)%Z) (purchase_bills db)).

Definition keep_db {A} (r : result (Db * A)) : result Db :=
  match r with
  | Ok (db', _) => Ok db'
  | Err e => Err e
  end.

(** One element of the [payroll_data] list of [handle_run_payroll]. *)
Record PayrollItem := {
  pi_employee_id : Z;
  pi_additions : list Q;
  pi_deductions : list Q
}.

(** The loop of [handle_run_payroll]: every employee must belong to the
    active branch; the first failure aborts the whole run. *)
Fixpoint run_payroll (db : Db) (today : date) (business_id selected_branch : Z)
    (pay_period_start pay_period_end : date) (employees_to_pay : list PayrollItem)
  : result Db :=
  match employees_to_pay with
  | [] => Ok db
  | emp_data :: rest =>
    match get_employee_by_id db (pi_employee_id emp_data) business_id with
    | None => Err EmployeeNotInBranch
    | Some employee =>
      if negb (emp_branch_id employee =? selected_branch)%Z then
        Err EmployeeNotInBranch
      else
        match process_payroll_for_employee db today (pi_employee_id emp_data)
                business_id pay_period_start pay_period_end
                (pi_additions emp_data) (pi_deductions emp_data) with
        | Err e => Err e
        | Ok (db', _) =>
          run_payroll db' today business_id selected_branch
            pay_period_start pay_period_end rest
        end
    end
  end.

Inductive command :=
| CreateJournalEntry (business_id branch : Z) (transaction_date : date)
    (entries : list JournalLine)
| RunPayroll (today : date) (business_id selected_branch : Z)
    (pay_period_start pay_period_end : date) (employees_to_pay : list PayrollItem)
| PayVat (business_id branch : Z) (payment_date : date) (amount_paid : Q)
    (payment_account_id : Z) (output_vat_total input_vat_total : Q)
| CreateSalesInvoice (invoice_data : SalesInvoiceCreate) (business_id branch : Z)
| RecordCustomerPayment (invoice_id business_id selected_branch : Z)
    (payment_date : date) (amount_paid : Q) (payment_account_id : Z)
| RecordVendorPayment (bill business_id selected_branch : Z)
    (payment_date : date) (amount_paid : Q) (payment_account_id : Z)
| ProcessReconciliation (business_id branch account : Z) (statement_date : date)
    (statement_balance : Q) (cleared_transaction_ids : list Z)
| OtherPostingGroup (rows : list Posting).
    (* purchase bills, expenses, other income, fund transfers, credit and
       debit notes: each reaches the ledger only through
       [db.add(models.LedgerEntry(...))] *)

Definition execute (db : Db) (c : command) : Db :=
  match c with
  | CreateJournalEntry business_id branch transaction_date entries =>
    commit_or_rollback db
      (handle_create_journal_entry db business_id branch transaction_date entries)
  | RunPayroll today business_id selected_branch pay_period_start pay_period_end
      employees_to_pay =>
    match employees_to_pay with
    | [] => db                           (* "No employees selected" *)
    | _ :: _ =>
      commit_or_rollback db
        (run_payroll db today business_id selected_branch
           pay_period_start pay_period_end employees_to_pay)
    end
  | PayVat business_id branch payment_date amount_paid payment_account_id
      output_vat_total input_vat_total =>
    commit_or_rollback db
      (keep_db (create_vat_payment_entry db business_id branch payment_date
                  amount_paid payment_account_id output_vat_total input_vat_total))
  | CreateSalesInvoice invoice_data business_id branch =>
    match sic_items invoice_data with
    | [] => db                           (* "Cannot create an empty invoice." *)
    | _ :: _ =>
      commit_or_rollback db
        (keep_db (create_sales_invoice db invoice_data business_id branch))
    end
  | RecordCustomerPayment invoice_id business_id selected_branch payment_date
      amount_paid payment_account_id =>
    match get_sales_invoice db invoice_id business_id with
    | None => db
    | Some invoice =>
      if negb (inv_branch_id invoice =? selected_branch)%Z then db
      else commit_or_rollback db
             (keep_db (record_payment_for_invoice db invoice payment_date
                         amount_paid payment_account_id))
    end
  | RecordVendorPayment bill business_id selected_branch payment_date
      amount_paid payment_account_id =>
    match get_purchase_bill db bill business_id with
    | None => db
    | Some b =>
      if negb (bill_branch_id b =? selected_branch)%Z then db
      else commit_or_rollback db
             (keep_db (record_payment_for_bill db b payment_date
                         amount_paid payment_account_id))
    end
  | ProcessReconciliation business_id branch account statement_date
      statement_balance cleared_transaction_ids =>
    fst (process_reconciliation db business_id branch account statement_date
           statement_balance cleared_transaction_ids)
  | OtherPostingGroup rows => add_ledger_entries db rows
  end.

Definition run (db : Db) (cs : list command) : Db := fold_left execute cs db.

(* ------------------------------------------------------------------ *)
(** ** The ledger rows of the remaining workflows

    Purchase bills and debit notes ([app/crud/purchase.py]), expenses
    ([app/crud/expenses.py]), other income ([app/crud/other_income.py]),
    fund transfers ([app/crud/banking.py]) and credit notes
    ([app/crud/sales.py]).  Only the amounts and the
    [db.add(models.LedgerEntry(...))] calls are rendered; the document rows
    and stock movements of these workflows play no part below. *)

(** [create_fund_transfer] *)
Definition fund_transfer_postings (transfer_date : date) (amount : Q)
    (from_account_id to_account_id branch transfer : Z) : result (list Posting) :=
  if (from_account_id =? to_account_id)%Z then Err SameTransferAccounts
  else if Qle_bool amount 0 then Err NonPositiveTransfer
  else
    Ok [ Credit transfer_date amount from_account_id branch (FundTransferDoc transfer);
         Debit transfer_date amount to_account_id branch (FundTransferDoc transfer) ].

(** [create_other_income] *)
Definition other_income_postings (income_date : date) (amount : Q)
    (income_account_id deposited_to_account_id branch income : Z) : list Posting :=
  [ Debit income_date amount deposited_to_account_id branch (OtherIncomeDoc income);
    Credit income_date amount income_account_id branch (OtherIncomeDoc income) ].

(** [create_purchase_bill]: [vat_amount] comes from the form and is used
    only for a VAT-registered business. *)
Definition purchase_bill_postings (bill_date : date) (vat_registered : bool)
    (items : list (Q * Q)) (form_vat_amount : Q)
    (inventory_account ap_account vat_account branch bill : Z) : list Posting :=
  let sub_total := sum_Q (map (fun '(quantity, price) => quantity * price) items) in
  let vat_amount := if vat_registered then form_vat_amount else 0 in
  let total_amount := sub_total + vat_amount in
  [ Debit bill_date sub_total inventory_account branch (PurchaseBillDoc bill) ]
  ++ (if vat_registered && Qltb 0 vat_amount then
        [ Debit bill_date vat_amount vat_account branch (PurchaseBillDoc bill) ]
      else [])
  ++ [ Credit bill_date total_amount ap_account branch (PurchaseBillDoc bill) ].

(** [create_expense]: its ledger rows carry no document link. *)
Definition expense_postings (expense_date : date) (vat_registered : bool)
    (sub_total form_vat_amount : Q)
    (expense_account_id paid_from_account_id vat_account branch : Z) : list Posting :=
  let vat_amount := if vat_registered then form_vat_amount else 0 in
  let total_amount := sub_total + vat_amount in
  [ Debit expense_date sub_total expense_account_id branch NoDoc ]
  ++ (if vat_registered && Qltb 0 vat_amount then
        [ Debit expense_date vat_amount vat_account branch NoDoc ]
      else [])
  ++ [ Credit expense_date total_amount paid_from_account_id branch NoDoc ].

(** [delete_expense_and_reverse_ledger] *)
Definition expense_reversal_postings (today : date) (amount : Q)
    (expense_account_id paid_from_account_id branch : Z) : list Posting :=
  [ Credit today amount expense_account_id branch NoDoc;
    Debit today amount paid_from_account_id branch NoDoc ].

(** [create_credit_note_for_invoice]: each returned line is a quantity, the
    price credited and the purchase price of its product. *)
Definition credit_note_postings (credit_note_date : date)
    (items_to_return : list (Q * Q * Q))
    (ar_account revenue_account cogs_account inventory_account branch note : Z)
  : result (list Posting) :=
  match items_to_return with
  | [] => Err EmptyReturn
  | _ :: _ =>
    let total_return_value :=
      sum_Q (map (fun '(quantity, price, _) => quantity * price) items_to_return) in
    let total_return_cost :=
      sum_Q (map (fun '(quantity, _, purchase_price) => quantity * purchase_price)
                 items_to_return) in
    Ok [ Credit credit_note_date total_return_value ar_account branch (CreditNoteDoc note);
         Debit credit_note_date total_return_value revenue_account branch (CreditNoteDoc note);
         Debit credit_note_date total_return_cost inventory_account branch (CreditNoteDoc note);
         Credit credit_note_date total_return_cost cogs_account branch (CreditNoteDoc note) ]
  end.

(** [create_debit_note_for_bill] *)
Definition debit_note_postings (debit_note_date : date)
    (items_to_return : list (Q * Q))
    (ap_account inventory_account branch note : Z) : result (list Posting) :=
  match items_to_return with
  | [] => Err EmptyReturn
  | _ :: _ =>
    let total_return_value :=
      sum_Q (map (fun '(quantity, price) => quantity * price) items_to_return) in
    Ok [ Debit debit_note_date total_return_value ap_account branch (DebitNoteDoc note);
         Credit debit_note_date total_return_value inventory_account branch (DebitNoteDoc note) ]
  end.

(** Cumulative debits minus cumulative credits of an account as of a date. *)
Definition raw_balance (db : Db) (as_of : date) (branch : option Z)
    (acc : Account) : Q :=
  debit_sum db (acc_id acc) as_of branch - credit_sum db (acc_id acc) as_of branch.

(** A journal line whose amounts are not negative. *)
Definition line_non_negative (e : JournalLine) : Prop :=
  0 <= float_or_zero (jl_debit e) /\ 0 <= float_or_zero (jl_credit e).

(** Debit column minus credit column of one account on the trial balance. *)
Definition tb_gap (db : Db) (as_of : date) (branch : option Z) (acc : Account) : Q :=
  let balance := raw_balance db as_of branch acc in
  match acc_type acc with
  | ASSET | EXPENSE => balance
  | LIABILITY | EQUITY | REVENUE => if Qltb 0 balance then 0 else balance
  end.

(* ------------------------------------------------------------------ *)
(** ** Example data

    The chart of accounts seeded by [create_default_chart_of_accounts]
    ([app/crud/account.py]) for business 1, with ids in insertion order. *)

Definition some_day : date := mkDate 2024 3 15.

Definition default_accounts : list (string * AccountType * bool) :=
  [ ("Cash", ASSET, true);
    ("Accounts Receivable", ASSET, true);
    ("Inventory", ASSET, true);
    ("VAT Receivable (Input VAT)", ASSET, true);
    ("Accounts Payable", LIABILITY, true);
    ("Payroll Liabilities", LIABILITY, true);
    ("PAYE Payable", LIABILITY, true);
    ("Pension Payable", LIABILITY, true);
    ("VAT Payable (Output VAT)", LIABILITY, true);
    ("Owner's Equity", EQUITY, true);
    ("Sales Revenue", REVENUE, true);
    ("Other Income", REVENUE, true);
    ("Cost of Goods Sold", EXPENSE, true);
    ("Salary Expense", EXPENSE, true);
    ("Office Use Expense", EXPENSE, false);
    ("Miscellaneous  Expense", EXPENSE, false) ]%string.

Definition example_chart : list Account :=
  map (fun '(i, (name, type, system)) =>
         {| acc_id := i; acc_name := name; acc_type := type;
            is_system_account := system; acc_business_id := 1 |})
      (combine [1; 2; 3; 4; 5; 6; 7; 8; 9; 10; 11; 12; 13; 14; 15; 16]%Z
               default_accounts).

Definition with_rows (accs : list Account) (bs : list Business)
    (cs : list Customer) (ps : list Product) (es : list Employee)
    (rows : list LedgerEntry) : Db :=
  {| businesses := bs; accounts := accs; customers := cs; products := ps;
     employees := es; sales_invoices := []; sales_invoice_items := [];
     purchase_bills := []; journal_vouchers := []; payslips := [];
     bank_accounts := []; bank_reconciliations := []; ledger_entries := rows |}.

(** One employee of branch 1 on a gross salary of 1000, PAYE at 10%,
    pension at 5% on both sides. *)
Definition payroll_db : Db :=
  with_rows example_chart [] [] []
    [ {| emp_id := 1; emp_business_id := 1; emp_branch_id := 1;
         payroll_config :=
           Some {| gross_salary := 1000;
                   paye_rate := Some (1 # 10);
                   pension_employee_rate := Some (1 # 20);
                   pension_employer_rate := Some (1 # 20) |} |} ] [].

(** Account, debit and credit of a posting, amounts in lowest terms. *)
Definition amounts (p : Posting) : Z * Q * Q :=
  (p_account_id p, Qred (p_debit p), Qred (p_credit p)).








(** The seeded chart alone, business 1 registered for VAT. *)
Definition books_db : Db :=
  with_rows example_chart
    [ {| biz_id := 1; is_vat_registered := true; vat_rate := 1 # 10 |} ]
    [] [] [] [].

(** A balanced voucher of 100: debit Accounts Payable (5), credit Cash (1). *)
Definition vendor_prepayment : list JournalLine :=
  [ {| jl_debit := Some 100; jl_credit := None; jl_account_id := 5 |};
    {| jl_debit := None; jl_credit := Some 100; jl_account_id := 1 |} ].

(** A balanced voucher of 100: debit Cash (1), credit Other Income (12). *)
Definition interest_received : list JournalLine :=
  [ {| jl_debit := Some 100; jl_credit := None; jl_account_id := 1 |};
    {| jl_debit := None; jl_credit := Some 100; jl_account_id := 12 |} ].

(** How one request can change the ledger table: not at all, by inserting
    new rows, or by the bulk update of a reconciliation. *)
Inductive ledger_change (rows : list LedgerEntry) : list LedgerEntry -> Prop :=
| unchanged : ledger_change rows rows
| inserted (ps : list Posting) :
    ledger_change rows (fold_left insert_entry ps rows)
| reconciled (reconciliation : Z) (ids : list Z) :
    ledger_change rows (map (mark_reconciled reconciliation ids) rows).

(** Posting [i] exists and every row carrying its id is flagged reconciled. *)
Definition settled (i : Z) (rows : list LedgerEntry) : Prop :=
  In i (map entry_id rows)
  /\ forall e, In e rows -> entry_id e = i -> is_reconciled e = true.

(** Cash (account 1) of branch 1 received 500 on 15 March 2024. *)
Definition bank_db : Db :=
  add_ledger_entries books_db
    [ Debit some_day 500 1 1 (OtherIncomeDoc 1);
      Credit some_day 500 12 1 (OtherIncomeDoc 1) ].


(* ------------------------------------------------------------------ *)
(** ** Measures used by the further properties *)

(** The columns of a ledger row that are set when it is inserted. *)
Definition written_once (e : LedgerEntry) : Z * Posting := (entry_id e, posting_of e).

(** A command other than a reconciliation. *)
Definition not_a_reconciliation (c : command) : Prop :=
  match c with
  | ProcessReconciliation _ _ _ _ _ _ => False
  | _ => True
  end.

(* ------------------------------------------------------------------ *)
(** ** Document numbers as text

    [get_next_journal_voucher_number], [get_next_invoice_number],
    [get_next_purchase_bill_number], [get_next_expense_number],
    [get_next_income_number] read the digits after the last dash of the
    last-issued number; [get_next_credit_note_number] and
    [get_next_debit_note_number] read the second dash-separated field.
    The argument [last] is the number found by the query, [None] when the
    business has no document yet; the result is [None] where [int] or the
    index raises. *)

(** [s.split(sep)] for a one-character separator. *)
Fixpoint split_on (sep : ascii) (s : string) : list string :=
  match s with
  | EmptyString => [EmptyString]
  | String c s' =>
    if Ascii.eqb c sep then EmptyString :: split_on sep s'
    else
      match split_on sep s' with
      | field :: fields => String c field :: fields
      | [] => [String c EmptyString]
      end
  end.

Definition digit_of (c : ascii) : option nat :=
  let n := nat_of_ascii c in
  if (48 <=? n)%nat && (n <=? 57)%nat then Some (n - 48)%nat else None.

(** ASCII whitespace as [str.strip] sees it. *)
Definition is_space (c : ascii) : bool :=
  let n := nat_of_ascii c in
  ((9 <=? n)%nat && (n <=? 13)%nat) || ((28 <=? n)%nat && (n <=? 32)%nat).

Fixpoint lstrip (cs : list ascii) : list ascii :=
  match cs with
  | [] => []
  | c :: cs' => if is_space c then lstrip cs' else cs
  end.

Definition strip (cs : list ascii) : list ascii := rev (lstrip (rev (lstrip cs))).

(** Decimal digits, single underscores allowed between digits. *)
Fixpoint digits_value (cs : list ascii) (acc : nat) (after_digit : bool) : option nat :=
  match cs with
  | [] => if after_digit then Some acc else None
  | c :: cs' =>
    match digit_of c with
    | Some d => digits_value cs' (10 * acc + d) true
    | None =>
      if Ascii.eqb c "_" && after_digit then digits_value cs' acc false
      else None
    end
  end.

(** [int(s)] for a string: surrounding whitespace, an optional sign, digits. *)
Definition python_int (s : string) : option Z :=
  match strip (list_ascii_of_string s) with
  | "-"%char :: cs => option_map (fun n => (- Z.of_nat n)%Z) (digits_value cs 0 false)
  | "+"%char :: cs => option_map Z.of_nat (digits_value cs 0 false)
  | cs => option_map Z.of_nat (digits_value cs 0 false)
  end.

(** [str(n)] for a natural number. *)
Definition str_of_nat (n : nat) : string :=
  DecimalString.NilEmpty.string_of_uint (Nat.to_uint n).

Fixpoint zeros (k : nat) : string :=
  match k with
  | O => EmptyString
  | S k' => String "0" (zeros k')
  end.

(** [f"{n:04d}"]: at least four characters, the sign included. *)
Definition format_04d (n : Z) : string :=
  if (n <? 0)%Z then
    let digits := str_of_nat (Z.to_nat (- n)) in
    String "-" (zeros (3 - String.length digits) ++ digits)
  else
    let digits := str_of_nat (Z.to_nat n) in
    (zeros (4 - String.length digits) ++ digits)%string.

(** [prefix-NNNN] *)
Definition document_number (prefix : string) (n : Z) : string :=
  (prefix ++ "-" ++ format_04d n)%string.

(** [int(last.split('-')[-1]) + 1], formatted. *)
Definition next_number_after_last_dash (prefix : string) (last : option string)
  : option string :=
  match last with
  | None => Some (prefix ++ "-0001")%string
  | Some number =>
    match python_int (List.last (split_on "-" number) EmptyString) with
    | Some last_num => Some (document_number prefix (last_num + 1))
    | None => None
    end
  end.

(** [int(last.split('-')[1]) + 1], formatted. *)
Definition next_number_after_first_dash (prefix : string) (last : option string)
  : option string :=
  match last with
  | None => Some (prefix ++ "-0001")%string
  | Some number =>
    match nth_error (split_on "-" number) 1 with
    | Some field =>
      match python_int field with
      | Some last_num => Some (document_number prefix (last_num + 1))
      | None => None
      end
    | None => None
    end
  end.

Definition next_journal_voucher_number := next_number_after_last_dash "JV".
Definition next_invoice_number := next_number_after_last_dash "INV".
Definition next_purchase_bill_number := next_number_after_last_dash "PB".
Definition next_expense_number := next_number_after_last_dash "EXP".
Definition next_income_number := next_number_after_last_dash "INC".
Definition next_credit_note_number := next_number_after_first_dash "CN".
Definition next_debit_note_number := next_number_after_first_dash "DN".

(** A string without a dash. *)
Fixpoint no_dash (s : string) : bool :=
  match s with
  | EmptyString => true
  | String c s' => negb (Ascii.eqb c "-") && no_dash s'
  end.

Definition is_digit (c : ascii) : bool :=
  match digit_of c with
  | Some _ => true
  | None => false
  end.

(* ------------------------------------------------------------------ *)
(** ** Account ledger and cashbook ([app/crud/ledger.py],
       [app/crud/banking.py]) *)








Definition set_accounts (db : Db) (v : list Account) : Db :=
  {| businesses := businesses db; accounts := v;
     customers := customers db; products := products db;
     employees := employees db; sales_invoices := sales_invoices db;
     sales_invoice_items := sales_invoice_items db;
     purchase_bills := purchase_bills db;
     journal_vouchers := journal_vouchers db; payslips := payslips db;
     bank_accounts := bank_accounts db;
     bank_reconciliations := bank_reconciliations db;
     ledger_entries := ledger_entries db |}.

(** The unique constraint of the bank accounts on branch and account name:
    a bank account of [branch] is already called [account_name]. *)
Definition name_taken (db : Db) (branch : Z) (account_name : string) : bool :=
  existsb (fun b => (ba_branch_id b =? branch)%Z
                    && String.eqb (ba_account_name b) account_name)
          (bank_accounts db).

(** [create_bank_account]: the chart account first, then the bank account
    that points to it.  The insert of the bank account is flushed by
    [db.commit()], which raises when the unique constraint fails; nothing
    of the request is persisted then. *)
Definition create_bank_account (db : Db) (account_name : string)
    (business_id branch : Z) : result (Db * BankAccount) :=
  let new_chart_of_account :=
    {| acc_id := next_id (map acc_id (accounts db));
       acc_name := account_name;
       acc_type := ASSET;
       is_system_account := false;
       acc_business_id := business_id |} in
  let db1 := set_accounts db (accounts db ++ [new_chart_of_account]) in
  let new_bank_account :=
    {| ba_id := next_id (map ba_id (bank_accounts db1));
       ba_account_name := account_name;
       chart_of_account_id := acc_id new_chart_of_account;
       ba_branch_id := branch;
       last_reconciliation_date := None;
       last_reconciliation_balance := None |} in
  if name_taken db1 branch account_name then Err DuplicateBankAccount
  else
    Ok (set_bank_accounts db1 (bank_accounts db1 ++ [new_bank_account]),
        new_bank_account).

Fixpoint insert_by_name (a : Account) (l : list Account) : list Account :=
  match l with
  | [] => [a]
  | x :: l' =>
    if String.leb (acc_name a) (acc_name x) then a :: l
    else x :: insert_by_name a l'
  end.

(** [sorted(accounts, key=lambda x: x.name)], a stable sort. *)
Definition sorted_by_name (l : list Account) : list Account :=
  fold_right insert_by_name [] l.

(** [get_payment_accounts]: the chart accounts joined to the bank accounts of
    the branch, then the system account named Cash of the business. *)
Definition get_payment_accounts (db : Db) (business_id branch : Z) : list Account :=
  let bank_accounts :=
    flat_map (fun a =>
                map (fun _ => a)
                    (filter (fun b => (chart_of_account_id b =? acc_id a)%Z
                                      && (ba_branch_id b =? branch)%Z)
                            (bank_accounts db)))
             (accounts db) in
  let cash_account :=
    first (filter (fun a => (acc_business_id a =? business_id)%Z
                            && String.eqb (acc_name a) "Cash"
                            && is_system_account a) (accounts db)) in
  sorted_by_name
    (match cash_account with
     | Some cash => bank_accounts ++ [cash]
     | None => bank_accounts
     end).




(** The ids of [cleared_transaction_ids]. *)
Definition cleared (ids : list Z) (e : LedgerEntry) : bool :=
  existsb (Z.eqb (entry_id e)) ids.

(** Rows in ascending date order. *)
Definition by_date (a b : LedgerEntry) : Prop :=
  date_leb (transaction_date a) (transaction_date b) = true.

(* ------------------------------------------------------------------ *)
(** ** Seeding the chart of accounts ([app/crud/account.py]) *)

(** One pass of the loop over [default_accounts]: the account built from
    the entry and [business_id] is added to the session. *)
Definition add_default_account (business_id : Z) (accs : list Account)
    (acc_data : string * AccountType * bool) : list Account :=
  let '(name, type, system) := acc_data in
  accs ++ [ {| acc_id := next_id (map acc_id accs);
               acc_name := name;
               acc_type := type;
               is_system_account := system;
               acc_business_id := business_id |} ].

Definition create_default_chart_of_accounts (db : Db) (business_id : Z) : Db :=
  set_accounts db (fold_left (add_default_account business_id) default_accounts
                             (accounts db)).

(** An account of the business under the name, type and system flag of a
    default entry. *)
Definition seeded_as (business_id : Z) (acc_data : string * AccountType * bool)
    (a : Account) : Prop :=
  let '(name, type, system) := acc_data in
  acc_name a = name /\ acc_type a = type /\ is_system_account a = system
  /\ acc_business_id a = business_id.

(* ================================================================== *)
(** * The amounts as the program holds them: binary64

    Every amount of the application is a Python [float] and every amount
    column is a [Float].  The sections above compute with exact rationals,
    which is what the structure of the ledger needs.  Where a statement
    turns on rounding, on a threshold or on a test for zero, the code is
    rendered here once more, on IEEE 754 binary64 as [SpecFloat] specifies
    it (53 bits of precision, round to nearest even, signed zeros,
    infinities and NaN).

    Two aggregates are not fixed by the source and are parameters of the
    functions that use them: Python's built-in [sum] (row-order addition up
    to CPython 3.11, a compensated sum from 3.12 on) and SQL's [SUM] (the
    database backend's). *)

Module Binary64.

Definition prec : Z := 53.
Definition emax : Z := 1024.
Definition float : Type := spec_float.

Definition zero : float := S754_zero false.
Definition fadd : float -> float -> float := SFadd prec emax.
Definition fsub : float -> float -> float := SFsub prec emax.
Definition fmul : float -> float -> float := SFmul prec emax.
Definition fdiv : float -> float -> float := SFdiv prec emax.
Definition fopp : float -> float := SFopp.
Definition flt : float -> float -> bool := SFltb.
Definition fle : float -> float -> bool := SFleb.
Definition feq : float -> float -> bool := SFeqb.

(** [float(n)] for an int [n], rounded to nearest even. *)
Definition whole (n : Z) : float := binary_normalize prec emax n 0 false.

(** The double a decimal literal denotes, [decimal 9 1000] for [0.009]: the
    correctly rounded quotient of two integers below [2^53]. *)
Definition decimal (n d : Z) : float := fdiv (whole n) (whole d).

Definition is_finite (x : float) : bool :=
  match x with
  | S754_zero _ | S754_finite _ _ _ => true
  | S754_infinity _ | S754_nan => false
  end.

(** The real number a finite double stands for ([0] for the others). *)
Definition value (x : float) : Q :=
  match x with
  | S754_finite s m e =>
    let n := if s then Zneg m else Zpos m in
    if (0 <=? e)%Z then inject_Z (n * 2 ^ e)
    else Qmake n (Z.to_pos (2 ^ (- e)))
  | _ => 0
  end.

(** [math.ceil(x)]; [None] where it raises (ValueError on NaN, OverflowError
    on an infinity). *)
Definition math_ceil (x : float) : option Z :=
  match x with
  | S754_zero _ => Some 0%Z
  | S754_finite s m e =>
    let n := if s then Zneg m else Zpos m in
    if (0 <=? e)%Z then Some (n * 2 ^ e)%Z
    else Some (- ((- n) / 2 ^ (- e)))%Z
  | S754_infinity _ | S754_nan => None
  end.

(** [n] is [math.ceil] of the real number [x] stands for. *)
Definition is_ceiling (n : Z) (x : float) : Prop :=
  inject_Z n - 1 < value x /\ value x <= inject_Z n.

(** Integers of magnitude below [2^53]: binary64 holds them exactly. *)
Definition small (n : Z) : Prop := (Z.abs n < 2 ^ 53)%Z.

(** The canonical mantissa and exponent of such an integer. *)
Definition shl (c : positive) (k : N) : positive := Pos.shiftl c k.
Definition digits (c : positive) : Z := Zpos (digits2_pos c).
Definition sign_of (n : Z) : bool := (n <? 0)%Z.
Definition canon (s : bool) (c : positive) : float :=
  S754_finite s (shl c (Z.to_N (53 - digits c))) (digits c - 53).

(** [x or 0.0]: a float is falsy exactly when it equals zero. *)
Definition or_zero (x : float) : float := if feq x zero then zero else x.

(** Row-order addition from [0]: Python's [sum] up to CPython 3.11. *)
Definition sum_in_order (l : list float) : float := fold_left fadd l zero.

(** [sum(...)] over floats for a given [sum]; over nothing it is the int
    [0], which the arithmetic that follows reads as [0.0]. *)
Definition py_sum (sum : list float -> float) (l : list float) : float :=
  match l with
  | [] => zero
  | _ :: _ => sum l
  end.

(** [query.scalar() or 0.0] for a [func.sum] query: SQL's [SUM] over no rows
    is [NULL]. *)
Definition scalar_or_zero (func_sum : list float -> float) (column : list float)
  : float :=
  match column with
  | [] => zero
  | _ :: _ => or_zero (func_sum column)
  end.

(** *** Python numbers

    JSON numbers arrive as [int] or [float]; [math.ceil] returns an [int].
    Int arithmetic is exact; mixed arithmetic converts the int with
    [float(n)], which raises OverflowError beyond the range. *)

Inductive number :=
| Int (n : Z)
| Float (x : float).

Definition float_of_int (n : Z) : option float :=
  match whole n with
  | S754_infinity _ => None
  | x => Some x
  end.

Definition as_float (a : number) : option float :=
  match a with
  | Int n => float_of_int n
  | Float x => Some x
  end.

Definition add (a b : number) : option number :=
  match a, b with
  | Int m, Int n => Some (Int (m + n))
  | _, _ =>
    match as_float a, as_float b with
    | Some x, Some y => Some (Float (fadd x y))
    | _, _ => None
    end
  end.

(** Row-order addition from the int [0]. *)
Definition sum_numbers_in_order (l : list number) : option number :=
  fold_left (fun acc a => match acc with
                          | Some t => add t a
                          | None => None
                          end) l (Some (Int 0)).

(** *** Rows and session *)

Record LedgerEntry := {
  entry_id : Z;
  transaction_date : date;
  debit : float;
  credit : float;
  account_id : Z;
  branch_id : Z;
  source : SourceDoc;
  is_reconciled : bool;
  reconciliation_id : option Z
}.

(** The arguments of one [models.LedgerEntry(...)] call; the amount column
    that is not passed takes its default [0.0]. *)
Record Posting := {
  p_date : date;
  p_debit : float;
  p_credit : float;
  p_account_id : Z;
  p_branch_id : Z;
  p_source : SourceDoc
}.

Definition Debit (d : date) (amount : float) (account branch : Z) (s : SourceDoc)
  : Posting :=
  {| p_date := d; p_debit := amount; p_credit := zero;
     p_account_id := account; p_branch_id := branch; p_source := s |}.

Definition Credit (d : date) (amount : float) (account branch : Z) (s : SourceDoc)
  : Posting :=
  {| p_date := d; p_debit := zero; p_credit := amount;
     p_account_id := account; p_branch_id := branch; p_source := s |}.

Record SalesInvoice := {
  inv_id : Z;
  invoice_number : Z;
  inv_customer_id : Z;
  inv_total_amount : float;
  inv_paid_amount : float;
  inv_status : string;
  inv_branch_id : Z;
  inv_business_id : Z
}.

Record PurchaseBill := {
  bill_id : Z;
  bill_vendor_id : Z;
  bill_total_amount : float;
  bill_paid_amount : float;
  bill_status : string;
  bill_branch_id : Z;
  bill_business_id : Z
}.

Record PayrollConfig := {
  gross_salary : float;
  paye_rate : option float;
  pension_employee_rate : option float;
  pension_employer_rate : option float
}.

Record Employee := {
  emp_id : Z;
  emp_business_id : Z;
  emp_branch_id : Z;
  payroll_config : option PayrollConfig
}.

(** One element of [additions] or [deductions]; a field is [None] when the
    key is missing or, for the amount, when the value is not a number. *)
Record PayslipItem := {
  item_description : option string;
  item_amount : option number
}.

(** The payslip object as the function leaves it: the attributes hold the
    Python values assigned to them. *)
Record Payslip := {
  ps_id : Z;
  ps_employee_id : Z;
  ps_pay_period_start : date;
  ps_pay_period_end : date;
  ps_pay_date : date;
  gross_pay : float;
  paye_deduction : Z;
  pension_employee_deduction : Z;
  pension_employer_contribution : Z;
  total_deductions : number;
  net_pay : float;
  ps_additions : list PayslipItem;
  ps_deductions : list PayslipItem
}.

Record Db := {
  accounts : list Account;
  employees : list Employee;
  sales_invoices : list SalesInvoice;
  purchase_bills : list PurchaseBill;
  journal_vouchers : list JournalVoucher;
  payslips : list Payslip;
  ledger_entries : list LedgerEntry
}.

Definition set_sales_invoices (db : Db) (v : list SalesInvoice) : Db :=
  {| accounts := accounts db; employees := employees db; sales_invoices := v;
     purchase_bills := purchase_bills db; journal_vouchers := journal_vouchers db;
     payslips := payslips db; ledger_entries := ledger_entries db |}.

Definition set_purchase_bills (db : Db) (v : list PurchaseBill) : Db :=
  {| accounts := accounts db; employees := employees db;
     sales_invoices := sales_invoices db; purchase_bills := v;
     journal_vouchers := journal_vouchers db;
     payslips := payslips db; ledger_entries := ledger_entries db |}.

Definition set_journal_vouchers (db : Db) (v : list JournalVoucher) : Db :=
  {| accounts := accounts db; employees := employees db;
     sales_invoices := sales_invoices db; purchase_bills := purchase_bills db;
     journal_vouchers := v;
     payslips := payslips db; ledger_entries := ledger_entries db |}.

Definition set_payslips (db : Db) (v : list Payslip) : Db :=
  {| accounts := accounts db; employees := employees db;
     sales_invoices := sales_invoices db; purchase_bills := purchase_bills db;
     journal_vouchers := journal_vouchers db;
     payslips := v; ledger_entries := ledger_entries db |}.

Definition set_ledger_entries (db : Db) (v : list LedgerEntry) : Db :=
  {| accounts := accounts db; employees := employees db;
     sales_invoices := sales_invoices db; purchase_bills := purchase_bills db;
     journal_vouchers := journal_vouchers db;
     payslips := payslips db; ledger_entries := v |}.

Inductive error :=
| AmountUnreadable          (* [float(...)] raises on a debit or credit *)
| JournalNotBalanced        (* "Journal entry is not balanced. ..." *)
| AccountIdUnreadable       (* [int(entry_data['account_id'])] raises *)
| EmployeeOrConfigNotFound
| CoreAccountsMissing
| Raises.                   (* any other exception: an item without amount
                               or description, [sum], [math.ceil] or
                               [float(n)] raising *)

Inductive result (A : Type) :=
| Ok (a : A)
| Err (e : error).
Arguments Ok {A} a.
Arguments Err {A} e.

Definition account_by_name (db : Db) (business_id : Z) (name : string)
  : option Account :=
  first (filter (fun a => (acc_business_id a =? business_id)%Z
                          && String.eqb (acc_name a) name) (accounts db)).

Definition insert_entry (rows : list LedgerEntry) (p : Posting) : list LedgerEntry :=
  rows ++ [ {| entry_id := next_id (map entry_id rows);
               transaction_date := p_date p;
               debit := p_debit p;
               credit := p_credit p;
               account_id := p_account_id p;
               branch_id := p_branch_id p;
               source := p_source p;
               is_reconciled := false;
               reconciliation_id := None |} ].

Definition add_ledger_entries (db : Db) (ps : list Posting) : Db :=
  set_ledger_entries db (fold_left insert_entry ps (ledger_entries db)).

Definition posting_of (e : LedgerEntry) : Posting :=
  {| p_date := transaction_date e; p_debit := debit e; p_credit := credit e;
     p_account_id := account_id e; p_branch_id := branch_id e;
     p_source := source e |}.

(** The ledger rows a step added to the session, read back as postings. *)
Definition posted (before after : Db) : list Posting :=
  map posting_of (skipn (List.length (ledger_entries before)) (ledger_entries after)).

(* ------------------------------------------------------------------ *)
(** ** Manual journal vouchers ([app/crud/journal.py]) *)

(** What [float(e.get(key, 0) or 0)] finds under a key of an entry dict:
    nothing or a falsy value, read as [0.0]; a value that [float] converts;
    or a truthy value on which [float] raises. *)
Inductive amount_field :=
| Absent
| Reads (x : float)
| Unreadable.

(** One dict of [entries]; [jl_account_id] is [None] when the key is missing
    or [int] raises on its value. *)
Record JournalLine := {
  jl_debit : amount_field;
  jl_credit : amount_field;
  jl_account_id : option Z
}.

Definition read_amount (f : amount_field) : option float :=
  match f with
  | Absent => Some zero
  | Reads x => Some x
  | Unreadable => None
  end.

Fixpoint read_amounts (fs : list amount_field) : option (list float) :=
  match fs with
  | [] => Some []
  | f :: fs' =>
    match read_amount f, read_amounts fs' with
    | Some x, Some xs => Some (x :: xs)
    | _, _ => None
    end
  end.

Definition get_next_journal_voucher_number (db : Db) (business_id : Z) : Z :=
  match first (rev (filter (fun v => (jv_business_id v =? business_id)%Z)
                           (journal_vouchers db))) with
  | None => 1%Z
  | Some last_voucher => (voucher_number last_voucher + 1)%Z
  end.

(** [0.009 > difference > -0.009] *)
Definition within_tolerance (difference : float) : bool :=
  flt difference (decimal 9 1000) && flt (fopp (decimal 9 1000)) difference.

(** The loop over [entries]: one row per line with a positive debit or
    credit; [None] when [int(entry_data['account_id'])] raises on one. *)
Fixpoint journal_postings (transaction_date : date) (branch_id voucher_id : Z)
    (entries : list JournalLine) : option (list Posting) :=
  match entries with
  | [] => Some []
  | entry_data :: rest =>
    match read_amount (jl_debit entry_data), read_amount (jl_credit entry_data) with
    | Some debit, Some credit =>
      if flt zero debit || flt zero credit then
        match jl_account_id entry_data,
              journal_postings transaction_date branch_id voucher_id rest with
        | Some account, Some rows =>
          Some ({| p_date := transaction_date; p_debit := debit; p_credit := credit;
                   p_account_id := account; p_branch_id := branch_id;
                   p_source := JournalVoucherDoc voucher_id |} :: rows)
        | _, _ => None
        end
      else journal_postings transaction_date branch_id voucher_id rest
    | _, _ => None
    end
  end.

Definition create_journal_voucher (sum : list float -> float) (db : Db)
    (business_id branch_id : Z) (transaction_date : date)
    (entries : list JournalLine) : result (Db * JournalVoucher) :=
  match read_amounts (map jl_debit entries), read_amounts (map jl_credit entries) with
  | Some debits, Some credits =>
    let total_debits := py_sum sum debits in
    let total_credits := py_sum sum credits in
    if negb (within_tolerance (fsub total_debits total_credits)) then
      Err JournalNotBalanced
    else
      let new_voucher :=
        {| jv_id := next_id (map jv_id (journal_vouchers db));
           voucher_number := get_next_journal_voucher_number db business_id;
           jv_transaction_date := transaction_date;
           jv_business_id := business_id;
           jv_branch_id := branch_id |} in
      let db1 := set_journal_vouchers db (journal_vouchers db ++ [new_voucher]) in
      match journal_postings transaction_date branch_id (jv_id new_voucher) entries with
      | Some rows => Ok (add_ledger_entries db1 rows, new_voucher)
      | None => Err AccountIdUnreadable
      end
  | _, _ => Err AmountUnreadable
  end.

(* ------------------------------------------------------------------ *)
(** ** Payroll ([app/crud/employee.py]) *)

Definition get_employee_by_id (db : Db) (employee_id business_id : Z)
  : option Employee :=
  first (filter (fun e => (emp_id e =? employee_id)%Z
                          && (emp_business_id e =? business_id)%Z) (employees db)).

(** [config.rate or 0.0] for a nullable rate column. *)
Definition rate_or_zero (rate : option float) : float :=
  match rate with
  | Some r => or_zero r
  | None => zero
  end.

Fixpoint item_amounts (items : list PayslipItem) : option (list number) :=
  match items with
  | [] => Some []
  | item :: rest =>
    match item_amount item, item_amounts rest with
    | Some a, Some l => Some (a :: l)
    | _, _ => None
    end
  end.

Definition described (items : list PayslipItem) : bool :=
  forallb (fun item => match item_description item with
                       | Some _ => true
                       | None => false
                       end) items.

(** The ledger rows of one payslip; the PAYE and pension rows are written
    only for positive amounts. *)
Definition payroll_postings (today : date) (branch_id payslip_id : Z)
    (salary_expense_account payroll_liabilities_account
     paye_payable_account pension_payable_account : Account)
    (total_payroll_expense net_pay : float)
    (paye_deduction total_pension_contribution : Z)
    (paye_credit pension_credit : float) : list Posting :=
  [ Debit today total_payroll_expense (acc_id salary_expense_account)
      branch_id (PayslipDoc payslip_id);
    Credit today net_pay (acc_id payroll_liabilities_account)
      branch_id (PayslipDoc payslip_id) ]
  ++ (if (0 <? paye_deduction)%Z then
        [ Credit today paye_credit (acc_id paye_payable_account)
            branch_id (PayslipDoc payslip_id) ]
      else [])
  ++ (if (0 <? total_pension_contribution)%Z then
        [ Credit today pension_credit (acc_id pension_payable_account)
            branch_id (PayslipDoc payslip_id) ]
      else []).

(** [sum] is Python's built-in over the ['amount'] values; [today] is
    [date.today()].  An int that reaches a Float column of a ledger row is
    stored as [float(n)]. *)
Definition process_payroll_for_employee (sum : list number -> option number)
    (db : Db) (today : date) (employee_id business_id : Z)
    (pay_period_start pay_period_end : date)
    (additions deductions : list PayslipItem) : result (Db * Payslip) :=
  match get_employee_by_id db employee_id business_id with
  | None => Err EmployeeOrConfigNotFound
  | Some employee =>
    match payroll_config employee with
    | None => Err EmployeeOrConfigNotFound
    | Some config =>
      let branch_id := emp_branch_id employee in
      match account_by_name db business_id "Salary Expense",
            account_by_name db business_id "Payroll Liabilities",
            account_by_name db business_id "PAYE Payable",
            account_by_name db business_id "Pension Payable" with
      | Some salary_expense_account, Some payroll_liabilities_account,
        Some paye_payable_account, Some pension_payable_account =>
        let gross_pay := gross_salary config in
        match item_amounts additions, item_amounts deductions with
        | Some addition_amounts, Some deduction_amounts =>
          match sum addition_amounts, sum deduction_amounts with
          | Some total_additions, Some other_deductions =>
            match add (Float gross_pay) total_additions with
            | Some (Float taxable_income) =>
              match math_ceil (fmul taxable_income (rate_or_zero (paye_rate config))),
                    math_ceil (fmul gross_pay
                                 (rate_or_zero (pension_employee_rate config))),
                    math_ceil (fmul gross_pay
                                 (rate_or_zero (pension_employer_rate config))) with
              | Some paye_deduction, Some pension_employee_deduction,
                Some pension_employer_contribution =>
                let total_pension_contribution :=
                  (pension_employee_deduction + pension_employer_contribution)%Z in
                match add (Int (paye_deduction + pension_employee_deduction))
                          other_deductions with
                | Some total_deductions =>
                  match as_float total_deductions,
                        float_of_int pension_employer_contribution,
                        float_of_int paye_deduction,
                        float_of_int total_pension_contribution with
                  | Some deductions_as_float, Some employer_as_float,
                    Some paye_credit, Some pension_credit =>
                    if described additions && described deductions then
                      let net_pay := fsub taxable_income deductions_as_float in
                      let db_payslip :=
                        {| ps_id := next_id (map ps_id (payslips db));
                           ps_employee_id := emp_id employee;
                           ps_pay_period_start := pay_period_start;
                           ps_pay_period_end := pay_period_end;
                           ps_pay_date := today;
                           gross_pay := gross_pay;
                           paye_deduction := paye_deduction;
                           pension_employee_deduction := pension_employee_deduction;
                           pension_employer_contribution :=
                             pension_employer_contribution;
                           total_deductions := total_deductions;
                           net_pay := net_pay;
                           ps_additions := additions;
                           ps_deductions := deductions |} in
                      let db1 := set_payslips db (payslips db ++ [db_payslip]) in
                      let total_payroll_expense :=
                        fadd taxable_income employer_as_float in
                      Ok (add_ledger_entries db1
                            (payroll_postings today branch_id (ps_id db_payslip)
                               salary_expense_account payroll_liabilities_account
                               paye_payable_account pension_payable_account
                               total_payroll_expense net_pay
                               paye_deduction total_pension_contribution
                               paye_credit pension_credit),
                          db_payslip)
                    else Err Raises
                  | _, _, _, _ => Err Raises
                  end
                | None => Err Raises
                end
              | _, _, _ => Err Raises
              end
            | _ => Err Raises
            end
          | _, _ => Err Raises
          end
        | _, _ => Err Raises
        end
      | _, _, _, _ => Err CoreAccountsMissing
      end
    end
  end.

(* ------------------------------------------------------------------ *)
(** ** Payments ([app/crud/sales.py], [app/crud/purchase.py]) *)

(** [paid_amount >= total_amount - 0.001] *)
Definition payment_status (paid_amount total_amount : float) : string :=
  if fle (fsub total_amount (decimal 1 1000)) paid_amount then "Paid"
  else "Partially Paid".

Definition record_payment_for_invoice (db : Db) (invoice : SalesInvoice)
    (payment_date : date) (amount_paid : float) (payment_account_id : Z)
  : result (Db * SalesInvoice) :=
  match account_by_name db (inv_business_id invoice) "Accounts Receivable" with
  | None => Err CoreAccountsMissing
  | Some ar_account =>
    let paid_amount := fadd (inv_paid_amount invoice) amount_paid in
    let invoice' :=
      {| inv_id := inv_id invoice;
         invoice_number := invoice_number invoice;
         inv_customer_id := inv_customer_id invoice;
         inv_total_amount := inv_total_amount invoice;
         inv_paid_amount := paid_amount;
         inv_status := payment_status paid_amount (inv_total_amount invoice);
         inv_branch_id := inv_branch_id invoice;
         inv_business_id := inv_business_id invoice |} in
    let db1 := set_sales_invoices db
        (update_first (fun i => (inv_id i =? inv_id invoice)%Z)
                      (fun _ => invoice') (sales_invoices db)) in
    let branch_id := inv_branch_id invoice in
    Ok (add_ledger_entries db1
          [ Credit payment_date amount_paid (acc_id ar_account) branch_id
              (SalesInvoiceDoc (inv_id invoice));
            Debit payment_date amount_paid payment_account_id branch_id
              (SalesInvoiceDoc (inv_id invoice)) ],
        invoice')
  end.

Definition record_payment_for_bill (db : Db) (bill : PurchaseBill)
    (payment_date : date) (amount_paid : float) (payment_account_id : Z)
  : result (Db * PurchaseBill) :=
  match account_by_name db (bill_business_id bill) "Accounts Payable" with
  | None => Err CoreAccountsMissing
  | Some ap_account =>
    let paid_amount := fadd (bill_paid_amount bill) amount_paid in
    let bill' :=
      {| bill_id := bill_id bill;
         bill_vendor_id := bill_vendor_id bill;
         bill_total_amount := bill_total_amount bill;
         bill_paid_amount := paid_amount;
         bill_status := payment_status paid_amount (bill_total_amount bill);
         bill_branch_id := bill_branch_id bill;
         bill_business_id := bill_business_id bill |} in
    let db1 := set_purchase_bills db
        (update_first (fun b => (bill_id b =? bill_id bill)%Z)
                      (fun _ => bill') (purchase_bills db)) in
    let branch_id := bill_branch_id bill in
    Ok (add_ledger_entries db1
          [ Debit payment_date amount_paid (acc_id ap_account) branch_id
              (PurchaseBillDoc (bill_id bill));
            Credit payment_date amount_paid payment_account_id branch_id
              (PurchaseBillDoc (bill_id bill)) ],
        bill')
  end.

(* ------------------------------------------------------------------ *)
(** ** Fund transfers ([app/crud/banking.py]) *)

Inductive transfer_error :=
| SameTransferAccounts      (* "From and To accounts cannot be the same." *)
| NonPositiveTransfer.      (* "Transfer amount must be positive." *)

(** [create_fund_transfer]: the two guards, then the rows written for the
    transfer that [db.flush()] numbered [transfer].  The second guard is
    [amount <= 0], which no NaN satisfies. *)
Definition fund_transfer_postings (transfer_date : date) (amount : float)
    (from_account_id to_account_id branch transfer : Z)
  : transfer_error + list Posting :=
  if (from_account_id =? to_account_id)%Z then inl SameTransferAccounts
  else if fle amount zero then inl NonPositiveTransfer
  else
    inr [ Credit transfer_date amount from_account_id branch (FundTransferDoc transfer);
          Debit transfer_date amount to_account_id branch (FundTransferDoc transfer) ].

(* ------------------------------------------------------------------ *)
(** ** Statement engine ([app/crud/reports.py], [app/crud/ledger.py]) *)

(** Python dicts keyed by account name, in insertion order. *)
Definition dict : Type := list (string * float).

Fixpoint dict_set (d : dict) (k : string) (v : float) : dict :=
  match d with
  | [] => [(k, v)]
  | (k', v') :: d' =>
    if String.eqb k' k then (k', v) :: d' else (k', v') :: dict_set d' k v
  end.

(** [d.pop(k, default)]: the value removed and the remaining dict. *)
Fixpoint dict_pop (d : dict) (k : string) (default : float) : float * dict :=
  match d with
  | [] => (default, [])
  | (k', v') :: d' =>
    if String.eqb k' k then (v', d')
    else let '(v, rest) := dict_pop d' k default in (v, (k', v') :: rest)
  end.

Definition dict_values (d : dict) : list float := map snd d.


(** [if branch_id: query = query.filter(...)]: neither [None] nor [0]
    restricts the query. *)
Definition branch_filter (branch : option Z) (e : LedgerEntry) : bool :=
  match branch with
  | Some b => if (b =? 0)%Z then true else (branch_id e =? b)%Z
  | None => true
  end.

(** Rows of one account dated on or before [as_of], optionally of one branch. *)
Definition entries_as_of (db : Db) (account : Z) (as_of : date)
    (branch : option Z) : list LedgerEntry :=
  filter (fun e => (account_id e =? account)%Z
                   && date_leb (transaction_date e) as_of
                   && branch_filter branch e) (ledger_entries db).

(** [db.query(func.sum(LedgerEntry.debit)).filter(...).scalar() or 0.0] *)
Definition debit_sum (func_sum : list float -> float) (db : Db) (account : Z)
    (as_of : date) (branch : option Z) : float :=
  scalar_or_zero func_sum (map debit (entries_as_of db account as_of branch)).

Definition credit_sum (func_sum : list float -> float) (db : Db) (account : Z)
    (as_of : date) (branch : option Z) : float :=
  scalar_or_zero func_sum (map credit (entries_as_of db account as_of branch)).

Definition accounts_of_business (db : Db) (business_id : Z) : list Account :=
  filter (fun a => (acc_business_id a =? business_id)%Z) (accounts db).

Definition accounts_of_type (db : Db) (business_id : Z) (t : AccountType)
  : list Account :=
  filter (fun a => (acc_business_id a =? business_id)%Z
                   && AccountType_eqb (acc_type a) t) (accounts db).

Record TBLine := {
  account_name : string;
  line_debit : float;
  line_credit : float
}.

Record TBSection := {
  lines : list TBLine;
  total_debit : float;
  total_credit : float
}.

Record TrialBalance := {
  tb_asset : TBSection;
  tb_liability : TBSection;
  tb_equity : TBSection;
  tb_revenue : TBSection;
  tb_expense : TBSection;
  grand_total_debit : float;
  grand_total_credit : float
}.

Definition empty_section : TBSection :=
  {| lines := []; total_debit := zero; total_credit := zero |}.

Definition empty_trial_balance : TrialBalance :=
  {| tb_asset := empty_section; tb_liability := empty_section;
     tb_equity := empty_section; tb_revenue := empty_section;
     tb_expense := empty_section;
     grand_total_debit := zero; grand_total_credit := zero |}.

Definition section (r : TrialBalance) (t : AccountType) : TBSection :=
  match t with
  | ASSET => tb_asset r
  | LIABILITY => tb_liability r
  | EQUITY => tb_equity r
  | REVENUE => tb_revenue r
  | EXPENSE => tb_expense r
  end.

Definition add_line (s : TBSection) (l : TBLine) : TBSection :=
  {| lines := lines s ++ [l];
     total_debit := fadd (total_debit s) (line_debit l);
     total_credit := fadd (total_credit s) (line_credit l) |}.

(** The four [+=] updates and the [append] at the end of the loop body. *)
Definition report_line (r : TrialBalance) (t : AccountType) (l : TBLine)
  : TrialBalance :=
  {| tb_asset := if AccountType_eqb t ASSET then add_line (tb_asset r) l else tb_asset r;
     tb_liability := if AccountType_eqb t LIABILITY then add_line (tb_liability r) l else tb_liability r;
     tb_equity := if AccountType_eqb t EQUITY then add_line (tb_equity r) l else tb_equity r;
     tb_revenue := if AccountType_eqb t REVENUE then add_line (tb_revenue r) l else tb_revenue r;
     tb_expense := if AccountType_eqb t EXPENSE then add_line (tb_expense r) l else tb_expense r;
     grand_total_debit := fadd (grand_total_debit r) (line_debit l);
     grand_total_credit := fadd (grand_total_credit r) (line_credit l) |}.

(** The debit and credit columns of one account with raw balance [balance]. *)
Definition tb_columns (t : AccountType) (balance : float) : float * float :=
  match t with
  | ASSET | EXPENSE =>
    (if flt zero balance then balance else zero,
     if flt balance zero then fopp balance else zero)
  | LIABILITY | EQUITY | REVENUE =>
    (if flt zero balance then balance else zero,
     if flt balance zero then fopp balance else balance)
  end.

(** [balance = debit_sum - credit_sum] of the trial balance. *)
Definition tb_balance (func_sum : list float -> float) (db : Db) (as_of : date)
    (branch : option Z) (acc : Account) : float :=
  fsub (debit_sum func_sum db (acc_id acc) as_of branch)
       (credit_sum func_sum db (acc_id acc) as_of branch).

(** One iteration of [for acc in all_accounts]. *)
Definition tb_account (func_sum : list float -> float) (db : Db) (as_of : date)
    (branch : option Z) (report_data : TrialBalance) (acc : Account)
  : TrialBalance :=
  let balance := tb_balance func_sum db as_of branch acc in
  if feq balance zero then report_data
  else
    let '(debit_balance, credit_balance) := tb_columns (acc_type acc) balance in
    report_line report_data (acc_type acc)
      {| account_name := acc_name acc;
         line_debit := debit_balance;
         line_credit := credit_balance |}.

(** [ORDER BY type, name]: the rows sorted by the store's comparison of the
    two columns.  How an enum column and text compare is the backend's
    business; [precedes a b] says that the store puts [a] strictly before
    [b]. *)
Fixpoint insert_account (precedes : Account -> Account -> bool) (a : Account)
    (l : list Account) : list Account :=
  match l with
  | [] => [a]
  | x :: l' =>
    if precedes x a then x :: insert_account precedes a l' else a :: l
  end.

Definition order_by (precedes : Account -> Account -> bool) (l : list Account)
  : list Account :=
  fold_right (insert_account precedes) [] l.

Definition get_trial_balance_data (func_sum : list float -> float)
    (precedes : Account -> Account -> bool) (db : Db)
    (business_id : Z) (as_of_date : date) (branch : option Z) : TrialBalance :=
  let all_accounts := order_by precedes (accounts_of_business db business_id) in
  fold_left (tb_account func_sum db as_of_date branch) all_accounts
            empty_trial_balance.

(** [func.sum(credit - debit)] for a revenue account, [func.sum(debit -
    credit)] otherwise, over the rows of the period: the difference is taken
    row by row inside the query. *)
Definition period_balance (func_sum : list float -> float) (db : Db)
    (acc : Account) (start_date end_date : date) (branch : option Z) : float :=
  scalar_or_zero func_sum
    (map (fun e => match acc_type acc with
                   | REVENUE => fsub (credit e) (debit e)
                   | _ => fsub (debit e) (credit e)
                   end)
         (filter (fun e => (account_id e =? acc_id acc)%Z
                           && between start_date end_date (transaction_date e)
                           && branch_filter branch e) (ledger_entries db))).

(** The nested helper [get_balance_for_accounts]. *)
Definition get_balance_for_accounts (func_sum : list float -> float) (db : Db)
    (accs : list Account) (start_date end_date : date) (branch : option Z)
  : dict * float :=
  fold_left (fun '(totals, total_balance) acc =>
               let balance :=
                 period_balance func_sum db acc start_date end_date branch in
               (dict_set totals (acc_name acc) balance, fadd total_balance balance))
            accs ([], zero).

Record ProfitAndLoss := {
  revenue_totals : dict;
  total_revenue : float;
  cogs : float;
  gross_profit : float;
  operating_expenses : dict;
  total_operating_expenses : float;
  net_profit : float
}.

Definition get_profit_and_loss_data (sum func_sum : list float -> float) (db : Db)
    (business_id : Z) (start_date end_date : date) (branch : option Z)
  : ProfitAndLoss :=
  let revenue_accounts := accounts_of_type db business_id REVENUE in
  let expense_accounts := accounts_of_type db business_id EXPENSE in
  let '(revenue_totals, total_revenue) :=
    get_balance_for_accounts func_sum db revenue_accounts start_date end_date branch in
  let '(expense_totals0, total_expenses) :=
    get_balance_for_accounts func_sum db expense_accounts start_date end_date branch in
  let '(cogs, expense_totals) := dict_pop expense_totals0 "Cost of Goods Sold" zero in
  let gross_profit := fsub total_revenue cogs in
  let net_profit := fsub gross_profit (py_sum sum (dict_values expense_totals)) in
  {| revenue_totals := revenue_totals;
     total_revenue := total_revenue;
     cogs := cogs;
     gross_profit := gross_profit;
     operating_expenses := expense_totals;
     total_operating_expenses := py_sum sum (dict_values expense_totals);
     net_profit := net_profit |}.

(** [balance] of the nested helper [get_account_balances]. *)
Definition bs_balance (func_sum : list float -> float) (db : Db)
    (account_type : AccountType) (as_of : date) (branch : option Z)
    (acc : Account) : float :=
  let debit_sum := debit_sum func_sum db (acc_id acc) as_of branch in
  let credit_sum := credit_sum func_sum db (acc_id acc) as_of branch in
  match account_type with
  | ASSET | EXPENSE => fsub debit_sum credit_sum
  | _ => fsub credit_sum debit_sum
  end.

(** One iteration of the loop of [get_account_balances]. *)
Definition bs_account (func_sum : list float -> float) (db : Db)
    (account_type : AccountType) (as_of : date) (branch : option Z)
    (state : dict * float) (acc : Account) : dict * float :=
  let '(balances, total) := state in
  let balance := bs_balance func_sum db account_type as_of branch acc in
  if negb (feq balance zero) then
    (dict_set balances (acc_name acc) balance, fadd total balance)
  else (balances, total).

Definition get_account_balances (func_sum : list float -> float) (db : Db)
    (business_id : Z) (as_of : date) (branch : option Z)
    (account_type : AccountType) : dict * float :=
  fold_left (bs_account func_sum db account_type as_of branch)
            (accounts_of_type db business_id account_type) ([], zero).

Record BalanceSheet := {
  assets : dict;
  total_assets : float;
  liabilities : dict;
  total_liabilities : float;
  equity : dict;
  total_equity : float;
  total_liabilities_and_equity : float
}.

Definition get_balance_sheet_data (sum func_sum : list float -> float) (db : Db)
    (business_id : Z) (as_of_date : date) (branch : option Z) : BalanceSheet :=
  let start_of_year := start_of_year as_of_date in
  let pnl_data :=
    get_profit_and_loss_data sum func_sum db business_id start_of_year as_of_date
      branch in
  let net_profit_for_period := net_profit pnl_data in
  let '(asset_balances, total_assets) :=
    get_account_balances func_sum db business_id as_of_date branch ASSET in
  let '(liability_balances, total_liabilities) :=
    get_account_balances func_sum db business_id as_of_date branch LIABILITY in
  let '(equity_balances, total_equity0) :=
    get_account_balances func_sum db business_id as_of_date branch EQUITY in
  let equity_balances :=
    dict_set equity_balances "Retained Earnings (Current Period)"
      net_profit_for_period in
  let total_equity := fadd total_equity0 net_profit_for_period in
  {| assets := asset_balances;
     total_assets := total_assets;
     liabilities := liability_balances;
     total_liabilities := total_liabilities;
     equity := equity_balances;
     total_equity := total_equity;
     total_liabilities_and_equity := fadd total_liabilities total_equity |}.

(* ------------------------------------------------------------------ *)
(** ** Books kept in whole numbers

    Measures for the statements about ledgers whose amounts are whole
    numbers small enough for binary64 to add them without rounding. *)

Definition zsum (l : list Z) : Z := fold_right Z.add 0%Z l.

(** The sum of the absolute values of a column. *)
Definition abs_sum (l : list Z) : Z :=
  fold_right (fun n acc => (Z.abs n + acc)%Z) 0%Z l.

(** An aggregate that returns the exact sum of a column of whole numbers
    whenever binary64 can hold every partial sum. *)
Definition exact_on_whole_numbers (aggregate : list float -> float) : Prop :=
  forall l : list Z,
    l <> [] -> (abs_sum l < 2 ^ 53)%Z -> aggregate (map whole l) = whole (zsum l).

(** The integer a whole amount stands for. *)
Definition amount (x : float) : Z :=
  match math_ceil x with
  | Some n => n
  | None => 0%Z
  end.

Definition is_whole (x : float) : Prop := x = whole (amount x).

Definition whole_amounts (db : Db) : Prop :=
  Forall (fun e => is_whole (debit e) /\ is_whole (credit e)) (ledger_entries db).

(** The absolute amounts of a row, and of all ledger rows together. *)
Definition weight (e : LedgerEntry) : Z :=
  (Z.abs (amount (debit e)) + Z.abs (amount (credit e)))%Z.

Definition total_abs (db : Db) : Z := abs_sum (map weight (ledger_entries db)).


(** Cumulative debits minus cumulative credits of an account, in integers. *)
Definition raw_balance (db : Db) (as_of : date) (branch : option Z)
    (acc : Account) : Z :=
  (zsum (map (fun e => amount (debit e)) (entries_as_of db (acc_id acc) as_of branch))
   - zsum (map (fun e => amount (credit e))
               (entries_as_of db (acc_id acc) as_of branch)))%Z.

(** The balance an account contributes to its balance-sheet section. *)
Definition signed_balance (db : Db) (t : AccountType) (as_of : date)
    (branch : option Z) (acc : Account) : Z :=
  match t with
  | ASSET | EXPENSE => raw_balance db as_of branch acc
  | _ => (- raw_balance db as_of branch acc)%Z
  end.




(** The handlers' [try: ... db.commit() except: db.rollback()]. *)
Definition commit_or_rollback {A} (db : Db) (r : result (Db * A)) : Db :=
  match r with
  | Ok (db', _) => db'
  | Err _ => db
  end.

(* ------------------------------------------------------------------ *)
(** ** Example data *)

Definition books (rows : list Posting) : Db :=
  add_ledger_entries
    {| accounts := example_chart; employees := []; sales_invoices := [];
       purchase_bills := []; journal_vouchers := []; payslips := [];
       ledger_entries := [] |} rows.

(** A line that debits [account] by [n/d]. *)
Definition debit_line (n d account : Z) : JournalLine :=
  {| jl_debit := Reads (decimal n d); jl_credit := Absent;
     jl_account_id := Some account |}.

Definition credit_line (n d account : Z) : JournalLine :=
  {| jl_debit := Absent; jl_credit := Reads (decimal n d);
     jl_account_id := Some account |}.

(** Account, debit and credit of a row. *)
Definition columns (p : Posting) : Z * float * float :=
  (p_account_id p, p_debit p, p_credit p).

(** Two employees of branch 1: one on a gross salary of 1000 with PAYE at
    10% and pension at 5% on both sides, one on 700 with PAYE at 7%. *)
Definition payroll_db : Db :=
  {| accounts := example_chart;
     employees :=
       [ {| emp_id := 1; emp_business_id := 1; emp_branch_id := 1;
            payroll_config :=
              Some {| gross_salary := whole 1000;
                      paye_rate := Some (decimal 1 10);
                      pension_employee_rate := Some (decimal 5 100);
                      pension_employer_rate := Some (decimal 5 100) |} |};
         {| emp_id := 2; emp_business_id := 1; emp_branch_id := 1;
            payroll_config :=
              Some {| gross_salary := whole 700;
                      paye_rate := Some (decimal 7 100);
                      pension_employee_rate := None;
                      pension_employer_rate := None |} |} ];
     sales_invoices := []; purchase_bills := []; journal_vouchers := [];
     payslips := []; ledger_entries := [] |}.

(** An unpaid invoice of customer 1 over [total], and an unpaid bill of
    vendor 1 over [total], both of branch 1 of business 1. *)
Definition invoice_over (total : float) : SalesInvoice :=
  {| inv_id := 1; invoice_number := 1; inv_customer_id := 1;
     inv_total_amount := total; inv_paid_amount := zero;
     inv_status := "Unpaid"; inv_branch_id := 1; inv_business_id := 1 |}.

Definition bill_over (total : float) : PurchaseBill :=
  {| bill_id := 1; bill_vendor_id := 1;
     bill_total_amount := total; bill_paid_amount := zero;
     bill_status := "Unpaid"; bill_branch_id := 1; bill_business_id := 1 |}.

Definition receivables_db (total : float) : Db :=
  {| accounts := example_chart; employees := [];
     sales_invoices := [invoice_over total];
     purchase_bills := [bill_over total]; journal_vouchers := [];
     payslips := []; ledger_entries := [] |}.

(** Account types in the order of their declaration, names by code point. *)
Definition type_rank (t : AccountType) : Z :=
  match t with
  | ASSET => 0
  | LIABILITY => 1
  | EQUITY => 2
  | REVENUE => 3
  | EXPENSE => 4
  end.

Definition by_type_and_name (a b : Account) : bool :=
  (type_rank (acc_type a) <? type_rank (acc_type b))%Z
  || ((type_rank (acc_type a) =? type_rank (acc_type b))%Z
      && String.ltb (acc_name a) (acc_name b)).

(** Cash (1) received as other income (12) on [d], and the reverse posting. *)
Definition received (d : date) (amount : float) : list Posting :=
  [ Debit d amount 1 1 NoDoc; Credit d amount 12 1 NoDoc ].

Definition returned (d : date) (amount : float) : list Posting :=
  [ Debit d amount 12 1 NoDoc; Credit d amount 1 1 NoDoc ].

(** The debit and credit columns of an account as the reports read them. *)
Definition debit_column (db : Db) (account : Z) (as_of : date) : list float :=
  map debit (entries_as_of db account as_of None).

Definition credit_column (db : Db) (account : Z) (as_of : date) : list float :=
  map credit (entries_as_of db account as_of None).

End Binary64.
(* ------------------------------------------------------------------ *)
(** * Properties *)

(** ** Arithmetic and list helpers *)

Lemma Qltb_iff (x y : Q) : Qltb x y = true <-> x < y.
Proof.
  unfold Qltb. rewrite negb_true_iff.
  split; intro H.
  - apply Qnot_le_lt. intro H1. apply Qle_bool_iff in H1. congruence.
  - destruct (Qle_bool y x) eqn:E; [|reflexivity].
    apply Qle_bool_iff in E. apply Qle_not_lt in E. contradiction.
Qed.

Lemma Qltb_false_iff (x y : Q) : Qltb x y = false <-> y <= x.
Proof.
  unfold Qltb. rewrite negb_false_iff. apply Qle_bool_iff.
Qed.

Lemma fold_left_Qplus_acc (l : list Q) (a : Q) :
  fold_left Qplus l a == a + fold_left Qplus l 0.
Proof.
  revert a. induction l as [|x l IH]; intro a; simpl.
  - lra.
  - rewrite (IH (a + x)), (IH (0 + x)). lra.
Qed.


Lemma sum_Q_cons (x : Q) (l : list Q) : sum_Q (x :: l) == x + sum_Q l.
Proof.
  unfold sum_Q. simpl. rewrite fold_left_Qplus_acc. lra.
Qed.


Lemma AccountType_eqb_eq (a b : AccountType) :
  AccountType_eqb a b = true <-> a = b.
Proof. destruct a, b; simpl; split; congruence. Qed.

Lemma next_id_above (ids : list Z) (i : Z) : In i ids -> (i < next_id ids)%Z.
Proof.
  unfold next_id. induction ids as [|j ids IH]; cbn [fold_right In]; [tauto|].
  intros [->|H]; [lia|]. specialize (IH H). lia.
Qed.

Lemma fold_insert_entry (ps : list Posting) (rows : list LedgerEntry) :
  exists added,
    fold_left insert_entry ps rows = rows ++ added
    /\ map posting_of added = ps
    /\ Forall (fun e => is_reconciled e = false) added.
Proof.
  revert rows. induction ps as [|p ps IH]; intro rows; simpl.
  - exists []. rewrite app_nil_r. auto.
  - destruct (IH (insert_entry rows p)) as (added & E & M & F).
    unfold insert_entry in E. rewrite <- app_assoc in E. simpl in E.
    eexists. split; [exact E|]. split.
    + simpl. rewrite M. destruct p; reflexivity.
    + constructor; [reflexivity|exact F].
Qed.

Lemma posted_add_ledger_entries (db db1 : Db) (ps : list Posting) :
  ledger_entries db1 = ledger_entries db ->
  posted db (add_ledger_entries db1 ps) = ps.
Proof.
  intro E. unfold posted, add_ledger_entries. simpl.
  destruct (fold_insert_entry ps (ledger_entries db1)) as (added & F & M & _).
  rewrite F, E, skipn_app, skipn_all, Nat.sub_diag. simpl. exact M.
Qed.

(* ------------------------------------------------------------------ *)
(** ** Manual journal vouchers *)

Lemma journal_balanced_iff (d c : Q) :
  journal_balanced d c = true <-> - (9 # 1000) < d - c /\ d - c < 9 # 1000.
Proof.
  unfold journal_balanced. rewrite andb_true_iff, !Qltb_iff. tauto.
Qed.

(** C8, counterexample.  [create_journal_voucher] has no line-count check:
    an empty list of lines is balanced, so a voucher without ledger rows is
    created; a single line carrying the same debit and credit is accepted
    too. *)
Lemma journal_crud_accepts_fewer_than_two_lines :
  (exists db' voucher,
     create_journal_voucher empty_db 1 1 some_day [] = Ok (db', voucher)
     /\ journal_vouchers db' = [voucher] /\ ledger_entries db' = [])
  /\ (exists db' voucher,
        create_journal_voucher empty_db 1 1 some_day
          [ {| jl_debit := Some 5; jl_credit := Some 5; jl_account_id := 1 |} ]
        = Ok (db', voucher)
        /\ journal_vouchers db' = [voucher]
        /\ List.length (ledger_entries db') = 1%nat).
Proof.
  split; eexists; eexists; (split; [vm_compute; reflexivity|]);
    split; reflexivity.
Qed.

(** C8, as amended.  The request handler refuses a submission of fewer than
    two lines with the too-few-lines error before the crud function runs,
    and the session is left as it was. *)
Theorem journal_handler_rejects_fewer_than_two_lines
    (db : Db) (business_id branch : Z) (on : date) (entries : list JournalLine) :
  (List.length entries < 2)%nat ->
  handle_create_journal_entry db business_id branch on entries
    = Err JournalTooFewLines
  /\ execute db (CreateJournalEntry business_id branch on entries) = db.
Proof.
  intro H. apply Nat.ltb_lt in H.
  unfold execute, handle_create_journal_entry. rewrite H. split; reflexivity.
Qed.

Lemma journal_handler_rejects_fewer_than_two_lines_witness :
  handle_create_journal_entry empty_db 1 1 some_day
    [ {| jl_debit := Some 5; jl_credit := Some 5; jl_account_id := 1 |} ]
    = Err JournalTooFewLines
  /\ execute empty_db
       (CreateJournalEntry 1 1 some_day
          [ {| jl_debit := Some 5; jl_credit := Some 5; jl_account_id := 1 |} ])
     = empty_db.
Proof.
  apply journal_handler_rejects_fewer_than_two_lines. simpl. lia.
Defined.

(* ------------------------------------------------------------------ *)
(** ** Sales invoices *)







Lemma ledger_after_lines (invoice_id : Z) (items : list SalesInvoiceItemCreate)
    (db : Db) :
  ledger_entries (fold_left (add_invoice_line invoice_id) items db)
  = ledger_entries db.
Proof.
  revert db. induction items as [|item items IH]; intro db; [reflexivity|].
  cbn [fold_left]. rewrite IH. reflexivity.
Qed.



(* ------------------------------------------------------------------ *)
(** ** Balance of posting groups *)

Lemma group_debits_cons (p : Posting) (ps : list Posting) :
  group_debits (p :: ps) == p_debit p + group_debits ps.
Proof. unfold group_debits. cbn [map]. apply sum_Q_cons. Qed.

Lemma group_credits_cons (p : Posting) (ps : list Posting) :
  group_credits (p :: ps) == p_credit p + group_credits ps.
Proof. unfold group_credits. cbn [map]. apply sum_Q_cons. Qed.

Lemma group_debits_nil : group_debits [] == 0.
Proof. reflexivity. Qed.

Lemma group_credits_nil : group_credits [] == 0.
Proof. reflexivity. Qed.


(** Groups that do balance: the two rows of a payment, and the rows of a
    sales invoice whose VAT amount is not negative. *)
Lemma payment_group_balances (db : Db) (invoice : SalesInvoice) (on : date)
    (a : Q) (account : Z) (db' : Db) (invoice' : SalesInvoice) :
  record_payment_for_invoice db invoice on a account = Ok (db', invoice') ->
  group_debits (posted db db') == group_credits (posted db db').
Proof.
  unfold record_payment_for_invoice.
  destruct (account_by_name db (inv_business_id invoice) "Accounts Receivable");
    [|discriminate].
  intro H. injection H as <- _.
  rewrite posted_add_ledger_entries by reflexivity.
  rewrite !group_debits_cons, !group_credits_cons. simpl.
  rewrite group_debits_nil, group_credits_nil. lra.
Qed.

Lemma sales_group_balances (invoice : SalesInvoice) (registered : bool)
    (ar revenue cost_of_goods inventory va : Account) (cost : Q) :
  inv_total_amount invoice == inv_sub_total invoice + inv_vat_amount invoice ->
  (registered = true /\ 0 <= inv_vat_amount invoice
   \/ inv_vat_amount invoice == 0) ->
  let ps := sales_postings invoice registered ar revenue cost_of_goods
              inventory (Some va) cost in
  group_debits ps == group_credits ps.
Proof.
  intros Ht Hv. cbv zeta. unfold sales_postings.
  destruct (registered && Qltb 0 (inv_vat_amount invoice)) eqn:V;
    cbn [app];
    rewrite ?group_debits_cons, ?group_credits_cons,
            ?group_debits_nil, ?group_credits_nil;
    cbn [Debit Credit p_debit p_credit].
  - lra.
  - destruct Hv as [[-> Hv]|Hv]; [|lra].
    cbn [andb] in V. apply Qltb_false_iff in V. lra.
Qed.

(** C1.  The payroll run of [payroll_db] with one other deduction of 100
    debits 1050 and credits 950; a VAT remittance of 50 against output VAT
    100 and input VAT 30 debits 100 and credits 80.  Neither group is within
    0.01 of balance. *)
Theorem payroll_and_vat_groups_are_unbalanced :
  (exists db' slip,
     process_payroll_for_employee payroll_db some_day 1 1
       (mkDate 2024 3 1) (mkDate 2024 3 31) [] [100] = Ok (db', slip)
     /\ net_pay slip == 750
     /\ map amounts (posted payroll_db db') =
          [ (14%Z, 1050, 0); (6%Z, 0, 750); (7%Z, 0, 100); (8%Z, 0, 100) ]
     /\ group_debits (posted payroll_db db') == 1050
     /\ group_credits (posted payroll_db db') == 950
     /\ ~ (group_debits (posted payroll_db db')
           - group_credits (posted payroll_db db') < 1 # 100))
  /\ (exists db' voucher,
        create_vat_payment_entry books_db 1 1 some_day 50 1 100 30
          = Ok (db', voucher)
        /\ map amounts (posted books_db db') =
             [ (9%Z, 100, 0); (4%Z, 0, 30); (1%Z, 0, 50) ]
        /\ group_debits (posted books_db db') == 100
        /\ group_credits (posted books_db db') == 80
        /\ ~ (group_debits (posted books_db db')
              - group_credits (posted books_db db') < 1 # 100)).
Proof.
  split.
  - do 2 eexists. split; [vm_compute; reflexivity|].
    repeat split; try (vm_compute; reflexivity).
    vm_compute. discriminate.
  - do 2 eexists. split; [vm_compute; reflexivity|].
    repeat split; try (vm_compute; reflexivity).
    vm_compute. discriminate.
Qed.

(* ------------------------------------------------------------------ *)
(** ** Trial balance on a balanced history *)

(** C6.  After the single balanced voucher [vendor_prepayment] (debit
    Accounts Payable 100, credit Cash 100) the trial balance lists Accounts
    Payable with 100 in both columns and Cash with 100 in the credit column:
    the debit column totals 100 and the credit column 200. *)
Theorem trial_balance_double_counts_debit_balance_of_liability :
  let db := run books_db [CreateJournalEntry 1 1 some_day vendor_prepayment] in
  let report := get_trial_balance_data db 1 some_day None in
  group_debits (posted books_db db) == group_credits (posted books_db db)
  /\ lines (tb_liability report)
     = [ {| account_name := "Accounts Payable"; line_debit := 100;
            line_credit := 100 |} ]
  /\ map (fun l => (account_name l, Qred (line_debit l), Qred (line_credit l)))
         (lines (tb_asset report))
     = [ ("Cash"%string, 0, 100) ]
  /\ grand_total_debit report == 100
  /\ grand_total_credit report == 200
  /\ ~ grand_total_debit report == grand_total_credit report.
Proof.
  cbv zeta. repeat split; try (vm_compute; reflexivity).
  vm_compute. discriminate.
Qed.

(* ------------------------------------------------------------------ *)
(** ** Reconciliation is monotonic *)

Lemma fold_insert_entry_fresh (ps : list Posting) (rows : list LedgerEntry) :
  exists added,
    fold_left insert_entry ps rows = rows ++ added
    /\ Forall (fun e => is_reconciled e = false
                        /\ ~ In (entry_id e) (map entry_id rows)) added.
Proof.
  revert rows. induction ps as [|p ps IH]; intro rows; cbn [fold_left].
  - exists []. rewrite app_nil_r. auto.
  - destruct (IH (insert_entry rows p)) as (added & E & F).
    unfold insert_entry in E, F. rewrite <- app_assoc in E. cbn [app] in E.
    eexists. split; [exact E|]. constructor.
    + split; [reflexivity|]. cbn [entry_id]. intro H.
      apply next_id_above in H. lia.
    + eapply Forall_impl; [|exact F]. intros e [R N]. split; [exact R|].
      intro H. apply N. rewrite map_app. apply in_or_app. left. exact H.
Qed.

Lemma mark_reconciled_id (r : Z) (ids : list Z) (e : LedgerEntry) :
  entry_id (mark_reconciled r ids e) = entry_id e.
Proof. unfold mark_reconciled. destruct (existsb _ ids); reflexivity. Qed.

Lemma mark_reconciled_keeps (r : Z) (ids : list Z) (e : LedgerEntry) :
  is_reconciled e = true -> is_reconciled (mark_reconciled r ids e) = true.
Proof. unfold mark_reconciled. destruct (existsb _ ids); auto. Qed.

Lemma mark_reconciled_sets (r : Z) (ids : list Z) (e : LedgerEntry) :
  In (entry_id e) ids -> is_reconciled (mark_reconciled r ids e) = true.
Proof.
  intro H. unfold mark_reconciled.
  destruct (existsb (Z.eqb (entry_id e)) ids) eqn:X; [reflexivity|].
  assert (existsb (Z.eqb (entry_id e)) ids = true); [|congruence].
  apply existsb_exists. exists (entry_id e). split; [exact H|apply Z.eqb_refl].
Qed.

Lemma settled_preserved (i : Z) (rows rows' : list LedgerEntry) :
  ledger_change rows rows' -> settled i rows -> settled i rows'.
Proof.
  intros C [Hin Hrec]. destruct C as [|ps|r ids].
  - split; assumption.
  - destruct (fold_insert_entry_fresh ps rows) as (added & -> & F). split.
    + rewrite map_app. apply in_or_app. left. exact Hin.
    + intros e He Hi. apply in_app_or in He. destruct He as [He|He].
      * apply Hrec; assumption.
      * rewrite Forall_forall in F. destruct (F e He) as [_ N].
        exfalso. apply N. rewrite Hi. exact Hin.
  - split.
    + rewrite map_map.
      rewrite (map_ext _ entry_id (mark_reconciled_id r ids)). exact Hin.
    + intros e He Hi. apply in_map_iff in He. destruct He as (e0 & <- & He0).
      apply mark_reconciled_keeps. apply Hrec; [exact He0|].
      rewrite mark_reconciled_id in Hi. exact Hi.
Qed.

Lemma change_by_add (db db1 : Db) (ps : list Posting) :
  ledger_entries db1 = ledger_entries db ->
  ledger_change (ledger_entries db)
                (ledger_entries (add_ledger_entries db1 ps)).
Proof.
  intro E. unfold add_ledger_entries. cbn [ledger_entries set_ledger_entries].
  rewrite E. constructor.
Qed.

Lemma payroll_ledger_change (db : Db) (today : date) (employee_id business_id : Z)
    (pay_period_start pay_period_end : date) (additions deductions : list Q)
    (db' : Db) (slip : Payslip) :
  process_payroll_for_employee db today employee_id business_id
    pay_period_start pay_period_end additions deductions = Ok (db', slip) ->
  ledger_change (ledger_entries db) (ledger_entries db').
Proof.
  unfold process_payroll_for_employee.
  destruct (get_employee_by_id _ _ _) as [e|]; [|discriminate].
  destruct (payroll_config e); [|discriminate].
  destruct (account_by_name _ _ "Salary Expense"); [|discriminate].
  destruct (account_by_name _ _ "Payroll Liabilities"); [|discriminate].
  destruct (account_by_name _ _ "PAYE Payable"); [|discriminate].
  destruct (account_by_name _ _ "Pension Payable"); [|discriminate].
  intro H. injection H as <- _. apply change_by_add. reflexivity.
Qed.

Lemma run_payroll_settled (i : Z) (today : date) (business_id selected_branch : Z)
    (pay_period_start pay_period_end : date) (employees_to_pay : list PayrollItem)
    (db db' : Db) :
  run_payroll db today business_id selected_branch pay_period_start
    pay_period_end employees_to_pay = Ok db' ->
  settled i (ledger_entries db) -> settled i (ledger_entries db').
Proof.
  revert db. induction employees_to_pay as [|emp_data rest IH]; intros db R S.
  - injection R as <-. exact S.
  - cbn [run_payroll] in R.
    destruct (get_employee_by_id _ _ _) as [e|]; [|discriminate].
    destruct (negb _); [discriminate|].
    destruct (process_payroll_for_employee _ _ _ _ _ _ _ _) as [[db1 slip]|] eqn:P;
      [|discriminate].
    apply (IH db1 R).
    eapply settled_preserved; [|exact S].
    eapply payroll_ledger_change. exact P.
Qed.

Lemma execute_settled (i : Z) (db : Db) (c : command) :
  settled i (ledger_entries db) -> settled i (ledger_entries (execute db c)).
Proof.
  intro S.
  assert (by_change : forall rows', ledger_change (ledger_entries db) rows' ->
                                    settled i rows').
  { intros rows' C. eapply settled_preserved; eassumption. }
  destruct c; cbn [execute].
  - apply by_change.
    unfold handle_create_journal_entry, create_journal_voucher.
    destruct (List.length entries <? 2)%nat; [constructor|].
    destruct (negb _); cbn [commit_or_rollback]; [constructor|].
    apply change_by_add. reflexivity.
  - destruct employees_to_pay as [|emp_data rest]; [exact S|].
    destruct (run_payroll db today business_id selected_branch pay_period_start
                pay_period_end (emp_data :: rest)) as [db'|] eqn:R;
      cbn [commit_or_rollback]; [|exact S].
    eapply run_payroll_settled; eassumption.
  - apply by_change. unfold create_vat_payment_entry.
    destruct (account_by_name _ _ "VAT Payable (Output VAT)"); [|constructor].
    destruct (account_by_name _ _ "VAT Receivable (Input VAT)"); [|constructor].
    cbn [keep_db commit_or_rollback]. apply change_by_add. reflexivity.
  - apply by_change.
    destruct (sic_items invoice_data) eqn:I; [constructor|]. clear I.
    unfold create_sales_invoice.
    destruct (get_business _ _); [|constructor].
    destruct (get_customer _ _ _); [|constructor].
    destruct (negb _); [constructor|].
    destruct (account_by_name _ _ "Accounts Receivable"); [|constructor].
    destruct (account_by_name _ _ "Sales Revenue"); [|constructor].
    destruct (account_by_name _ _ "Cost of Goods Sold"); [|constructor].
    destruct (account_by_name _ _ "Inventory"); [|constructor].
    destruct (_ && _); [constructor|].
    destruct (check_stock_and_cost _ _ _ _); [|constructor].
    cbn [keep_db commit_or_rollback]. apply change_by_add.
    rewrite ledger_after_lines. reflexivity.
  - apply by_change.
    destruct (get_sales_invoice db invoice_id business_id); [|constructor].
    destruct (negb _); [constructor|].
    unfold record_payment_for_invoice.
    destruct (account_by_name _ _ _); [|constructor].
    cbn [keep_db commit_or_rollback]. apply change_by_add. reflexivity.
  - apply by_change.
    destruct (get_purchase_bill db bill business_id); [|constructor].
    destruct (negb _); [constructor|].
    unfold record_payment_for_bill.
    destruct (account_by_name _ _ _); [|constructor].
    cbn [keep_db commit_or_rollback]. apply change_by_add. reflexivity.
  - apply by_change.
    unfold process_reconciliation. destruct cleared_transaction_ids.
    + constructor.
    + apply reconciled.
  - apply by_change. apply change_by_add. reflexivity.
Qed.

Lemma run_settled (i : Z) (cs : list command) (db : Db) :
  settled i (ledger_entries db) -> settled i (ledger_entries (run db cs)).
Proof.
  revert db. induction cs as [|c cs IH]; intros db H; [exact H|].
  cbn [run fold_left]. apply IH. apply execute_settled. exact H.
Qed.

Lemma in_insert_by_date (e x : LedgerEntry) (l : list LedgerEntry) :
  In x (insert_by_date e l) <-> x = e \/ In x l.
Proof.
  induction l as [|y l IH]; cbn [insert_by_date].
  - simpl. intuition.
  - destruct (date_leb _ _); cbn [In].
    + intuition.
    + rewrite IH. intuition.
Qed.

Lemma in_order_by_transaction_date (x : LedgerEntry) (l : list LedgerEntry) :
  In x (order_by_transaction_date l) <-> In x l.
Proof.
  unfold order_by_transaction_date.
  induction l as [|y l IH]; cbn [fold_right]; [tauto|].
  rewrite in_insert_by_date, IH. cbn [In]. intuition.
Qed.

Lemma unreconciled_not_settled (i : Z) (db : Db) (account branch : Z)
    (e : LedgerEntry) :
  settled i (ledger_entries db) ->
  In e (get_unreconciled_transactions db account branch) ->
  entry_id e <> i.
Proof.
  intros [_ Hrec] He Hi. unfold get_unreconciled_transactions in He.
  apply (proj1 (in_order_by_transaction_date _ _)) in He.
  apply filter_In in He.
  destruct He as [He Hf]. rewrite (Hrec e He Hi) in Hf.
  rewrite andb_false_r in Hf. discriminate.
Qed.

(** C9.  Once a reconciliation batch has marked posting [i], then after any
    further sequence of requests the posting is still in the ledger, every
    row carrying its id is still flagged reconciled, and no
    unreconciled-transactions query, whatever its account and branch,
    returns it. *)
Theorem reconciliation_is_monotonic
    (db : Db) (business_id branch account : Z) (statement_date : date)
    (statement_balance : Q) (cleared_transaction_ids : list Z)
    (later : list command) (i : Z) :
  In i (map entry_id (ledger_entries db)) ->
  In i cleared_transaction_ids ->
  let db1 := execute db (ProcessReconciliation business_id branch account
                           statement_date statement_balance
                           cleared_transaction_ids) in
  let db2 := run db1 later in
  In i (map entry_id (ledger_entries db2))
  /\ (forall e, In e (ledger_entries db2) -> entry_id e = i ->
                is_reconciled e = true)
  /\ (forall a b e, In e (get_unreconciled_transactions db2 a b) ->
                    entry_id e <> i).
Proof.
  intros Hin Hid db1 db2.
  assert (S1 : settled i (ledger_entries db1)).
  { subst db1. cbn [execute]. unfold process_reconciliation.
    destruct cleared_transaction_ids as [|j ids]; [contradiction|].
    cbn. split.
    - rewrite map_map.
      rewrite (map_ext _ entry_id (mark_reconciled_id _ (j :: ids))). exact Hin.
    - intros e He Hi. apply in_map_iff in He. destruct He as (e0 & <- & _).
      rewrite mark_reconciled_id in Hi. apply mark_reconciled_sets.
      rewrite Hi. exact Hid. }
  assert (S2 : settled i (ledger_entries db2)) by (apply run_settled; exact S1).
  split; [apply S2|]. split; [apply S2|].
  intros a b e He. eapply unreconciled_not_settled; eassumption.
Qed.

Lemma reconciliation_is_monotonic_witness :
  let db2 :=
    run (execute bank_db (ProcessReconciliation 1 1 1 some_day 500 [1%Z]))
        [ CreateJournalEntry 1 1 some_day interest_received;
          ProcessReconciliation 1 1 1 (mkDate 2024 4 15) 600 [] ] in
  In 1%Z (map entry_id (ledger_entries db2))
  /\ (forall e, In e (ledger_entries db2) -> entry_id e = 1%Z ->
                is_reconciled e = true)
  /\ (forall a b e, In e (get_unreconciled_transactions db2 a b) ->
                    entry_id e <> 1%Z).
Proof.
  apply (reconciliation_is_monotonic bank_db 1 1 1 some_day 500 [1%Z]
           [ CreateJournalEntry 1 1 some_day interest_received;
             ProcessReconciliation 1 1 1 (mkDate 2024 4 15) 600 [] ] 1%Z).
  - vm_compute. left. reflexivity.
  - simpl. left. reflexivity.
Defined.

(* ------------------------------------------------------------------ *)
(** ** Accounts with a zero balance are left out of the statements *)

Lemma fold_skips_zero {S : Type} (step : S -> Account -> S)
    (keep : Account -> bool) (accs : list Account) (s : S) :
  (forall s acc, keep acc = false -> step s acc = s) ->
  fold_left step accs s = fold_left step (filter keep accs) s.
Proof.
  intro H. revert s. induction accs as [|acc accs IH]; intro s; [reflexivity|].
  cbn [fold_left filter]. destruct (keep acc) eqn:K.
  - cbn [fold_left]. apply IH.
  - rewrite (H s acc K). apply IH.
Qed.

(* ------------------------------------------------------------------ *)
(** ** Totals of the profit-and-loss statement *)





(* ------------------------------------------------------------------ *)
(** ** Which posting groups balance *)

Ltac group_sums :=
  cbn [app];
  rewrite ?group_debits_cons, ?group_credits_cons,
          ?group_debits_nil, ?group_credits_nil;
  cbn [Debit Credit p_debit p_credit].

Lemma fund_transfer_group_balances (on : date) (amount : Q)
    (from_account to_account branch transfer : Z) (ps : list Posting) :
  fund_transfer_postings on amount from_account to_account branch transfer = Ok ps ->
  group_debits ps == group_credits ps.
Proof.
  unfold fund_transfer_postings.
  destruct (from_account =? to_account)%Z; [discriminate|].
  destruct (Qle_bool amount 0); [discriminate|].
  intro H. injection H as <-. group_sums. lra.
Qed.

Lemma other_income_group_balances (on : date) (amount : Q)
    (income_account deposited_to branch income : Z) :
  let ps := other_income_postings on amount income_account deposited_to branch income in
  group_debits ps == group_credits ps.
Proof. cbv zeta. unfold other_income_postings. group_sums. lra. Qed.

Lemma expense_reversal_group_balances (today : date) (amount : Q)
    (expense_account paid_from branch : Z) :
  let ps := expense_reversal_postings today amount expense_account paid_from branch in
  group_debits ps == group_credits ps.
Proof. cbv zeta. unfold expense_reversal_postings. group_sums. lra. Qed.

Lemma purchase_bill_group_balances (on : date) (registered : bool)
    (items : list (Q * Q)) (form_vat : Q)
    (inventory_account ap_account vat_account branch bill : Z) :
  0 <= form_vat ->
  let ps := purchase_bill_postings on registered items form_vat
              inventory_account ap_account vat_account branch bill in
  group_debits ps == group_credits ps.
Proof.
  intro Hv. cbv zeta. unfold purchase_bill_postings.
  destruct registered; cbn [andb].
  - destruct (Qltb 0 form_vat) eqn:V; group_sums; [lra|].
    apply Qltb_false_iff in V. lra.
  - group_sums. lra.
Qed.

Lemma expense_group_balances (on : date) (registered : bool)
    (sub_total form_vat : Q) (expense_account paid_from vat_account branch : Z) :
  0 <= form_vat ->
  let ps := expense_postings on registered sub_total form_vat
              expense_account paid_from vat_account branch in
  group_debits ps == group_credits ps.
Proof.
  intro Hv. cbv zeta. unfold expense_postings.
  destruct registered; cbn [andb].
  - destruct (Qltb 0 form_vat) eqn:V; group_sums; [lra|].
    apply Qltb_false_iff in V. lra.
  - group_sums. lra.
Qed.

Lemma credit_note_group_balances (on : date) (items : list (Q * Q * Q))
    (ar revenue cost_of_goods inventory branch note : Z) (ps : list Posting) :
  credit_note_postings on items ar revenue cost_of_goods inventory branch note = Ok ps ->
  group_debits ps == group_credits ps.
Proof.
  unfold credit_note_postings. destruct items; [discriminate|].
  intro H. injection H as <-. group_sums. lra.
Qed.

Lemma debit_note_group_balances (on : date) (items : list (Q * Q))
    (ap inventory branch note : Z) (ps : list Posting) :
  debit_note_postings on items ap inventory branch note = Ok ps ->
  group_debits ps == group_credits ps.
Proof.
  unfold debit_note_postings. destruct items; [discriminate|].
  intro H. injection H as <-. group_sums. lra.
Qed.

(** The rows of an accepted voucher carry the totals that were checked,
    provided no line has a negative amount: the group is then within 0.009
    of balance. *)
Lemma journal_group_totals (on : date) (branch voucher : Z)
    (entries : list JournalLine) :
  Forall line_non_negative entries ->
  group_debits (journal_postings on branch voucher entries)
    == journal_total_debits entries
  /\ group_credits (journal_postings on branch voucher entries)
     == journal_total_credits entries.
Proof.
  unfold journal_total_debits, journal_total_credits.
  induction 1 as [|e entries [Hd Hc] F [IHd IHc]]; [split; reflexivity|].
  cbn [journal_postings flat_map map]. rewrite !sum_Q_cons.
  fold (journal_postings on branch voucher entries).
  destruct (Qltb 0 (float_or_zero (jl_debit e))
            || Qltb 0 (float_or_zero (jl_credit e))) eqn:P.
  - group_sums. rewrite IHd, IHc. split; reflexivity.
  - apply orb_false_iff in P. destruct P as [Pd Pc].
    apply Qltb_false_iff in Pd. apply Qltb_false_iff in Pc.
    cbn [app]. rewrite IHd, IHc. split; lra.
Qed.

Lemma journal_group_within_tolerance (db : Db) (business_id branch : Z)
    (on : date) (entries : list JournalLine) (db' : Db) (voucher : JournalVoucher) :
  Forall line_non_negative entries ->
  create_journal_voucher db business_id branch on entries = Ok (db', voucher) ->
  - (9 # 1000) < group_debits (posted db db') - group_credits (posted db db')
  /\ group_debits (posted db db') - group_credits (posted db db') < 9 # 1000.
Proof.
  intros F. unfold create_journal_voucher.
  destruct (journal_balanced _ _) eqn:B; [|discriminate]. cbn [negb].
  intro H. injection H as <- _.
  rewrite posted_add_ledger_entries by reflexivity.
  apply journal_balanced_iff in B.
  destruct (journal_group_totals on branch
              (next_id (map jv_id (journal_vouchers db))) entries F) as [-> ->].
  exact B.
Qed.

(* ------------------------------------------------------------------ *)
(** ** The two columns of the trial balance *)

Lemma tb_columns_gap (t : AccountType) (balance : Q) :
  fst (tb_columns t balance) - snd (tb_columns t balance)
  == match t with
     | ASSET | EXPENSE => balance
     | LIABILITY | EQUITY | REVENUE => if Qltb 0 balance then 0 else balance
     end.
Proof.
  destruct t; cbn [tb_columns fst snd];
    destruct (Qltb 0 balance) eqn:P; destruct (Qltb balance 0) eqn:N;
    try (apply Qltb_iff in P); try (apply Qltb_iff in N);
    try (apply Qltb_false_iff in P); try (apply Qltb_false_iff in N); lra.
Qed.

(** Debit total minus credit total is the sum of the raw balances, except
    that a credit-normal account with a debit balance contributes nothing:
    its balance is entered in both columns. *)
Lemma tb_grand_totals (db : Db) (as_of : date) (branch : option Z)
    (accs : list Account) (r : TrialBalance) :
  let r' := fold_left (tb_account db as_of branch) accs r in
  grand_total_debit r' - grand_total_credit r'
  == grand_total_debit r - grand_total_credit r
     + sum_Q (map (tb_gap db as_of branch) accs).
Proof.
  cbv zeta. revert r. induction accs as [|acc accs IH]; intro r.
  - cbn. lra.
  - cbn [fold_left map]. rewrite sum_Q_cons, IH.
    unfold tb_account, tb_gap, raw_balance.
    set (b := debit_sum db (acc_id acc) as_of branch
              - credit_sum db (acc_id acc) as_of branch).
    pose proof (tb_columns_gap (acc_type acc) b) as G.
    destruct (Qeq_bool b 0) eqn:Z0.
    + apply Qeq_bool_iff in Z0.
      destruct (acc_type acc); destruct (Qltb 0 b); lra.
    + destruct (tb_columns (acc_type acc) b) as [dr cr].
      cbn [fst snd] in G.
      cbn [report_line grand_total_debit grand_total_credit line_debit line_credit].
      destruct (acc_type acc); lra.
Qed.

(* ------------------------------------------------------------------ *)
(** * Further properties of the modelled code *)

(** ** Payroll *)



(* ------------------------------------------------------------------ *)
(** ** Journal vouchers *)

Lemma journal_postings_rows (on : date) (branch voucher : Z)
    (entries : list JournalLine) :
  Forall (fun p => (0 < p_debit p \/ 0 < p_credit p)
                   /\ p_date p = on /\ p_branch_id p = branch
                   /\ p_source p = JournalVoucherDoc voucher)
         (journal_postings on branch voucher entries)
  /\ (List.length (journal_postings on branch voucher entries)
      <= List.length entries)%nat.
Proof.
  induction entries as [|e entries [IHf IHl]]; [split; [constructor|reflexivity]|].
  cbn [journal_postings flat_map].
  fold (journal_postings on branch voucher entries).
  destruct (Qltb 0 (float_or_zero (jl_debit e))
            || Qltb 0 (float_or_zero (jl_credit e))) eqn:P.
  - split.
    + constructor; [|exact IHf]. cbn [p_debit p_credit p_date p_branch_id p_source].
      split; [|auto]. apply orb_true_iff in P.
      destruct P as [P|P]; apply Qltb_iff in P; auto.
    + cbn [app List.length]. lia.
  - split; [exact IHf|]. cbn [app List.length]. lia.
Qed.

(** X4.  An accepted journal voucher is stored under a fresh id and writes
    at most one ledger row per line, none for a line without a positive
    amount; every row carries the voucher's date, branch and id. *)
Theorem journal_voucher_rows
    (db : Db) (business_id branch : Z) (on : date) (entries : list JournalLine)
    (db' : Db) (voucher : JournalVoucher) :
  create_journal_voucher db business_id branch on entries = Ok (db', voucher) ->
  journal_vouchers db' = journal_vouchers db ++ [voucher]
  /\ ~ In (jv_id voucher) (map jv_id (journal_vouchers db))
  /\ (List.length (posted db db') <= List.length entries)%nat
  /\ Forall (fun p => (0 < p_debit p \/ 0 < p_credit p)
                      /\ p_date p = on /\ p_branch_id p = branch
                      /\ p_source p = JournalVoucherDoc (jv_id voucher))
            (posted db db').
Proof.
  unfold create_journal_voucher.
  destruct (journal_balanced _ _); [|discriminate]. cbn [negb].
  intro H. injection H as <- <-.
  rewrite posted_add_ledger_entries by reflexivity. cbn [jv_id].
  split; [reflexivity|]. split.
  - intro H. apply next_id_above in H. lia.
  - destruct (journal_postings_rows on branch
                (next_id (map jv_id (journal_vouchers db))) entries) as [F L].
    split; assumption.
Qed.

Lemma journal_voucher_rows_witness :
  exists db' voucher,
    create_journal_voucher books_db 1 1 some_day interest_received
      = Ok (db', voucher)
    /\ (List.length (posted books_db db') <= 2)%nat.
Proof.
  destruct (create_journal_voucher books_db 1 1 some_day interest_received)
    as [[db' voucher]|] eqn:E; [|vm_compute in E; discriminate].
  exists db', voucher. split; [reflexivity|].
  apply (journal_voucher_rows _ _ _ _ _ _ _ E).
Defined.

Lemma first_rev_app_one {A} (l : list A) (x : A) : first (rev (l ++ [x])) = Some x.
Proof. rewrite rev_app_distr. reflexivity. Qed.

(** X6.  Voucher numbers run per business: after a voucher is created, the
    next number of its business is its number plus one, and the next number
    of every other business is what it was. *)
Theorem journal_voucher_numbers_are_consecutive
    (db : Db) (business_id branch : Z) (on : date) (entries : list JournalLine)
    (db' : Db) (voucher : JournalVoucher) :
  create_journal_voucher db business_id branch on entries = Ok (db', voucher) ->
  voucher_number voucher = get_next_journal_voucher_number db business_id
  /\ get_next_journal_voucher_number db' business_id
     = (voucher_number voucher + 1)%Z
  /\ (forall other, other <> business_id ->
        get_next_journal_voucher_number db' other
        = get_next_journal_voucher_number db other).
Proof.
  unfold create_journal_voucher.
  destruct (journal_balanced _ _); [|discriminate]. cbn [negb].
  intro H. injection H as <- <-. cbn [voucher_number].
  split; [reflexivity|]. split.
  - unfold get_next_journal_voucher_number at 1.
    cbn [journal_vouchers add_ledger_entries set_ledger_entries set_journal_vouchers].
    rewrite filter_app. cbn [filter jv_business_id]. rewrite Z.eqb_refl.
    rewrite first_rev_app_one. reflexivity.
  - intros other Ho. unfold get_next_journal_voucher_number.
    cbn [journal_vouchers add_ledger_entries set_ledger_entries set_journal_vouchers].
    rewrite filter_app. cbn [filter jv_business_id].
    apply Z.eqb_neq in Ho. rewrite Z.eqb_sym, Ho, app_nil_r. reflexivity.
Qed.

Lemma journal_voucher_numbers_are_consecutive_witness :
  exists db' voucher,
    create_journal_voucher books_db 1 1 some_day interest_received
      = Ok (db', voucher)
    /\ get_next_journal_voucher_number db' 1 = (voucher_number voucher + 1)%Z.
Proof.
  destruct (create_journal_voucher books_db 1 1 some_day interest_received)
    as [[db' voucher]|] eqn:E; [|vm_compute in E; discriminate].
  exists db', voucher. split; [reflexivity|].
  apply (journal_voucher_numbers_are_consecutive _ _ _ _ _ _ _ E).
Defined.

(* ------------------------------------------------------------------ *)
(** ** Sales invoices and payments *)



(* ------------------------------------------------------------------ *)
(** ** Payroll runs are all-or-nothing *)

Lemma payroll_adds_one_payslip (db : Db) (today : date)
    (employee_id business_id : Z) (pay_period_start pay_period_end : date)
    (additions deductions : list Q) (db' : Db) (slip : Payslip) :
  process_payroll_for_employee db today employee_id business_id
    pay_period_start pay_period_end additions deductions = Ok (db', slip) ->
  payslips db' = payslips db ++ [slip].
Proof.
  unfold process_payroll_for_employee.
  destruct (get_employee_by_id _ _ _) as [e|]; [|discriminate].
  destruct (payroll_config e); [|discriminate].
  destruct (account_by_name _ _ "Salary Expense"); [|discriminate].
  destruct (account_by_name _ _ "Payroll Liabilities"); [|discriminate].
  destruct (account_by_name _ _ "PAYE Payable"); [|discriminate].
  destruct (account_by_name _ _ "Pension Payable"); [|discriminate].
  intro H. injection H as <- <-. reflexivity.
Qed.

Lemma run_payroll_payslips (today : date) (business_id selected_branch : Z)
    (pay_period_start pay_period_end : date) (employees_to_pay : list PayrollItem)
    (db db' : Db) :
  run_payroll db today business_id selected_branch pay_period_start
    pay_period_end employees_to_pay = Ok db' ->
  List.length (payslips db')
  = (List.length (payslips db) + List.length employees_to_pay)%nat.
Proof.
  revert db. induction employees_to_pay as [|emp_data rest IH]; intros db R.
  - injection R as <-. cbn. lia.
  - cbn [run_payroll] in R.
    destruct (get_employee_by_id _ _ _) as [e|]; [|discriminate].
    destruct (negb _); [discriminate|].
    destruct (process_payroll_for_employee _ _ _ _ _ _ _ _) as [[db1 slip]|] eqn:P;
      [|discriminate].
    rewrite (IH db1 R). apply payroll_adds_one_payslip in P.
    rewrite P, length_app. cbn. lia.
Qed.

(** X9.  A payroll request either changes nothing or pays every listed
    employee: when one of them is unknown, outside the active branch, without
    payroll configuration or the payroll accounts are missing, the payslips
    and ledger rows of the employees before it are discarded too. *)
Theorem payroll_run_is_all_or_nothing
    (db : Db) (today : date) (business_id selected_branch : Z)
    (pay_period_start pay_period_end : date) (employees_to_pay : list PayrollItem) :
  let db' := execute db (RunPayroll today business_id selected_branch
                           pay_period_start pay_period_end employees_to_pay) in
  db' = db
  \/ List.length (payslips db')
     = (List.length (payslips db) + List.length employees_to_pay)%nat.
Proof.
  cbv zeta. cbn [execute].
  destruct employees_to_pay as [|emp_data rest]; [left; reflexivity|].
  destruct (run_payroll db today business_id selected_branch pay_period_start
              pay_period_end (emp_data :: rest)) as [db'|] eqn:R;
    cbn [commit_or_rollback]; [|left; reflexivity].
  right. apply run_payroll_payslips in R. exact R.
Qed.

(* ------------------------------------------------------------------ *)
(** ** The ledger table under the write operations *)

Lemma payroll_inserts (db : Db) (today : date) (employee_id business_id : Z)
    (pay_period_start pay_period_end : date) (additions deductions : list Q)
    (db' : Db) (slip : Payslip) :
  process_payroll_for_employee db today employee_id business_id
    pay_period_start pay_period_end additions deductions = Ok (db', slip) ->
  exists ps, ledger_entries db' = fold_left insert_entry ps (ledger_entries db).
Proof.
  unfold process_payroll_for_employee.
  destruct (get_employee_by_id _ _ _) as [e|]; [|discriminate].
  destruct (payroll_config e); [|discriminate].
  destruct (account_by_name _ _ "Salary Expense"); [|discriminate].
  destruct (account_by_name _ _ "Payroll Liabilities"); [|discriminate].
  destruct (account_by_name _ _ "PAYE Payable"); [|discriminate].
  destruct (account_by_name _ _ "Pension Payable"); [|discriminate].
  intro H. injection H as <- _. eexists. reflexivity.
Qed.

Lemma run_payroll_ledger (P : list LedgerEntry -> Prop) (today : date)
    (business_id selected_branch : Z) (pay_period_start pay_period_end : date)
    (employees_to_pay : list PayrollItem) (db db' : Db) :
  (forall rows ps, P rows -> P (fold_left insert_entry ps rows)) ->
  run_payroll db today business_id selected_branch pay_period_start
    pay_period_end employees_to_pay = Ok db' ->
  P (ledger_entries db) -> P (ledger_entries db').
Proof.
  intro Hins. revert db.
  induction employees_to_pay as [|emp_data rest IH]; intros db R S.
  - injection R as <-. exact S.
  - cbn [run_payroll] in R.
    destruct (get_employee_by_id _ _ _) as [e|]; [|discriminate].
    destruct (negb _); [discriminate|].
    destruct (process_payroll_for_employee _ _ _ _ _ _ _ _) as [[db1 slip]|] eqn:P1;
      [|discriminate].
    apply (IH db1 R).
    apply payroll_inserts in P1. destruct P1 as [ps ->].
    apply Hins. exact S.
Qed.

(** Every request leaves the ledger table as it was, inserts rows, or, for a
    reconciliation with a non-empty list, performs the bulk update. *)
Lemma execute_ledger_cases (P : list LedgerEntry -> Prop) (db : Db) (c : command) :
  P (ledger_entries db) ->
  (forall rows ps, P rows -> P (fold_left insert_entry ps rows)) ->
  (forall r ids, ~ not_a_reconciliation c ->
                 P (map (mark_reconciled r ids) (ledger_entries db))) ->
  P (ledger_entries (execute db c)).
Proof.
  intros S Hins Hrec.
  assert (by_add : forall db1 ps, ledger_entries db1 = ledger_entries db ->
                                  P (ledger_entries (add_ledger_entries db1 ps))).
  { intros db1 ps E. unfold add_ledger_entries.
    cbn [ledger_entries set_ledger_entries]. rewrite E. apply Hins. exact S. }
  destruct c; cbn [execute].
  - unfold handle_create_journal_entry, create_journal_voucher.
    destruct (List.length entries <? 2)%nat; [exact S|].
    destruct (negb _); cbn [commit_or_rollback]; [exact S|].
    apply by_add. reflexivity.
  - destruct employees_to_pay as [|emp_data rest]; [exact S|].
    destruct (run_payroll db today business_id selected_branch pay_period_start
                pay_period_end (emp_data :: rest)) as [db'|] eqn:R;
      cbn [commit_or_rollback]; [|exact S].
    eapply run_payroll_ledger; eassumption.
  - unfold create_vat_payment_entry.
    destruct (account_by_name _ _ "VAT Payable (Output VAT)"); [|exact S].
    destruct (account_by_name _ _ "VAT Receivable (Input VAT)"); [|exact S].
    cbn [keep_db commit_or_rollback]. apply by_add. reflexivity.
  - destruct (sic_items invoice_data) eqn:I; [exact S|]. clear I.
    unfold create_sales_invoice.
    destruct (get_business _ _); [|exact S].
    destruct (get_customer _ _ _); [|exact S].
    destruct (negb _); [exact S|].
    destruct (account_by_name _ _ "Accounts Receivable"); [|exact S].
    destruct (account_by_name _ _ "Sales Revenue"); [|exact S].
    destruct (account_by_name _ _ "Cost of Goods Sold"); [|exact S].
    destruct (account_by_name _ _ "Inventory"); [|exact S].
    destruct (_ && _); [exact S|].
    destruct (check_stock_and_cost _ _ _ _); [|exact S].
    cbn [keep_db commit_or_rollback]. apply by_add.
    rewrite ledger_after_lines. reflexivity.
  - destruct (get_sales_invoice db invoice_id business_id); [|exact S].
    destruct (negb _); [exact S|].
    unfold record_payment_for_invoice.
    destruct (account_by_name _ _ _); [|exact S].
    cbn [keep_db commit_or_rollback]. apply by_add. reflexivity.
  - destruct (get_purchase_bill db bill business_id); [|exact S].
    destruct (negb _); [exact S|].
    unfold record_payment_for_bill.
    destruct (account_by_name _ _ _); [|exact S].
    cbn [keep_db commit_or_rollback]. apply by_add. reflexivity.
  - unfold process_reconciliation. destruct cleared_transaction_ids.
    + exact S.
    + cbn. apply Hrec. intro H. exact H.
  - apply by_add. reflexivity.
Qed.

Lemma run_ledger (P : list LedgerEntry -> Prop) (cs : list command) (db : Db) :
  (forall rows ps, P rows -> P (fold_left insert_entry ps rows)) ->
  (forall rows r ids, P rows -> P (map (mark_reconciled r ids) rows)) ->
  P (ledger_entries db) -> P (ledger_entries (run db cs)).
Proof.
  intros Hins Hrec. revert db.
  induction cs as [|c cs IH]; intros db S; [exact S|].
  cbn [run fold_left]. apply IH.
  apply execute_ledger_cases; auto.
Qed.

Lemma written_once_mark (r : Z) (ids : list Z) (e : LedgerEntry) :
  written_once (mark_reconciled r ids e) = written_once e.
Proof. unfold mark_reconciled. destruct (existsb _ ids); reflexivity. Qed.

(** X10.  Whatever requests are processed, the rows already in the ledger
    stay where they are with their id, date, amounts, account, branch and
    document link: rows are only ever appended, and only the reconciliation
    columns of a row can change. *)
Theorem ledger_rows_are_written_once (db : Db) (cs : list command) :
  let rows := ledger_entries db in
  let rows' := ledger_entries (run db cs) in
  (List.length rows <= List.length rows')%nat
  /\ map written_once (firstn (List.length rows) rows') = map written_once rows.
Proof.
  cbv zeta.
  apply (run_ledger (fun rows' =>
           (List.length (ledger_entries db) <= List.length rows')%nat
           /\ map written_once (firstn (List.length (ledger_entries db)) rows')
              = map written_once (ledger_entries db))).
  - intros rows ps [L M].
    destruct (fold_insert_entry ps rows) as (added & -> & _).
    rewrite length_app. split; [lia|].
    rewrite firstn_app.
    replace (List.length (ledger_entries db) - List.length rows)%nat with 0%nat by lia.
    cbn [firstn]. rewrite app_nil_r. exact M.
  - intros rows r ids [L M]. rewrite length_map. split; [exact L|].
    rewrite firstn_map, map_map.
    rewrite (map_ext _ written_once (written_once_mark r ids)). exact M.
  - split; [lia|]. rewrite firstn_all. reflexivity.
Qed.

Lemma nodup_fold_insert (ps : list Posting) (rows : list LedgerEntry) :
  NoDup (map entry_id rows) ->
  NoDup (map entry_id (fold_left insert_entry ps rows)).
Proof.
  revert rows. induction ps as [|p ps IH]; intros rows N; [exact N|].
  cbn [fold_left]. apply IH. unfold insert_entry.
  rewrite map_app. cbn [map entry_id].
  apply NoDup_app_remove_l with (l := []). cbn [app].
  apply NoDup_app; [exact N | repeat constructor; intros [] |].
  intros i Hi [<-|[]]. apply next_id_above in Hi. lia.
Qed.

(** X11.  Ledger row ids stay pairwise distinct under every sequence of
    requests. *)
Theorem ledger_ids_stay_distinct (db : Db) (cs : list command) :
  NoDup (map entry_id (ledger_entries db)) ->
  NoDup (map entry_id (ledger_entries (run db cs))).
Proof.
  intro N.
  apply (run_ledger (fun rows => NoDup (map entry_id rows))).
  - intros rows ps. apply nodup_fold_insert.
  - intros rows r ids H. rewrite map_map.
    rewrite (map_ext _ entry_id (mark_reconciled_id r ids)). exact H.
  - exact N.
Qed.

Lemma ledger_ids_stay_distinct_witness :
  NoDup (map entry_id
           (ledger_entries
              (run bank_db
                 [ CreateJournalEntry 1 1 some_day interest_received;
                   ProcessReconciliation 1 1 1 some_day 500 [1%Z] ]))).
Proof.
  apply ledger_ids_stay_distinct.
  vm_compute. repeat constructor; simpl; intuition discriminate.
Defined.

(** X12.  Only a reconciliation touches rows that exist: every other request
    leaves the ledger as it was or appends rows to it, and every appended
    row is unreconciled and carries an id no earlier row has. *)
Theorem only_reconciliation_updates_rows (db : Db) (c : command) :
  not_a_reconciliation c ->
  exists added,
    ledger_entries (execute db c) = ledger_entries db ++ added
    /\ Forall (fun e => is_reconciled e = false
                        /\ ~ In (entry_id e) (map entry_id (ledger_entries db)))
              added.
Proof.
  intro NR.
  apply (execute_ledger_cases (fun rows' =>
           exists added,
             rows' = ledger_entries db ++ added
             /\ Forall (fun e => is_reconciled e = false
                                 /\ ~ In (entry_id e)
                                         (map entry_id (ledger_entries db)))
                       added)).
  - exists []. rewrite app_nil_r. auto.
  - intros rows ps (added & -> & F).
    destruct (fold_insert_entry_fresh ps (ledger_entries db ++ added))
      as (more & -> & F').
    exists (added ++ more). rewrite app_assoc. split; [reflexivity|].
    apply Forall_app. split; [exact F|].
    eapply Forall_impl; [|exact F']. intros e [R N]. split; [exact R|].
    intro H. apply N. rewrite map_app. apply in_or_app. left. exact H.
  - intros r ids H. contradiction.
Qed.

Lemma only_reconciliation_updates_rows_witness :
  exists added,
    ledger_entries (execute bank_db
                      (CreateJournalEntry 1 1 some_day interest_received))
    = ledger_entries bank_db ++ added
    /\ Forall (fun e => is_reconciled e = false
                        /\ ~ In (entry_id e) (map entry_id (ledger_entries bank_db)))
              added.
Proof.
  apply only_reconciliation_updates_rows. exact I.
Defined.

(* ------------------------------------------------------------------ *)
(** ** Profit and loss *)






(* ------------------------------------------------------------------ *)
(** ** Document numbers *)

Lemma digits_value_of_uint (d : Decimal.uint) (acc : nat) (b : bool) :
  d <> Decimal.Nil \/ b = true ->
  digits_value (list_ascii_of_string (DecimalString.NilEmpty.string_of_uint d)) acc b
  = Some (Nat.of_uint_acc d acc).
Proof.
  revert acc b. induction d; intros acc b H;
    try (cbn [DecimalString.NilEmpty.string_of_uint list_ascii_of_string
              digits_value Nat.of_uint_acc];
         change (digit_of _) with (Some 0%nat) || change (digit_of _) with (Some 1%nat)
         || change (digit_of _) with (Some 2%nat) || change (digit_of _) with (Some 3%nat)
         || change (digit_of _) with (Some 4%nat) || change (digit_of _) with (Some 5%nat)
         || change (digit_of _) with (Some 6%nat) || change (digit_of _) with (Some 7%nat)
         || change (digit_of _) with (Some 8%nat) || change (digit_of _) with (Some 9%nat);
         cbv iota beta;
         rewrite IHd by (right; reflexivity);
         rewrite Nat.tail_mul_spec; f_equal; f_equal; lia).
  destruct H as [H | Hb]; [congruence | subst b; reflexivity].
Qed.

Lemma all_digits_of_uint (d : Decimal.uint) :
  forallb is_digit (list_ascii_of_string (DecimalString.NilEmpty.string_of_uint d))
  = true.
Proof. induction d; cbn; auto. Qed.

Lemma list_ascii_app (a b : string) :
  list_ascii_of_string (a ++ b) = list_ascii_of_string a ++ list_ascii_of_string b.
Proof. induction a as [|c a IH]; cbn; [reflexivity|]. rewrite IH. reflexivity. Qed.

Lemma all_digits_zeros (k : nat) :
  forallb is_digit (list_ascii_of_string (zeros k)) = true.
Proof. induction k; cbn; auto. Qed.

Lemma digits_value_zeros (k : nat) (cs : list ascii) (b : bool) :
  digits_value (list_ascii_of_string (zeros k) ++ cs) 0 b
  = digits_value cs 0 (b || (0 <? k)%nat).
Proof.
  revert b. induction k as [|k IH]; intro b.
  - cbn. rewrite orb_false_r. reflexivity.
  - cbn [zeros list_ascii_of_string app digits_value].
    change (digit_of "0") with (Some 0%nat). cbv iota beta.
    rewrite IH. cbn. rewrite orb_true_r. reflexivity.
Qed.

Lemma digit_is_no_space (c : ascii) : is_digit c = true -> is_space c = false.
Proof.
  unfold is_digit, digit_of, is_space.
  destruct ((48 <=? nat_of_ascii c)%nat && (nat_of_ascii c <=? 57)%nat) eqn:D;
    [|discriminate].
  intros _. apply andb_true_iff in D. destruct D as [D1 D2].
  apply Nat.leb_le in D1. apply Nat.leb_le in D2.
  apply orb_false_iff. split; apply andb_false_iff.
  - right. apply Nat.leb_gt. lia.
  - right. apply Nat.leb_gt. lia.
Qed.

Lemma lstrip_digits (cs : list ascii) :
  forallb is_digit cs = true -> lstrip cs = cs.
Proof.
  destruct cs as [|c cs]; [reflexivity|]. cbn [forallb lstrip].
  intro H. apply andb_true_iff in H. destruct H as [H _].
  rewrite (digit_is_no_space c H). reflexivity.
Qed.

Lemma forallb_rev {A} (f : A -> bool) (l : list A) :
  forallb f (rev l) = forallb f l.
Proof.
  induction l as [|x l IH]; [reflexivity|].
  cbn [rev forallb]. rewrite forallb_app, IH. cbn. rewrite andb_true_r.
  apply andb_comm.
Qed.

Lemma strip_digits (cs : list ascii) :
  forallb is_digit cs = true -> strip cs = cs.
Proof.
  intro H. unfold strip. rewrite (lstrip_digits cs H).
  rewrite lstrip_digits by (rewrite forallb_rev; exact H).
  apply rev_involutive.
Qed.

Lemma python_int_digits (s : string) :
  forallb is_digit (list_ascii_of_string s) = true ->
  python_int s = option_map Z.of_nat (digits_value (list_ascii_of_string s) 0 false).
Proof.
  intro H. unfold python_int. rewrite (strip_digits _ H).
  destruct (list_ascii_of_string s) as [|c cs]; [reflexivity|].
  cbn [forallb] in H. apply andb_true_iff in H. destruct H as [H _].
  destruct c as [b0 b1 b2 b3 b4 b5 b6 b7];
    destruct b0, b1, b2, b3, b4, b5, b6, b7; try reflexivity;
    vm_compute in H; discriminate.
Qed.

Lemma format_04d_nat (n : nat) :
  format_04d (Z.of_nat n)
  = (zeros (4 - String.length (str_of_nat n)) ++ str_of_nat n)%string.
Proof.
  unfold format_04d.
  destruct (Z.of_nat n <? 0)%Z eqn:L; [apply Z.ltb_lt in L; lia|].
  rewrite Nat2Z.id. reflexivity.
Qed.

Lemma python_int_format (n : nat) :
  python_int (format_04d (Z.of_nat n)) = Some (Z.of_nat n).
Proof.
  rewrite format_04d_nat, python_int_digits.
  - rewrite list_ascii_app, digits_value_zeros. unfold str_of_nat.
    rewrite digits_value_of_uint.
    + cbn [option_map]. f_equal. f_equal.
      change (Nat.of_uint_acc (Nat.to_uint n) 0) with (Nat.of_uint (Nat.to_uint n)).
      apply DecimalNat.Unsigned.of_to.
    + left. rewrite <- (DecimalNat.Unsigned.of_to n) at 1.
      rewrite DecimalNat.Unsigned.to_of. apply DecimalFacts.unorm_nonnil.
  - rewrite list_ascii_app, forallb_app, all_digits_zeros.
    unfold str_of_nat. apply all_digits_of_uint.
Qed.

Lemma digit_is_no_dash (c : ascii) :
  is_digit c = true -> Ascii.eqb c "-" = false.
Proof.
  intro H. destruct c as [b0 b1 b2 b3 b4 b5 b6 b7];
    destruct b0, b1, b2, b3, b4, b5, b6, b7; try reflexivity;
    vm_compute in H; discriminate.
Qed.

Lemma no_dash_digits (s : string) :
  forallb is_digit (list_ascii_of_string s) = true -> no_dash s = true.
Proof.
  induction s as [|c s IH]; [reflexivity|]. cbn [list_ascii_of_string forallb no_dash].
  intro H. apply andb_true_iff in H. destruct H as [H1 H2].
  rewrite (digit_is_no_dash c H1), (IH H2). reflexivity.
Qed.

Lemma no_dash_format (n : nat) : no_dash (format_04d (Z.of_nat n)) = true.
Proof.
  apply no_dash_digits. rewrite format_04d_nat, list_ascii_app, forallb_app,
    all_digits_zeros. unfold str_of_nat. apply all_digits_of_uint.
Qed.

Lemma split_on_no_dash (s : string) : no_dash s = true -> split_on "-" s = [s].
Proof.
  induction s as [|c s IH]; [reflexivity|]. cbn [no_dash split_on].
  intro H. apply andb_true_iff in H. destruct H as [H1 H2].
  apply negb_true_iff in H1. rewrite H1, (IH H2). reflexivity.
Qed.

Lemma split_on_number (prefix body : string) :
  no_dash prefix = true -> no_dash body = true ->
  split_on "-" (prefix ++ "-" ++ body) = [prefix; body].
Proof.
  intros Hp Hb. induction prefix as [|c prefix IH].
  - cbn. rewrite (split_on_no_dash body Hb). reflexivity.
  - cbn [no_dash] in Hp. apply andb_true_iff in Hp. destruct Hp as [H1 H2].
    apply negb_true_iff in H1.
    change ((String c prefix ++ "-" ++ body)%string)
      with (String c (prefix ++ "-" ++ body)).
    cbn [split_on]. rewrite H1, (IH H2). reflexivity.
Qed.

Lemma next_number_round_trip (prefix : string) (n : nat) :
  no_dash prefix = true ->
  next_number_after_last_dash prefix (Some (document_number prefix (Z.of_nat n)))
    = Some (document_number prefix (Z.of_nat (S n)))
  /\ next_number_after_first_dash prefix (Some (document_number prefix (Z.of_nat n)))
     = Some (document_number prefix (Z.of_nat (S n))).
Proof.
  intro Hp.
  unfold next_number_after_last_dash, next_number_after_first_dash, document_number.
  rewrite (split_on_number prefix _ Hp (no_dash_format n)).
  cbn [List.last nth_error]. rewrite python_int_format.
  replace (Z.of_nat n + 1)%Z with (Z.of_nat (S n)) by lia.
  split; reflexivity.
Qed.

(** X17.  Document numbers round-trip through their text: whatever number
    [n] was issued last as [PREFIX-NNNN], each numbering function returns
    the text of [n + 1], with at least four digits and without wrapping
    after 9999; with no earlier document it returns [PREFIX-0001]. *)
Theorem document_numbers_count_up (n : nat) :
  let next := Z.of_nat (S n) in
  let issued prefix := Some (document_number prefix (Z.of_nat n)) in
  next_journal_voucher_number (issued "JV"%string)
    = Some (document_number "JV" next)
  /\ next_invoice_number (issued "INV"%string) = Some (document_number "INV" next)
  /\ next_purchase_bill_number (issued "PB"%string)
     = Some (document_number "PB" next)
  /\ next_expense_number (issued "EXP"%string) = Some (document_number "EXP" next)
  /\ next_income_number (issued "INC"%string) = Some (document_number "INC" next)
  /\ next_credit_note_number (issued "CN"%string) = Some (document_number "CN" next)
  /\ next_debit_note_number (issued "DN"%string) = Some (document_number "DN" next)
  /\ next_journal_voucher_number None = Some (document_number "JV" 1)
  /\ next_credit_note_number None = Some (document_number "CN" 1)
  /\ (4 <= String.length (format_04d next))%nat.
Proof.
  cbv zeta.
  repeat (split; [apply next_number_round_trip; reflexivity|]).
  split; [reflexivity|]. split; [reflexivity|].
  rewrite format_04d_nat. generalize (str_of_nat (S n)). intro s.
  assert (L : forall k t, String.length (zeros k ++ t) = (k + String.length t)%nat).
  { induction k as [|k IH]; intro t; cbn; [reflexivity|]. rewrite IH. reflexivity. }
  rewrite L. lia.
Qed.

(* ------------------------------------------------------------------ *)
(** ** Reconciliation and the balances read from the ledger *)

Lemma process_reconciliation_ledger (db : Db) (business_id branch account : Z)
    (sd : date) (sb : Q) (ids : list Z) :
  ledger_entries (fst (process_reconciliation db business_id branch account sd sb ids))
  = map (mark_reconciled (next_id (map rec_id (bank_reconciliations db))) ids)
        (ledger_entries db).
Proof.
  unfold process_reconciliation. destruct ids as [|i ids]; cbn.
  - symmetry. erewrite map_ext; [apply map_id|]. reflexivity.
  - reflexivity.
Qed.

Lemma mark_reconciled_flag (r : Z) (ids : list Z) (e : LedgerEntry) :
  is_reconciled (mark_reconciled r ids e) = is_reconciled e || cleared ids e.
Proof.
  unfold mark_reconciled, cleared. destruct (existsb _ ids); cbn.
  - rewrite orb_true_r. reflexivity.
  - rewrite orb_false_r. reflexivity.
Qed.

Lemma mark_reconciled_columns (r : Z) (ids : list Z) (e : LedgerEntry) :
  account_id (mark_reconciled r ids e) = account_id e
  /\ branch_id (mark_reconciled r ids e) = branch_id e
  /\ debit (mark_reconciled r ids e) = debit e
  /\ credit (mark_reconciled r ids e) = credit e
  /\ transaction_date (mark_reconciled r ids e) = transaction_date e.
Proof. unfold mark_reconciled. destruct (existsb _ ids); repeat split. Qed.


Lemma date_leb_total (a b : date) : date_leb a b = false -> date_leb b a = true.
Proof.
  unfold date_leb. intro H. apply not_true_iff_false in H.
  rewrite !orb_true_iff, !andb_true_iff, !orb_true_iff, !andb_true_iff,
    ?Z.ltb_lt, ?Z.eqb_eq, ?Z.leb_le in *.
  lia.
Qed.

Lemma date_leb_trans (a b c : date) :
  date_leb a b = true -> date_leb b c = true -> date_leb a c = true.
Proof.
  unfold date_leb. intros H1 H2.
  rewrite !orb_true_iff, !andb_true_iff, !orb_true_iff, !andb_true_iff,
    ?Z.ltb_lt, ?Z.eqb_eq, ?Z.leb_le in *.
  lia.
Qed.

Lemma insert_by_date_sorted (e : LedgerEntry) (l : list LedgerEntry) :
  StronglySorted by_date l -> StronglySorted by_date (insert_by_date e l).
Proof.
  induction 1 as [|x l S IH F]; cbn.
  - repeat constructor.
  - destruct (date_leb (transaction_date e) (transaction_date x)) eqn:L.
    + constructor; [constructor; assumption|].
      constructor; [exact L|].
      eapply Forall_impl; [|exact F]. intros y Hy.
      unfold by_date in *. eapply date_leb_trans; eassumption.
    + constructor; [exact IH|].
      apply Forall_forall. intros y Hy. apply in_insert_by_date in Hy.
      destruct Hy as [->|Hy].
      * apply date_leb_total. exact L.
      * revert y Hy. apply Forall_forall. exact F.
Qed.

Lemma order_by_transaction_date_sorted (l : list LedgerEntry) :
  StronglySorted by_date (order_by_transaction_date l).
Proof.
  induction l as [|e l IH]; cbn; [constructor|].
  apply insert_by_date_sorted. exact IH.
Qed.

Lemma insert_by_date_first (e : LedgerEntry) (l : list LedgerEntry) :
  Forall (by_date e) l -> insert_by_date e l = e :: l.
Proof.
  destruct 1 as [|x l H F]; cbn; [reflexivity|].
  unfold by_date in H. rewrite H. reflexivity.
Qed.

Lemma filter_insert_by_date (p : LedgerEntry -> bool) (e : LedgerEntry)
    (l : list LedgerEntry) :
  StronglySorted by_date l ->
  filter p (insert_by_date e l)
  = if p e then insert_by_date e (filter p l) else filter p l.
Proof.
  induction 1 as [|x l S IH F].
  - cbn. destruct (p e); reflexivity.
  - cbn [insert_by_date].
    destruct (date_leb (transaction_date e) (transaction_date x)) eqn:L.
    + cbn [filter]. destruct (p e) eqn:Pe; [|reflexivity].
      destruct (p x) eqn:Px.
      * cbn [insert_by_date]. rewrite L. reflexivity.
      * symmetry. apply insert_by_date_first.
        apply Forall_forall. intros y Hy. apply filter_In in Hy.
        destruct Hy as [Hy _].
        assert (by_date x y) by (revert y Hy; apply Forall_forall; exact F).
        unfold by_date in *. eapply date_leb_trans; eassumption.
    + cbn [filter]. rewrite IH.
      destruct (p x) eqn:Px, (p e) eqn:Pe; try reflexivity.
      cbn [insert_by_date]. rewrite L. reflexivity.
Qed.

Lemma filter_order_by_transaction_date (p : LedgerEntry -> bool)
    (l : list LedgerEntry) :
  order_by_transaction_date (filter p l) = filter p (order_by_transaction_date l).
Proof.
  induction l as [|e l IH]; [reflexivity|].
  cbn [filter]. change (order_by_transaction_date (e :: l))
    with (insert_by_date e (order_by_transaction_date l)).
  rewrite filter_insert_by_date by apply order_by_transaction_date_sorted.
  destruct (p e); [|exact IH].
  change (order_by_transaction_date (e :: filter p l))
    with (insert_by_date e (order_by_transaction_date (filter p l))).
  rewrite IH. reflexivity.
Qed.

Lemma filter_filter {A} (p q : A -> bool) (l : list A) :
  filter p (filter q l) = filter (fun x => q x && p x) l.
Proof.
  induction l as [|x l IH]; [reflexivity|]. cbn.
  destruct (q x); cbn; [destruct (p x)|]; rewrite IH; reflexivity.
Qed.

(** X19.  After a reconciliation the list of unreconciled transactions of
    any account and branch is the earlier list without the cleared ids, in
    the same order; every other row is still offered for the next
    reconciliation. *)
Theorem reconciliation_removes_exactly_the_cleared_rows
    (db : Db) (business_id branch account : Z) (sd : date) (sb : Q)
    (ids : list Z) (a b : Z) :
  get_unreconciled_transactions
    (fst (process_reconciliation db business_id branch account sd sb ids)) a b
  = filter (fun e => negb (cleared ids e)) (get_unreconciled_transactions db a b).
Proof.
  unfold get_unreconciled_transactions.
  rewrite process_reconciliation_ledger.
  generalize (next_id (map rec_id (bank_reconciliations db))). intro r.
  rewrite <- filter_order_by_transaction_date, filter_filter. f_equal.
  induction (ledger_entries db) as [|e l IH]; [reflexivity|].
  cbn [map filter].
  destruct (mark_reconciled_columns r ids e) as (Ha & Hb & _).
  rewrite Ha, Hb, mark_reconciled_flag, IH.
  destruct (account_id e =? a)%Z, (branch_id e =? b)%Z, (is_reconciled e),
    (cleared ids e) eqn:C; cbn [andb orb negb]; try reflexivity.
  unfold mark_reconciled. unfold cleared in C. rewrite C. reflexivity.
Qed.

(* ------------------------------------------------------------------ *)
(** ** Account ledger and cashbook *)












Lemma in_insert_by_name (a x : Account) (l : list Account) :
  In x (insert_by_name a l) <-> x = a \/ In x l.
Proof.
  induction l as [|y l IH]; cbn [insert_by_name].
  - cbn. intuition congruence.
  - destruct (String.leb (acc_name a) (acc_name y)); cbn [In].
    + intuition congruence.
    + rewrite IH. intuition congruence.
Qed.

Lemma in_sorted_by_name (x : Account) (l : list Account) :
  In x (sorted_by_name l) <-> In x l.
Proof.
  induction l as [|a l IH]; [reflexivity|].
  change (sorted_by_name (a :: l)) with (insert_by_name a (sorted_by_name l)).
  rewrite in_insert_by_name, IH. cbn. intuition congruence.
Qed.




(* ------------------------------------------------------------------ *)
(** ** Purchases and expenses *)


(* ------------------------------------------------------------------ *)
(** ** The seeded chart of accounts *)

Lemma fold_add_default_account (business_id : Z)
    (l : list (string * AccountType * bool)) (accs : list Account) :
  let r := fold_left (add_default_account business_id) l accs in
  (forall a, In a accs -> In a r)
  /\ Forall (fun acc_data => exists a, In a r /\ seeded_as business_id acc_data a) l
  /\ List.length r = (List.length accs + List.length l)%nat.
Proof.
  cbv zeta. revert accs. induction l as [|[[name type] system] l IH]; intro accs.
  - cbn. repeat split; auto.
  - cbn [fold_left]. destruct (IH (add_default_account business_id accs
                                     (name, type, system))) as (K & F & L).
    split; [|split].
    + intros a Ha. apply K. unfold add_default_account. apply in_or_app. left.
      exact Ha.
    + constructor; [|exact F].
      eexists. split.
      * apply K. unfold add_default_account. apply in_or_app. right. left.
        reflexivity.
      * repeat split.
    + rewrite L. unfold add_default_account. rewrite length_app. cbn. lia.
Qed.

Lemma account_by_name_found (db : Db) (business_id : Z) (name : string) (a : Account) :
  In a (accounts db) -> acc_business_id a = business_id -> acc_name a = name ->
  exists a', account_by_name db business_id name = Some a'
             /\ acc_name a' = name /\ acc_business_id a' = business_id.
Proof.
  unfold account_by_name. intros Ha Hb Hn.
  assert (F : In a (filter (fun a => (acc_business_id a =? business_id)%Z
                                     && String.eqb (acc_name a) name) (accounts db))).
  { apply filter_In. split; [exact Ha|].
    rewrite Hb, Hn, Z.eqb_refl, String.eqb_refl. reflexivity. }
  destruct (filter _ (accounts db)) as [|a' l] eqn:E; [destruct F|].
  exists a'. split; [reflexivity|].
  assert (In a' (a' :: l)) as I by (left; reflexivity).
  rewrite <- E in I. apply filter_In in I. destruct I as [_ I].
  apply andb_true_iff in I. destruct I as [I1 I2].
  apply Z.eqb_eq in I1. apply String.eqb_eq in I2. split; assumption.
Qed.

(** X26.  Seeding a business adds the sixteen default accounts and keeps
    every account there was.  Afterwards each default name resolves, for
    that business, to an account of that name, so a VAT remittance of a
    seeded business is never refused for a missing VAT account. *)
Theorem seeded_chart_resolves_every_default_name (db : Db) (business_id : Z) :
  let db' := create_default_chart_of_accounts db business_id in
  List.length (accounts db') = (List.length (accounts db) + 16)%nat
  /\ (forall a, In a (accounts db) -> In a (accounts db'))
  /\ Forall (fun acc_data =>
               (exists a, In a (accounts db') /\ seeded_as business_id acc_data a)
               /\ exists a, account_by_name db' business_id (fst (fst acc_data)) = Some a
                            /\ acc_name a = fst (fst acc_data)
                            /\ acc_business_id a = business_id)
            default_accounts
  /\ forall branch on amount_paid payment_account output_vat input_vat,
       create_vat_payment_entry db' business_id branch on amount_paid
         payment_account output_vat input_vat <> Err VatAccountMissing.
Proof.
  cbv zeta.
  destruct (fold_add_default_account business_id default_accounts (accounts db))
    as (K & F & L).
  assert (G : Forall (fun acc_data =>
               (exists a, In a (accounts (create_default_chart_of_accounts db business_id))
                          /\ seeded_as business_id acc_data a)
               /\ exists a, account_by_name (create_default_chart_of_accounts db business_id)
                              business_id (fst (fst acc_data)) = Some a
                            /\ acc_name a = fst (fst acc_data)
                            /\ acc_business_id a = business_id)
            default_accounts).
  { eapply Forall_impl; [|exact F]. intros [[name type] system] [a [Ha S]].
    split; [exists a; split; assumption|].
    destruct S as (Hn & _ & _ & Hb).
    apply (account_by_name_found _ _ _ a); assumption. }
  split; [exact L|]. split; [exact K|]. split; [exact G|].
  intros branch on amount_paid payment_account output_vat input_vat.
  unfold create_vat_payment_entry.
  pose proof (proj1 (Forall_forall _ _) G) as G'.
  destruct (G' ("VAT Payable (Output VAT)"%string, LIABILITY, true))
    as [_ [a1 [E1 _]]]; [unfold default_accounts; cbn; tauto|].
  destruct (G' ("VAT Receivable (Input VAT)"%string, ASSET, true))
    as [_ [a2 [E2 _]]]; [unfold default_accounts; cbn; tauto|].
  cbn [fst] in E1, E2. rewrite E1, E2. discriminate.
Qed.

(** X23.  Creating a bank account fails when a bank account of the branch
    already carries the name.  Otherwise the new bank account is a payment
    account of its branch, under a chart account that is new, of type asset
    and not a system account; creating it writes no ledger row, and the
    name is taken from then on. *)
Theorem new_bank_account_is_a_payment_account (db : Db) (account_name : string)
    (business_id branch : Z) :
  let request := create_bank_account db account_name business_id branch in
  (name_taken db branch account_name = true -> request = Err DuplicateBankAccount)
  /\ (name_taken db branch account_name = false ->
      exists db' bank_account,
        request = Ok (db', bank_account)
        /\ ba_account_name bank_account = account_name
        /\ ba_branch_id bank_account = branch
        /\ (exists a, In a (get_payment_accounts db' business_id branch)
                      /\ acc_id a = chart_of_account_id bank_account
                      /\ acc_name a = account_name
                      /\ acc_type a = ASSET
                      /\ is_system_account a = false)
        /\ ~ In (chart_of_account_id bank_account) (map acc_id (accounts db))
        /\ ledger_entries db' = ledger_entries db
        /\ name_taken db' branch account_name = true).
Proof.
  cbv zeta. unfold create_bank_account.
  change (name_taken (set_accounts db _) branch account_name)
    with (name_taken db branch account_name).
  split; [intros ->; reflexivity|].
  intros T. rewrite T. eexists. eexists. split; [reflexivity|].
  cbn [ba_account_name ba_branch_id chart_of_account_id].
  split; [reflexivity|]. split; [reflexivity|].
  split; [|split; [|split; [reflexivity|]]].
  - eexists. split; [|repeat split].
    unfold get_payment_accounts.
    cbn [accounts bank_accounts set_accounts set_bank_accounts].
    apply in_sorted_by_name.
    match goal with |- In ?a (match ?c with _ => _ end) =>
      assert (B : In a (flat_map
        (fun a0 => map (fun _ => a0)
           (filter (fun b => (chart_of_account_id b =? acc_id a0)%Z
                             && (ba_branch_id b =? branch)%Z)
              (bank_accounts db ++
               [{| ba_id := next_id (map ba_id (bank_accounts db));
                   ba_account_name := account_name;
                   chart_of_account_id := next_id (map acc_id (accounts db));
                   ba_branch_id := branch;
                   last_reconciliation_date := None;
                   last_reconciliation_balance := None |}])))
        (accounts db ++ [a])));
      [|destruct c; [apply in_or_app; left|]; exact B]
    end.
    apply in_flat_map. eexists. split; [apply in_or_app; right; left; reflexivity|].
    rewrite filter_app, map_app. apply in_or_app. right.
    cbn [filter chart_of_account_id ba_branch_id acc_id].
    rewrite !Z.eqb_refl. left. reflexivity.
  - intro H. apply next_id_above in H. cbn [acc_id] in H. lia.
  - unfold name_taken. cbn [bank_accounts set_accounts set_bank_accounts].
    rewrite existsb_app. cbn [existsb ba_branch_id ba_account_name].
    rewrite Z.eqb_refl, String.eqb_refl, !orb_true_r. reflexivity.
Qed.

Lemma new_bank_account_is_a_payment_account_witness :
  exists db' bank_account,
    create_bank_account books_db "Main" 1 1 = Ok (db', bank_account)
    /\ name_taken db' 1 "Main" = true
    /\ create_bank_account db' "Main" 1 1 = Err DuplicateBankAccount.
Proof.
  destruct (proj2 (new_bank_account_is_a_payment_account books_db "Main" 1 1)
              eq_refl) as (db' & bank_account & E & _ & _ & _ & _ & _ & T).
  exists db', bank_account. split; [exact E|]. split; [exact T|].
  apply (proj1 (new_bank_account_is_a_payment_account db' "Main" 1 1)). exact T.
Defined.

(* ================================================================== *)
(** * Binary64: theorems *)

Import Binary64.

(* ------------------------------------------------------------------ *)
(** ** Whole numbers below 2^53 are added and subtracted exactly *)

Local Open Scope Z_scope.



Lemma digits_shl (c : positive) (k : N) :
  Zpos (digits2_pos (shl c k)) = Zpos (digits2_pos c) + Z.of_N k.
Proof.
  destruct k as [|k]; [cbn; lia|]. unfold shl. cbn [Pos.shiftl].
  revert c. induction k using Pos.peano_ind; intro c.
  - cbn. lia.
  - rewrite Pos.iter_succ. cbn [digits2_pos]. rewrite Pos2Z.inj_succ, IHk. lia.
Qed.

Lemma shl_shl (c : positive) (a b : N) : shl (shl c a) b = shl c (a + b).
Proof.
  unfold shl. destruct a as [|a], b as [|b]; cbn; try reflexivity.
  rewrite Pos.add_comm. rewrite Pos.iter_add. reflexivity.
Qed.

Lemma Zpos_shl (c : positive) (k : N) : Zpos (shl c k) = Zpos c * 2 ^ Z.of_N k.
Proof.
  unfold shl. destruct k as [|k]; [cbn; lia|]. cbn [Pos.shiftl].
  revert c. induction k using Pos.peano_ind; intro c.
  - cbn. lia.
  - rewrite Pos.iter_succ. rewrite Pos2Z.inj_xO, IHk.
    replace (Z.of_N (N.pos (Pos.succ k))) with (Z.of_N (N.pos k) + 1) by lia.
    rewrite Z.pow_add_r by lia. lia.
Qed.

Lemma iter_shr_1 (j : positive) (c : positive) :
  iter_pos shr_1 j (Build_shr_record (Zpos (Pos.iter xO c j)) false false)
  = Build_shr_record (Zpos c) false false.
Proof.
  revert c. induction j as [j IH|j IH|]; intro c; cbn [iter_pos Pos.iter].
  - cbn [shr_1 orb]. rewrite IH, IH. reflexivity.
  - rewrite IH, IH. reflexivity.
  - reflexivity.
Qed.



Lemma digits_pos (c : positive) : 1 <= digits c.
Proof. unfold digits. lia. Qed.

Lemma fexp_small (e : Z) : -1021 <= e -> fexp prec emax e = e - 53.
Proof. intro H. unfold fexp, SpecFloat.emin, prec, emax. lia. Qed.

Lemma shr_fexp_canon (m : positive) (e : Z) :
  digits m = 53 -> -1074 <= e ->
  shr_fexp prec emax (Zpos m) e loc_Exact
  = (Build_shr_record (Zpos m) false false, e).
Proof.
  intros D E. unfold shr_fexp. cbn [Zdigits2]. fold (digits m). rewrite D.
  replace (fexp prec emax (53 + e) - e) with 0
    by (unfold fexp, SpecFloat.emin, prec, emax; lia).
  reflexivity.
Qed.

Lemma binary_round_aux_canon (s : bool) (m : positive) (e : Z) :
  digits m = 53 -> -1074 <= e <= 971 ->
  binary_round_aux prec emax s (Zpos m) e loc_Exact = S754_finite s m e.
Proof.
  intros D E. unfold binary_round_aux.
  rewrite (shr_fexp_canon m e D) by lia. cbn [shr_m loc_of_shr_record round_nearest_even].
  rewrite (shr_fexp_canon m e D) by lia. cbn [shr_m].
  replace (e <=? emax - prec) with true; [reflexivity|].
  symmetry. apply Z.leb_le. unfold emax, prec. lia.
Qed.

Lemma shr_fexp_shl (c : positive) (k : N) (j : positive) :
  digits c <= 53 ->
  let t := Z.to_N (53 - digits c) in
  k = (t + Npos j)%N ->
  shr_fexp prec emax (Zpos (shl c k)) (- Z.of_N k) loc_Exact
  = (Build_shr_record (Zpos (shl c t)) false false, - Z.of_N t).
Proof.
  intros D t K. pose proof (digits_pos c) as D1.
  assert (T : Z.of_N t = 53 - digits c) by (unfold t; lia).
  unfold shr_fexp. cbn [Zdigits2]. rewrite digits_shl.
  replace (fexp prec emax (Zpos (digits2_pos c) + Z.of_N k + - Z.of_N k)
           - - Z.of_N k) with (Zpos j)
    by (fold (digits c);
        replace (digits c + Z.of_N k + - Z.of_N k) with (digits c) by lia;
        rewrite fexp_small by lia; lia).
  cbn [shr_record_of_loc shr].
  replace (shl c k) with (Pos.iter xO (shl c t) j)
    by (rewrite K, <- shl_shl; reflexivity).
  rewrite iter_shr_1. f_equal. lia.
Qed.

Lemma binary_round_shl (s : bool) (c : positive) (k : N) :
  digits c <= 53 ->
  binary_round prec emax s (shl c k) (- Z.of_N k) = canon s c.
Proof.
  intro D. pose proof (digits_pos c) as D1.
  set (t := Z.to_N (53 - digits c)).
  assert (T : Z.of_N t = 53 - digits c) by (unfold t; lia).
  assert (Dt : digits (shl c t) = 53)
    by (unfold digits in *; rewrite digits_shl; lia).
  unfold binary_round.
  replace (Zpos (digits2_pos (shl c k)) + - Z.of_N k) with (digits c)
    by (rewrite digits_shl; unfold digits; lia).
  rewrite fexp_small by lia.
  unfold canon. fold t. replace (digits c - 53) with (- Z.of_N t) by lia.
  unfold shl_align.
  destruct (- Z.of_N t - - Z.of_N k) as [|j|j] eqn:J.
  - assert (k = t) by lia. subst k.
    apply binary_round_aux_canon; [exact Dt|lia].
  - (* k > t: the low bits are shifted out again *)
    assert (K : k = (t + Npos j)%N) by lia.
    unfold binary_round_aux.
    rewrite (shr_fexp_shl c k j D K). fold t.
    cbn [shr_m loc_of_shr_record round_nearest_even].
    rewrite (shr_fexp_canon _ _ Dt) by lia. cbn [shr_m].
    replace (- Z.of_N t <=? emax - prec) with true; [reflexivity|].
    symmetry. apply Z.leb_le. unfold emax, prec. lia.
  - (* k < t: the mantissa is shifted up to 53 bits *)
    assert (K : t = (k + Npos j)%N) by lia.
    replace (Pos.iter xO (shl c k) j) with (shl c t)
      by (rewrite K, <- shl_shl; reflexivity).
    apply binary_round_aux_canon; [exact Dt|lia].
Qed.

Lemma whole_pos (c : positive) : digits c <= 53 -> whole (Zpos c) = canon false c.
Proof. intro D. exact (binary_round_shl false c 0 D). Qed.

Lemma whole_neg (c : positive) : digits c <= 53 -> whole (Zneg c) = canon true c.
Proof. intro D. exact (binary_round_shl true c 0 D). Qed.

Lemma digits_bound (c : positive) : Zpos c < 2 ^ 53 -> digits c <= 53.
Proof.
  intro H. unfold digits.
  destruct (Z_le_gt_dec (Zpos (digits2_pos c)) 53) as [L|G]; [exact L|exfalso].
  assert (P : forall p : positive, 2 ^ (Zpos (digits2_pos p) - 1) <= Zpos p).
  { induction p as [p IH|p IH|]; cbn [digits2_pos].
    - rewrite Pos2Z.inj_succ. replace (Z.succ (Zpos (digits2_pos p)) - 1)
        with (Zpos (digits2_pos p) - 1 + 1) by lia.
      rewrite Z.pow_add_r by lia. lia.
    - rewrite Pos2Z.inj_succ. replace (Z.succ (Zpos (digits2_pos p)) - 1)
        with (Zpos (digits2_pos p) - 1 + 1) by lia.
      rewrite Z.pow_add_r by lia. lia.
    - cbn. lia. }
  specialize (P c).
  assert (2 ^ 53 <= 2 ^ (Zpos (digits2_pos c) - 1)) by (apply Z.pow_le_mono_r; lia).
  lia.
Qed.



Lemma whole_canon (n : Z) : small n -> n <> 0 ->
  whole n = canon (sign_of n) (Z.to_pos (Z.abs n)).
Proof.
  unfold small. intros S N. destruct n as [|c|c]; [congruence| |].
  - apply whole_pos. apply digits_bound. cbn in S. exact S.
  - apply whole_neg. apply digits_bound. cbn in S. exact S.
Qed.

Lemma normalize_shl (n : Z) (k : N) :
  small n ->
  binary_normalize prec emax (n * 2 ^ Z.of_N k) (- Z.of_N k) false = whole n.
Proof.
  intro S. destruct n as [|c|c].
  - reflexivity.
  - rewrite <- Zpos_shl. cbn [binary_normalize].
    rewrite binary_round_shl by (apply digits_bound; exact S).
    symmetry. apply whole_pos. apply digits_bound. exact S.
  - replace (Zneg c * 2 ^ Z.of_N k) with (Zneg (shl c k))
      by (rewrite <- Pos2Z.opp_pos, Zpos_shl; lia).
    cbn [binary_normalize].
    rewrite binary_round_shl by (apply digits_bound; exact S).
    symmetry. apply whole_neg. apply digits_bound. exact S.
Qed.

(** Mantissa of [whole n] aligned to the exponent [- k]. *)
Lemma align_canon (s : bool) (c : positive) (k : N) :
  digits c <= 53 ->
  (Z.to_N (53 - digits c) <= k)%N ->
  Zpos (fst (shl_align (shl c (Z.to_N (53 - digits c))) (digits c - 53) (- Z.of_N k)))
  = Zpos c * 2 ^ Z.of_N k.
Proof.
  intros D K. pose proof (digits_pos c) as D1.
  set (t := Z.to_N (53 - digits c)) in *.
  assert (T : Z.of_N t = 53 - digits c) by (unfold t; lia).
  unfold shl_align.
  destruct (- Z.of_N k - (digits c - 53)) as [|j|j] eqn:J; cbn [fst].
  - assert (k = t) by lia. subst k. apply Zpos_shl.
  - lia.
  - assert (E : k = (t + Npos j)%N) by lia.
    replace (Pos.iter xO (shl c t) j) with (shl c k)
      by (rewrite E, <- shl_shl; reflexivity).
    apply Zpos_shl.
Qed.

Lemma cond_Zopp_sign (n : Z) (m : Z) :
  n <> 0 -> cond_Zopp (sign_of n) (Z.abs n * m) = n * m.
Proof. unfold cond_Zopp, sign_of. destruct (n <? 0) eqn:E; lia. Qed.


Lemma whole_opp (n : Z) : small n -> n <> 0 -> whole (- n) = fopp (whole n).
Proof.
  intros S N. destruct n as [|c|c]; [congruence| |].
  - cbn [Z.opp]. rewrite whole_neg, whole_pos by (apply digits_bound; exact S).
    reflexivity.
  - cbn [Z.opp]. rewrite whole_neg, whole_pos by (apply digits_bound; exact S).
    reflexivity.
Qed.

Theorem fsub_whole (a b : Z) :
  small a -> small b -> small (a - b) ->
  fsub (whole a) (whole b) = whole (a - b).
Proof.
  intros Sa Sb Sab.
  destruct (Z.eq_dec b 0) as [->|Nb].
  { rewrite Z.sub_0_r. change (whole 0) with (S754_zero false).
    destruct (Z.eq_dec a 0) as [->|Na]; [reflexivity|].
    rewrite (whole_canon a Sa Na). reflexivity. }
  destruct (Z.eq_dec a 0) as [->|Na].
  { cbn [Z.sub Z.add]. rewrite whole_opp by assumption.
    change (whole 0) with (S754_zero false).
    rewrite (whole_canon b Sb Nb). reflexivity. }
  rewrite (whole_canon a Sa Na), (whole_canon b Sb Nb).
  set (ca := Z.to_pos (Z.abs a)). set (cb := Z.to_pos (Z.abs b)).
  assert (Da : digits ca <= 53) by (apply digits_bound; unfold ca, small in *; lia).
  assert (Db : digits cb <= 53) by (apply digits_bound; unfold cb, small in *; lia).
  pose proof (digits_pos ca). pose proof (digits_pos cb).
  unfold canon, fsub. cbn [SFsub].
  set (k := Z.to_N (- Z.min (digits ca - 53) (digits cb - 53))).
  replace (Z.min (digits ca - 53) (digits cb - 53)) with (- Z.of_N k) by (unfold k; lia).
  rewrite (align_canon (sign_of a) ca k Da) by (unfold k; lia).
  rewrite (align_canon (sign_of b) cb k Db) by (unfold k; lia).
  replace (Zpos ca) with (Z.abs a) by (unfold ca; lia).
  replace (Zpos cb) with (Z.abs b) by (unfold cb; lia).
  rewrite (cond_Zopp_sign a _ Na), (cond_Zopp_sign b _ Nb).
  rewrite <- Z.mul_sub_distr_r.
  apply normalize_shl. exact Sab.
Qed.

Lemma feq_whole_zero (n : Z) : small n -> feq (whole n) zero = (n =? 0).
Proof.
  intro S. destruct (Z.eq_dec n 0) as [->|N]; [reflexivity|].
  rewrite (whole_canon n S N). unfold canon, feq, SFeqb, zero. cbn [SFcompare].
  destruct (sign_of n); symmetry; apply Z.eqb_neq; exact N.
Qed.

Lemma small_0 : small 0.
Proof. unfold small. cbn. lia. Qed.

Lemma or_zero_whole (n : Z) : small n -> or_zero (whole n) = whole n.
Proof.
  intro S. unfold or_zero. rewrite (feq_whole_zero n S).
  destruct (Z.eqb_spec n 0) as [->|]; reflexivity.
Qed.

Lemma abs_sum_cons (n : Z) (l : list Z) : abs_sum (n :: l) = Z.abs n + abs_sum l.
Proof. reflexivity. Qed.

Lemma zsum_cons (n : Z) (l : list Z) : zsum (n :: l) = n + zsum l.
Proof. reflexivity. Qed.

Lemma abs_sum_nonneg (l : list Z) : 0 <= abs_sum l.
Proof. induction l as [|n l IH]; [cbn; lia|]. rewrite abs_sum_cons. lia. Qed.

Lemma zsum_abs (l : list Z) : Z.abs (zsum l) <= abs_sum l.
Proof.
  induction l as [|n l IH]; [cbn; lia|]. rewrite abs_sum_cons, zsum_cons. lia.
Qed.



Lemma fsub_diag (x : float) : is_finite x = true -> feq (fsub x x) zero = true.
Proof.
  destruct x as [s|s| |s m e]; try discriminate; intros _.
  - destruct s; reflexivity.
  - unfold fsub. cbn [SFsub]. rewrite Z.sub_diag. reflexivity.
Qed.

Close Scope Z_scope.

(** [math.ceil] returns the least integer not below its argument. *)
Lemma math_ceil_spec (x : float) (n : Z) : math_ceil x = Some n -> is_ceiling n x.
Proof.
  unfold math_ceil, is_ceiling, value.
  destruct x as [s|s| |s m e]; try discriminate.
  - intro H. injection H as <-. cbn. split; reflexivity || (unfold Qlt, Qle; cbn; lia).
  - set (k := if s then Z.neg m else Z.pos m).
    destruct (0 <=? e)%Z eqn:E; intro H; injection H as <-.
    + split; [lra|apply Qle_refl].
    + apply Z.leb_gt in E.
      assert (P : (0 < 2 ^ (- e))%Z) by (apply Z.pow_pos_nonneg; lia).
      pose proof (Z.div_mod (- k) (2 ^ (- e)) ltac:(lia)) as DM.
      pose proof (Z.mod_pos_bound (- k) (2 ^ (- e)) P) as MB.
      unfold Qlt, Qle, Qminus, Qplus, Qopp, inject_Z. cbn [Qnum Qden].
      rewrite Z2Pos.id by exact P.
      split; nia.
Qed.

(* ------------------------------------------------------------------ *)
(** ** Manual journal vouchers *)

Lemma fold_insert_entry_app (ps : list Posting) (rows : list LedgerEntry) :
  exists added,
    fold_left insert_entry ps rows = rows ++ added
    /\ map posting_of added = ps.
Proof.
  revert rows. induction ps as [|p ps IH]; intro rows; cbn [fold_left].
  - exists []. split; [symmetry; apply app_nil_r|reflexivity].
  - destruct (IH (insert_entry rows p)) as (added & E & M).
    rewrite E. unfold insert_entry. rewrite <- app_assoc.
    eexists. split; [reflexivity|]. cbn [map app]. rewrite M.
    destruct p; reflexivity.
Qed.

Lemma posted_add_ledger_entries_f (db db1 : Db) (ps : list Posting) :
  ledger_entries db1 = ledger_entries db ->
  ledger_entries (add_ledger_entries db1 ps) = ledger_entries db ++
    skipn (List.length (ledger_entries db)) (ledger_entries (add_ledger_entries db1 ps))
  /\ posted db (add_ledger_entries db1 ps) = ps.
Proof.
  intro E. unfold posted, add_ledger_entries. cbn [ledger_entries set_ledger_entries].
  rewrite E. destruct (fold_insert_entry_app ps (ledger_entries db)) as (added & F & M).
  rewrite F, skipn_app, skipn_all, Nat.sub_diag. cbn [skipn app].
  split; [reflexivity|exact M].
Qed.

Lemma create_journal_voucher_effect
    (sum : list float -> float) (db : Db) (business_id branch : Z) (on : date)
    (entries : list JournalLine) (db' : Db) (voucher : JournalVoucher) :
  create_journal_voucher sum db business_id branch on entries = Ok (db', voucher) ->
  let new_id := next_id (map jv_id (journal_vouchers db)) in
  jv_id voucher = new_id
  /\ journal_vouchers db' = journal_vouchers db ++ [voucher]
  /\ journal_postings on branch new_id entries = Some (posted db db')
  /\ exists added, ledger_entries db' = ledger_entries db ++ added
                   /\ map posting_of added = posted db db'.
Proof.
  unfold create_journal_voucher.
  destruct (read_amounts (map jl_debit entries)) as [debits|]; [|discriminate].
  destruct (read_amounts (map jl_credit entries)) as [credits|]; [|discriminate].
  destruct (negb _); [discriminate|].
  set (v := {| jv_id := next_id (map jv_id (journal_vouchers db));
               voucher_number := get_next_journal_voucher_number db business_id;
               jv_transaction_date := on;
               jv_business_id := business_id;
               jv_branch_id := branch |}).
  set (db1 := set_journal_vouchers db (journal_vouchers db ++ [v])).
  cbn [jv_id].
  destruct (journal_postings on branch _ entries) as [rows|] eqn:JP; [|discriminate].
  intro H. injection H as <- <-. cbv zeta.
  destruct (posted_add_ledger_entries_f db db1 rows eq_refl) as [E P].
  rewrite P. repeat split.
  exists (skipn (List.length (ledger_entries db))
                (ledger_entries (add_ledger_entries db1 rows))).
  split; [exact E|]. exact P.
Qed.

(** C2, counterexample.  Debit 100.009765625 against credit 100, both exact
    in binary64, differ by 5/512, less than one cent, and the voucher is
    refused; so is a debit of 0.0095 against nothing. *)
Lemma journal_tolerance_is_not_one_cent :
  create_journal_voucher sum_in_order (books []) 1 1 some_day
    [ debit_line 51205 512 1; credit_line 100 1 12 ] = Err JournalNotBalanced
  /\ value (decimal 51205 512) - value (decimal 100 1) == 5 # 512
  /\ 5 # 512 < 1 # 100
  /\ create_journal_voucher sum_in_order (books []) 1 1 some_day
       [ debit_line 95 10000 1; credit_line 0 1 12 ] = Err JournalNotBalanced
  /\ value (decimal 95 10000) - value (decimal 0 1) < 1 # 100
  /\ 0 <= value (decimal 95 10000) - value (decimal 0 1).
Proof.
  repeat split; try (vm_compute; reflexivity); vm_compute; discriminate.
Qed.

(** C2, as amended.  [create_journal_voucher] accepts the entries exactly
    when every debit and credit converts with [float], the binary64
    difference of the two totals satisfies [0.009 > difference > -0.009]
    against the double nearest 0.009, and every line with a positive amount
    carries an account id that [int] converts.  It raises the not-balanced
    error exactly when the amounts convert and the comparison fails; the
    request then leaves the session as it was.  An accepted voucher is
    appended with its rows. *)
Theorem journal_voucher_accepted_iff_within_tolerance
    (sum : list float -> float) (db : Db) (business_id branch : Z) (on : date)
    (entries : list JournalLine) :
  let request := create_journal_voucher sum db business_id branch on entries in
  let in_tolerance debits credits :=
    let difference := fsub (py_sum sum debits) (py_sum sum credits) in
    flt difference (decimal 9 1000) = true
    /\ flt (fopp (decimal 9 1000)) difference = true in
  let new_id := next_id (map jv_id (journal_vouchers db)) in
  ((exists db' voucher, request = Ok (db', voucher))
   <-> exists debits credits rows,
         read_amounts (map jl_debit entries) = Some debits
         /\ read_amounts (map jl_credit entries) = Some credits
         /\ in_tolerance debits credits
         /\ journal_postings on branch new_id entries = Some rows)
  /\ (request = Err JournalNotBalanced
      <-> exists debits credits,
            read_amounts (map jl_debit entries) = Some debits
            /\ read_amounts (map jl_credit entries) = Some credits
            /\ ~ in_tolerance debits credits)
  /\ (request = Err JournalNotBalanced -> commit_or_rollback db request = db)
  /\ (forall db' voucher, request = Ok (db', voucher) ->
        jv_id voucher = new_id
        /\ journal_vouchers db' = journal_vouchers db ++ [voucher]
        /\ journal_postings on branch new_id entries = Some (posted db db')
        /\ exists added, ledger_entries db' = ledger_entries db ++ added
                         /\ map posting_of added = posted db db').
Proof.
  cbv zeta. split; [|split; [|split]].
  4: { intros db' voucher H. exact (create_journal_voucher_effect _ _ _ _ _ _ _ _ H). }
  all: unfold create_journal_voucher, within_tolerance.
  all: destruct (read_amounts (map jl_debit entries)) as [debits|] eqn:RD;
    [destruct (read_amounts (map jl_credit entries)) as [credits|] eqn:RC|].
  all: try set (difference := fsub (py_sum sum debits) (py_sum sum credits)).
  all: try (destruct (flt difference (decimal 9 1000)) eqn:T1;
      [destruct (flt (fopp (decimal 9 1000)) difference) eqn:T2|];
      cbn [andb negb]).
  all: try (destruct (journal_postings on branch _ entries) as [rows|] eqn:JP).
  all: try (split; [intros (db' & v & H); discriminate H |
                    intros (d & c & r & Hd & Hc & [U1 U2] & Hr);
                    try discriminate Hd; try discriminate Hc;
                    try discriminate Hr;
                    injection Hd as <-; injection Hc as <-;
                    fold difference in U1, U2; congruence]).
  all: try (split; [intros _; exists debits, credits, rows; auto | intros _; eauto]).
  all: try (split; [intro H; discriminate H |
                    intros (d & c & Hd & Hc & N);
                    try discriminate Hd; try discriminate Hc;
                    injection Hd as <-; injection Hc as <-;
                    exfalso; apply N; fold difference; auto]).
  all: try (split; [intros _; exists debits, credits; repeat split; auto;
                    intros [U1 U2]; fold difference in U1, U2; congruence |
                    intros _; reflexivity]).
  all: try (intro H; discriminate H).
  all: try (intros _; reflexivity).
Qed.

(* ------------------------------------------------------------------ *)
(** ** Payroll *)

Lemma float_of_int_whole (n : Z) (x : float) : float_of_int n = Some x -> x = whole n.
Proof.
  unfold float_of_int. destruct (whole n); intro H; try discriminate;
    injection H as <-; reflexivity.
Qed.

(** C3, as amended.  A payroll run computes its figures in binary64: taxable
    income is gross pay plus the additions, PAYE and the two pension amounts
    are [math.ceil] of the binary64 products with the rates (each the least
    integer not below the double the product rounds to), net pay is taxable
    income less PAYE, employee pension and the other deductions.  It adds the
    payslip and writes the salary-expense debit and the net-pay credit,
    followed by the PAYE credit and the pension credit when their amounts are
    positive.  For a gross salary of 1000 at 10% / 5% / 5% the figures are
    100, 50, 50 and 850 and the rows are 1050 / 850 / 100 / 100. *)
Theorem payroll_run_figures_and_postings :
  (forall (sum : list number -> option number) (db : Db) (today : date)
          (employee_id business_id : Z) (pay_period_start pay_period_end : date)
          (additions deductions : list PayslipItem) (db' : Db) (slip : Payslip),
      process_payroll_for_employee sum db today employee_id business_id
        pay_period_start pay_period_end additions deductions = Ok (db', slip) ->
      exists employee config salary_expense payroll_liabilities paye_payable
             pension_payable addition_amounts deduction_amounts
             total_additions other_deductions taxable_income deductions_as_float,
        get_employee_by_id db employee_id business_id = Some employee
        /\ payroll_config employee = Some config
        /\ account_by_name db business_id "Salary Expense" = Some salary_expense
        /\ account_by_name db business_id "Payroll Liabilities"
           = Some payroll_liabilities
        /\ account_by_name db business_id "PAYE Payable" = Some paye_payable
        /\ account_by_name db business_id "Pension Payable" = Some pension_payable
        /\ item_amounts additions = Some addition_amounts
        /\ sum addition_amounts = Some total_additions
        /\ item_amounts deductions = Some deduction_amounts
        /\ sum deduction_amounts = Some other_deductions
        /\ gross_pay slip = gross_salary config
        /\ add (Float (gross_pay slip)) total_additions = Some (Float taxable_income)
        /\ (let product := fmul taxable_income (rate_or_zero (paye_rate config)) in
            math_ceil product = Some (paye_deduction slip)
            /\ is_ceiling (paye_deduction slip) product)
        /\ (let product :=
              fmul (gross_pay slip) (rate_or_zero (pension_employee_rate config)) in
            math_ceil product = Some (pension_employee_deduction slip)
            /\ is_ceiling (pension_employee_deduction slip) product)
        /\ (let product :=
              fmul (gross_pay slip) (rate_or_zero (pension_employer_rate config)) in
            math_ceil product = Some (pension_employer_contribution slip)
            /\ is_ceiling (pension_employer_contribution slip) product)
        /\ add (Int (paye_deduction slip + pension_employee_deduction slip))
               other_deductions = Some (total_deductions slip)
        /\ as_float (total_deductions slip) = Some deductions_as_float
        /\ net_pay slip = fsub taxable_income deductions_as_float
        /\ payslips db' = payslips db ++ [slip]
        /\ (exists added, ledger_entries db' = ledger_entries db ++ added
                          /\ map posting_of added = posted db db')
        /\ (let doc := PayslipDoc (ps_id slip) in
            let branch := emp_branch_id employee in
            let pension :=
              (pension_employee_deduction slip
               + pension_employer_contribution slip)%Z in
            posted db db' =
              [ Debit today
                  (fadd taxable_income (whole (pension_employer_contribution slip)))
                  (acc_id salary_expense) branch doc;
                Credit today (net_pay slip) (acc_id payroll_liabilities) branch doc ]
              ++ (if (0 <? paye_deduction slip)%Z
                  then [ Credit today (whole (paye_deduction slip))
                           (acc_id paye_payable) branch doc ]
                  else [])
              ++ (if (0 <? pension)%Z
                  then [ Credit today (whole pension) (acc_id pension_payable)
                           branch doc ]
                  else [])))
  /\ (exists db' slip,
        process_payroll_for_employee sum_numbers_in_order payroll_db some_day 1 1
          (mkDate 2024 3 1) (mkDate 2024 3 31) [] [] = Ok (db', slip)
        /\ paye_deduction slip = 100%Z
        /\ pension_employee_deduction slip = 50%Z
        /\ pension_employer_contribution slip = 50%Z
        /\ net_pay slip = whole 850
        /\ map columns (posted payroll_db db') =
             [ (14%Z, whole 1050, zero);    (* Salary Expense *)
               (6%Z, zero, whole 850);      (* Payroll Liabilities *)
               (7%Z, zero, whole 100);      (* PAYE Payable *)
               (8%Z, zero, whole 100) ]).   (* Pension Payable *)
Proof.
  split.
  - intros sum db today employee_id business_id ps pe additions deductions db' slip.
    unfold process_payroll_for_employee.
    destruct (get_employee_by_id db employee_id business_id) as [employee|] eqn:He;
      [|discriminate].
    destruct (payroll_config employee) as [config|] eqn:Hc; [|discriminate].
    destruct (account_by_name db business_id "Salary Expense") as [se|] eqn:Hse;
      [|discriminate].
    destruct (account_by_name db business_id "Payroll Liabilities") as [pl|] eqn:Hpl;
      [|discriminate].
    destruct (account_by_name db business_id "PAYE Payable") as [py|] eqn:Hpy;
      [|discriminate].
    destruct (account_by_name db business_id "Pension Payable") as [pn|] eqn:Hpn;
      [|discriminate].
    destruct (item_amounts additions) as [adds|] eqn:Ha; [|discriminate].
    destruct (item_amounts deductions) as [deds|] eqn:Hd; [|discriminate].
    destruct (sum adds) as [ta|] eqn:Sa; [|discriminate].
    destruct (sum deds) as [od|] eqn:Sd; [|discriminate].
    destruct (add (Float (gross_salary config)) ta) as [[n|taxable]|] eqn:Ht;
      try discriminate.
    destruct (math_ceil (fmul taxable (rate_or_zero (paye_rate config))))
      as [paye|] eqn:C1; [|discriminate].
    destruct (math_ceil (fmul (gross_salary config)
                           (rate_or_zero (pension_employee_rate config))))
      as [pem|] eqn:C2; [|discriminate].
    destruct (math_ceil (fmul (gross_salary config)
                           (rate_or_zero (pension_employer_rate config))))
      as [per|] eqn:C3; [|discriminate].
    destruct (add (Int (paye + pem)) od) as [td|] eqn:Htd; [|discriminate].
    destruct (as_float td) as [tdf|] eqn:Htf; [|discriminate].
    destruct (float_of_int per) as [perf|] eqn:F1; [|discriminate].
    destruct (float_of_int paye) as [payef|] eqn:F2; [|discriminate].
    destruct (float_of_int (pem + per)) as [penf|] eqn:F3; [|discriminate].
    destruct (described additions && described deductions); [|discriminate].
    intro H. injection H as <- <-.
    apply float_of_int_whole in F1, F2, F3. subst perf payef penf.
    exists employee, config, se, pl, py, pn, adds, deds, ta, od, taxable, tdf.
    cbn [gross_pay paye_deduction pension_employee_deduction
         pension_employer_contribution total_deductions net_pay ps_id].
    repeat (split; [first [assumption | reflexivity]|]).
    split; [split; [exact C1|apply math_ceil_spec; exact C1]|].
    split; [split; [exact C2|apply math_ceil_spec; exact C2]|].
    split; [split; [exact C3|apply math_ceil_spec; exact C3]|].
    repeat (split; [first [assumption | reflexivity]|]).
    match goal with |- context [add_ledger_entries ?d1 ?rows] =>
      destruct (posted_add_ledger_entries_f db d1 rows eq_refl) as [E P] end.
    split; [eexists; split; [exact E|reflexivity]|].
    cbv zeta. rewrite P. reflexivity.
  - eexists. eexists. split; [vm_compute; reflexivity|].
    repeat split; vm_compute; reflexivity.
Qed.

Lemma payroll_run_figures_and_postings_witness :
  exists db' slip,
    process_payroll_for_employee sum_numbers_in_order payroll_db some_day 1 1
      (mkDate 2024 3 1) (mkDate 2024 3 31) [] [] = Ok (db', slip)
    /\ payslips db' = payslips payroll_db ++ [slip]
    /\ gross_pay slip = whole 1000.
Proof.
  destruct (process_payroll_for_employee sum_numbers_in_order payroll_db some_day
              1 1 (mkDate 2024 3 1) (mkDate 2024 3 31) [] [])
    as [[db' slip]|] eqn:E; [|vm_compute in E; discriminate].
  exists db', slip. split; [reflexivity|].
  destruct (proj1 payroll_run_figures_and_postings _ _ _ _ _ _ _ _ _ _ _ E)
    as (employee & config & se & pl & py & pn & adds & deds & ta & od & taxable & tdf
        & He & Hc & _ & _ & _ & _ & _ & _ & _ & _ & Hg & _ & _ & _ & _ & _ & _ & _
        & Hp & _).
  split; [exact Hp|].
  rewrite Hg. vm_compute in He. injection He as <-.
  cbn in Hc. injection Hc as <-. reflexivity.
Defined.

(** C3, counterexample.  On a gross salary of 700 with PAYE at 7% the
    program withholds 50, one more than the ceiling 49 of 700 x 7/100, and
    pays 650 net: the product is rounded to a double just above 49 before
    the ceiling is taken.  Nor is the figure the ceiling of the exact product
    of the doubles involved: at 1000 and 10% that product exceeds 100, and
    the program withholds 100. *)
Lemma payroll_ceiling_is_taken_after_rounding :
  (exists db' slip,
     process_payroll_for_employee sum_numbers_in_order payroll_db some_day 2 1
       (mkDate 2024 3 1) (mkDate 2024 3 31) [] [] = Ok (db', slip)
     /\ paye_deduction slip = 50%Z
     /\ Qceiling (700 * (7 # 100)) = 49%Z
     /\ net_pay slip = whole 650)
  /\ (exists db' slip,
        process_payroll_for_employee sum_numbers_in_order payroll_db some_day 1 1
          (mkDate 2024 3 1) (mkDate 2024 3 31) [] [] = Ok (db', slip)
        /\ paye_deduction slip = 100%Z
        /\ (100 < value (whole 1000) * value (decimal 1 10))%Q).
Proof.
  split.
  - eexists. eexists. split; [vm_compute; reflexivity|].
    repeat split; vm_compute; reflexivity.
  - eexists. eexists. split; [vm_compute; reflexivity|].
    split; vm_compute; reflexivity.
Qed.

(* ------------------------------------------------------------------ *)
(** ** Payments *)

(** C5, as amended.  Recording a payment succeeds for any amount once the
    receivable (payable) account exists.  It replaces the paid amount of the
    invoice or bill by the binary64 sum of the previous paid amount and the
    payment, leaves the total alone, and sets the status to "Paid" when the
    new paid amount is at least the double [total - 0.001], to "Partially
    Paid" otherwise; the stored row is replaced by the updated one and two
    ledger rows of the payment's amount are appended.  A payment of 400
    against an invoice of 1000 leaves it "Partially Paid", a further 600
    "Paid". *)
Theorem payment_updates_paid_amount_and_status :
  (forall (db : Db) (invoice : SalesInvoice) (payment_date : date)
          (amount_paid : float) (payment_account_id : Z) (ar_account : Account),
      account_by_name db (inv_business_id invoice) "Accounts Receivable"
        = Some ar_account ->
      exists db' invoice',
        record_payment_for_invoice db invoice payment_date amount_paid
          payment_account_id = Ok (db', invoice')
        /\ inv_paid_amount invoice' = fadd (inv_paid_amount invoice) amount_paid
        /\ inv_total_amount invoice' = inv_total_amount invoice
        /\ inv_status invoice'
           = (if fle (fsub (inv_total_amount invoice) (decimal 1 1000))
                     (inv_paid_amount invoice')
              then "Paid" else "Partially Paid")%string
        /\ inv_id invoice' = inv_id invoice
        /\ sales_invoices db'
           = update_first (fun i => (inv_id i =? inv_id invoice)%Z)
                          (fun _ => invoice') (sales_invoices db)
        /\ purchase_bills db' = purchase_bills db
        /\ exists added,
             ledger_entries db' = ledger_entries db ++ added
             /\ map posting_of added
                = [ Credit payment_date amount_paid (acc_id ar_account)
                      (inv_branch_id invoice) (SalesInvoiceDoc (inv_id invoice));
                    Debit payment_date amount_paid payment_account_id
                      (inv_branch_id invoice) (SalesInvoiceDoc (inv_id invoice)) ])
  /\ (forall (db : Db) (bill : PurchaseBill) (payment_date : date)
             (amount_paid : float) (payment_account_id : Z) (ap_account : Account),
        account_by_name db (bill_business_id bill) "Accounts Payable"
          = Some ap_account ->
        exists db' bill',
          record_payment_for_bill db bill payment_date amount_paid
            payment_account_id = Ok (db', bill')
          /\ bill_paid_amount bill' = fadd (bill_paid_amount bill) amount_paid
          /\ bill_total_amount bill' = bill_total_amount bill
          /\ bill_status bill'
             = (if fle (fsub (bill_total_amount bill) (decimal 1 1000))
                       (bill_paid_amount bill')
                then "Paid" else "Partially Paid")%string
          /\ bill_id bill' = bill_id bill
          /\ purchase_bills db'
             = update_first (fun b => (bill_id b =? bill_id bill)%Z)
                            (fun _ => bill') (purchase_bills db)
          /\ sales_invoices db' = sales_invoices db
          /\ exists added,
               ledger_entries db' = ledger_entries db ++ added
               /\ map posting_of added
                  = [ Debit payment_date amount_paid (acc_id ap_account)
                        (bill_branch_id bill) (PurchaseBillDoc (bill_id bill));
                      Credit payment_date amount_paid payment_account_id
                        (bill_branch_id bill) (PurchaseBillDoc (bill_id bill)) ])
  /\ (exists db1 invoice1 db2 invoice2,
        record_payment_for_invoice (receivables_db (whole 1000))
          (invoice_over (whole 1000)) some_day (whole 400) 1 = Ok (db1, invoice1)
        /\ inv_status invoice1 = "Partially Paid"%string
        /\ sales_invoices db1 = [invoice1]
        /\ record_payment_for_invoice db1 invoice1 some_day (whole 600) 1
           = Ok (db2, invoice2)
        /\ inv_status invoice2 = "Paid"%string
        /\ inv_paid_amount invoice2 = whole 1000
        /\ sales_invoices db2 = [invoice2]
        /\ map columns (posted (receivables_db (whole 1000)) db2)
           = [ (2%Z, zero, whole 400); (1%Z, whole 400, zero);
               (2%Z, zero, whole 600); (1%Z, whole 600, zero) ])
  /\ (exists db1 bill1 db2 bill2,
        record_payment_for_bill (receivables_db (whole 1000))
          (bill_over (whole 1000)) some_day (whole 400) 1 = Ok (db1, bill1)
        /\ bill_status bill1 = "Partially Paid"%string
        /\ purchase_bills db1 = [bill1]
        /\ record_payment_for_bill db1 bill1 some_day (whole 600) 1
           = Ok (db2, bill2)
        /\ bill_status bill2 = "Paid"%string
        /\ bill_paid_amount bill2 = whole 1000
        /\ purchase_bills db2 = [bill2]
        /\ map columns (posted (receivables_db (whole 1000)) db2)
           = [ (5%Z, whole 400, zero); (1%Z, zero, whole 400);
               (5%Z, whole 600, zero); (1%Z, zero, whole 600) ]).
Proof.
  split; [|split; [|split]].
  - intros db invoice payment_date amount_paid payment_account_id ar H.
    unfold record_payment_for_invoice. rewrite H.
    eexists. eexists. split; [reflexivity|].
    cbn [inv_paid_amount inv_total_amount inv_status inv_id].
    repeat (split; [reflexivity|]).
    match goal with |- context [add_ledger_entries ?d1 ?rows] =>
      destruct (posted_add_ledger_entries_f db d1 rows eq_refl) as [E P] end.
    eexists. split; [exact E|exact P].
  - intros db bill payment_date amount_paid payment_account_id ap H.
    unfold record_payment_for_bill. rewrite H.
    eexists. eexists. split; [reflexivity|].
    cbn [bill_paid_amount bill_total_amount bill_status bill_id].
    repeat (split; [reflexivity|]).
    match goal with |- context [add_ledger_entries ?d1 ?rows] =>
      destruct (posted_add_ledger_entries_f db d1 rows eq_refl) as [E P] end.
    eexists. split; [exact E|exact P].
  - do 4 eexists. split; [vm_compute; reflexivity|].
    split; [reflexivity|]. split; [reflexivity|].
    split; [vm_compute; reflexivity|].
    repeat split; vm_compute; reflexivity.
  - do 4 eexists. split; [vm_compute; reflexivity|].
    split; [reflexivity|]. split; [reflexivity|].
    split; [vm_compute; reflexivity|].
    repeat split; vm_compute; reflexivity.
Qed.

Lemma payment_updates_paid_amount_and_status_witness :
  exists db' invoice',
    record_payment_for_invoice (receivables_db (whole 1000))
      (invoice_over (whole 1000)) some_day (whole 400) 1 = Ok (db', invoice')
    /\ inv_paid_amount invoice' = fadd zero (whole 400).
Proof.
  destruct (proj1 payment_updates_paid_amount_and_status
              (receivables_db (whole 1000)) (invoice_over (whole 1000)) some_day
              (whole 400) 1%Z
              {| acc_id := 2; acc_name := "Accounts Receivable"; acc_type := ASSET;
                 is_system_account := true; acc_business_id := 1 |} eq_refl)
    as (db' & invoice' & E & Hp & _).
  exists db', invoice'. split; [exact E|exact Hp].
Defined.

(** C5, counterexample.  Read on the amounts themselves the threshold fails
    both ways.  An invoice of 1.01 paid with 1.009 stays "Partially Paid"
    although 1.009 >= 1.01 - 0.001: the double [1.01 - 0.001] lies above the
    double 1.009.  An invoice of 100 paid with the double just below 99.999
    becomes "Paid" although the payment is less than 100 - 0.001, whether
    0.001 is taken as the decimal or as the double. *)
Lemma payment_threshold_is_rounded :
  (exists db' invoice',
     record_payment_for_invoice (receivables_db (decimal 101 100))
       (invoice_over (decimal 101 100)) some_day (decimal 1009 1000) 1
     = Ok (db', invoice')
     /\ inv_status invoice' = "Partially Paid"%string
     /\ (101 # 100) - (1 # 1000) <= (1009 # 1000))%Q
  /\ (let payment := fsub (whole 100) (decimal 1 1000) in
      exists db' invoice',
        record_payment_for_invoice (receivables_db (whole 100))
          (invoice_over (whole 100)) some_day payment 1 = Ok (db', invoice')
        /\ inv_status invoice' = "Paid"%string
        /\ (value (inv_paid_amount invoice') < 100 - (1 # 1000))%Q
        /\ (value (inv_paid_amount invoice')
            < value (whole 100) - value (decimal 1 1000))%Q).
Proof.
  split.
  - eexists. eexists. split; [vm_compute; reflexivity|].
    split; [vm_compute; reflexivity|]. vm_compute. discriminate.
  - cbv zeta. eexists. eexists. split; [vm_compute; reflexivity|].
    split; [vm_compute; reflexivity|]. split; vm_compute; reflexivity.
Qed.

(* ------------------------------------------------------------------ *)
(** ** Accounts of zero balance *)

Lemma in_insert_account (precedes : Account -> Account -> bool) (a x : Account)
    (l : list Account) :
  In x (insert_account precedes a l) <-> x = a \/ In x l.
Proof.
  induction l as [|y l IH]; cbn [insert_account].
  - cbn. intuition.
  - destruct (precedes y a); cbn [In]; [rewrite IH|]; intuition.
Qed.

Lemma in_order_by (precedes : Account -> Account -> bool) (x : Account)
    (l : list Account) :
  In x (order_by precedes l) <-> In x l.
Proof.
  induction l as [|a l IH]; [reflexivity|].
  unfold order_by in *. cbn [fold_right].
  rewrite in_insert_account, IH. cbn. intuition.
Qed.

Lemma tb_account_skips (func_sum : list float -> float) (db : Db) (as_of : date)
    (branch : option Z) (report : TrialBalance) (acc : Account) :
  feq (tb_balance func_sum db as_of branch acc) zero = true ->
  tb_account func_sum db as_of branch report acc = report.
Proof. intro H. unfold tb_account. cbv zeta. rewrite H. reflexivity. Qed.

Lemma bs_account_skips (func_sum : list float -> float) (db : Db)
    (t : AccountType) (as_of : date) (branch : option Z) (state : dict * float)
    (acc : Account) :
  feq (bs_balance func_sum db t as_of branch acc) zero = true ->
  bs_account func_sum db t as_of branch state acc = state.
Proof.
  intro H. unfold bs_account. destruct state as [balances total].
  cbv zeta. rewrite H. reflexivity.
Qed.

Lemma section_after_report_line (r : TrialBalance) (t t' : AccountType) (l : TBLine) :
  lines (section (report_line r t l) t')
  = if AccountType_eqb t t' then lines (section r t') ++ [l]
    else lines (section r t').
Proof. destruct t, t'; reflexivity. Qed.

Lemma tb_lines_stem_from_listed (func_sum : list float -> float) (db : Db)
    (as_of : date) (branch : option Z) (P : AccountType -> TBLine -> Prop)
    (accs : list Account) (r : TrialBalance) :
  (forall t l, In l (lines (section r t)) -> P t l) ->
  (forall acc dr cr,
      In acc accs -> feq (tb_balance func_sum db as_of branch acc) zero = false ->
      P (acc_type acc)
        {| account_name := acc_name acc; line_debit := dr; line_credit := cr |}) ->
  forall t l,
    In l (lines (section (fold_left (tb_account func_sum db as_of branch) accs r) t)) ->
    P t l.
Proof.
  revert r. induction accs as [|acc accs IH]; intros r Hr Hacc; [exact Hr|].
  cbn [fold_left]. apply IH.
  - intros t l. unfold tb_account. cbv zeta.
    destruct (feq (tb_balance func_sum db as_of branch acc) zero) eqn:Z0; [apply Hr|].
    destruct (tb_columns (acc_type acc) _) as [dr cr].
    rewrite section_after_report_line.
    destruct (AccountType_eqb (acc_type acc) t) eqn:T; [|apply Hr].
    apply AccountType_eqb_eq in T. subst t.
    intro H. apply in_app_or in H. destruct H as [H|[<-|[]]]; [apply Hr; exact H|].
    apply Hacc; [left; reflexivity|exact Z0].
  - intros acc' dr cr H. apply Hacc. right. exact H.
Qed.

Lemma keys_after_dict_set (d : dict) (k' : string) (v' : float) (k : string)
    (v : float) :
  In (k, v) (dict_set d k' v') -> k = k' \/ exists v0, In (k, v0) d.
Proof.
  induction d as [|[k0 v0] d IH]; cbn [dict_set].
  - intros [H|[]]. left. congruence.
  - destruct (String.eqb k0 k') eqn:E.
    + intros [H|H].
      * right. exists v0. left. congruence.
      * right. exists v. right. exact H.
    + intros [H|H].
      * right. exists v. left. exact H.
      * destruct (IH H) as [->|(v1 & H1)]; [left; reflexivity|].
        right. exists v1. right. exact H1.
Qed.

Lemma bs_keys_stem_from_listed (func_sum : list float -> float) (db : Db)
    (t : AccountType) (as_of : date) (branch : option Z) (P : string -> Prop)
    (accs : list Account) (state : dict * float) :
  (forall k v, In (k, v) (fst state) -> P k) ->
  (forall acc, In acc accs ->
               feq (bs_balance func_sum db t as_of branch acc) zero = false ->
               P (acc_name acc)) ->
  forall k v,
    In (k, v) (fst (fold_left (bs_account func_sum db t as_of branch) accs state)) ->
    P k.
Proof.
  revert state. induction accs as [|acc accs IH]; intros state Hs Hacc; [exact Hs|].
  cbn [fold_left]. apply IH.
  - intros k v. unfold bs_account. destruct state as [balances total]. cbv zeta.
    destruct (feq (bs_balance func_sum db t as_of branch acc) zero) eqn:Z0;
      cbn [negb]; [apply Hs|].
    cbn [fst]. intro H. apply keys_after_dict_set in H.
    destruct H as [->|(v0 & H)]; [|eapply Hs; exact H].
    apply Hacc; [left; reflexivity|exact Z0].
  - intros acc' H. apply Hacc. right. exact H.
Qed.

(* ------------------------------------------------------------------ *)
(** ** Books kept in whole numbers: the statements are exact *)

Local Open Scope Z_scope.

Lemma zsum_app (l1 l2 : list Z) : zsum (l1 ++ l2) = zsum l1 + zsum l2.
Proof.
  induction l1 as [|n l1 IH]; [reflexivity|].
  cbn [app]. rewrite !zsum_cons, IH. lia.
Qed.

Lemma abs_sum_app (l1 l2 : list Z) : abs_sum (l1 ++ l2) = abs_sum l1 + abs_sum l2.
Proof.
  induction l1 as [|n l1 IH]; [reflexivity|].
  cbn [app]. rewrite !abs_sum_cons, IH. lia.
Qed.




Lemma abs_sum_filter {A} (f : A -> Z) (p : A -> bool) (l : list A) :
  abs_sum (map f (filter p l)) <= abs_sum (map f l).
Proof.
  induction l as [|x l IH]; [cbn; lia|].
  cbn [filter map]. destruct (p x); cbn [map]; rewrite ?abs_sum_cons; lia.
Qed.


Lemma abs_sum_columns (rows : list LedgerEntry) :
  abs_sum (map (fun e => amount (debit e)) rows)
  + abs_sum (map (fun e => amount (credit e)) rows)
  = abs_sum (map weight rows).
Proof.
  induction rows as [|e rows IH]; [reflexivity|].
  cbn [map]. rewrite !abs_sum_cons. unfold weight at 1. lia.
Qed.


Lemma whole_0 : whole 0 = zero.
Proof. reflexivity. Qed.

Section WholeBooks.

Variable func_sum : list float -> float.
Hypothesis func_sum_exact : exact_on_whole_numbers func_sum.
Variable db : Db.
Hypothesis amounts_whole : whole_amounts db.
Hypothesis in_range : total_abs db < 2 ^ 53.

Lemma rows_are_whole (p : LedgerEntry -> bool) (e : LedgerEntry) :
  In e (filter p (ledger_entries db)) -> is_whole (debit e) /\ is_whole (credit e).
Proof.
  intro H. apply filter_In in H. destruct H as [H _].
  unfold whole_amounts in amounts_whole. rewrite Forall_forall in amounts_whole.
  apply amounts_whole. exact H.
Qed.

Lemma rows_weigh_little (p : LedgerEntry -> bool) :
  abs_sum (map weight (filter p (ledger_entries db))) <= total_abs db.
Proof. apply abs_sum_filter. Qed.

Lemma scalar_or_zero_whole (zs : list Z) :
  abs_sum zs < 2 ^ 53 -> scalar_or_zero func_sum (map whole zs) = whole (zsum zs).
Proof.
  intro B. destruct zs as [|z zs]; [reflexivity|].
  unfold scalar_or_zero. cbn [map].
  change (whole z :: map whole zs) with (map whole (z :: zs)).
  rewrite func_sum_exact by (congruence || exact B).
  apply or_zero_whole. unfold small. pose proof (zsum_abs (z :: zs)). lia.
Qed.

Lemma column_sum_whole (f : LedgerEntry -> float) (p : LedgerEntry -> bool) :
  (forall e, In e (filter p (ledger_entries db)) -> f e = whole (amount (f e))) ->
  abs_sum (map (fun e => amount (f e)) (filter p (ledger_entries db))) <= total_abs db ->
  scalar_or_zero func_sum (map f (filter p (ledger_entries db)))
  = whole (zsum (map (fun e => amount (f e)) (filter p (ledger_entries db)))).
Proof.
  intros Hw B.
  rewrite <- scalar_or_zero_whole by lia.
  f_equal. rewrite map_map. apply map_ext_in. exact Hw.
Qed.

Lemma debit_sum_whole (account : Z) (as_of : date) (branch : option Z) :
  debit_sum func_sum db account as_of branch
  = whole (zsum (map (fun e => amount (debit e))
                     (entries_as_of db account as_of branch))).
Proof.
  unfold debit_sum, entries_as_of. apply column_sum_whole.
  - intros e H. apply (rows_are_whole _ e H).
  - match goal with |- context [filter ?p _] =>
      pose proof (abs_sum_columns (filter p (ledger_entries db)));
      pose proof (rows_weigh_little p);
      pose proof (abs_sum_nonneg
                    (map (fun e => amount (credit e)) (filter p (ledger_entries db))))
    end. lia.
Qed.

Lemma credit_sum_whole (account : Z) (as_of : date) (branch : option Z) :
  credit_sum func_sum db account as_of branch
  = whole (zsum (map (fun e => amount (credit e))
                     (entries_as_of db account as_of branch))).
Proof.
  unfold credit_sum, entries_as_of. apply column_sum_whole.
  - intros e H. apply (rows_are_whole _ e H).
  - match goal with |- context [filter ?p _] =>
      pose proof (abs_sum_columns (filter p (ledger_entries db)));
      pose proof (rows_weigh_little p);
      pose proof (abs_sum_nonneg
                    (map (fun e => amount (debit e)) (filter p (ledger_entries db))))
    end. lia.
Qed.

Lemma column_sums_small (account : Z) (as_of : date) (branch : option Z) :
  Z.abs (zsum (map (fun e => amount (debit e)) (entries_as_of db account as_of branch)))
  + Z.abs (zsum (map (fun e => amount (credit e)) (entries_as_of db account as_of branch)))
  <= total_abs db.
Proof.
  unfold entries_as_of.
  match goal with |- context [filter ?p _] =>
    pose proof (abs_sum_columns (filter p (ledger_entries db)));
    pose proof (rows_weigh_little p);
    pose proof (zsum_abs (map (fun e => amount (debit e)) (filter p (ledger_entries db))));
    pose proof (zsum_abs (map (fun e => amount (credit e)) (filter p (ledger_entries db))))
  end. lia.
Qed.

Lemma raw_balance_small (as_of : date) (branch : option Z) (acc : Account) :
  Z.abs (raw_balance db as_of branch acc) <= total_abs db.
Proof.
  unfold raw_balance. pose proof (column_sums_small (acc_id acc) as_of branch). lia.
Qed.

Lemma tb_balance_whole (as_of : date) (branch : option Z) (acc : Account) :
  tb_balance func_sum db as_of branch acc = whole (raw_balance db as_of branch acc).
Proof.
  unfold tb_balance, raw_balance. rewrite debit_sum_whole, credit_sum_whole.
  pose proof (column_sums_small (acc_id acc) as_of branch).
  apply fsub_whole; unfold small; lia.
Qed.

Lemma bs_balance_whole (t : AccountType) (as_of : date) (branch : option Z)
    (acc : Account) :
  bs_balance func_sum db t as_of branch acc
  = whole (signed_balance db t as_of branch acc).
Proof.
  unfold bs_balance, signed_balance, raw_balance. cbv zeta.
  rewrite debit_sum_whole, credit_sum_whole.
  pose proof (column_sums_small (acc_id acc) as_of branch).
  destruct t; rewrite fsub_whole by (unfold small; lia); f_equal; lia.
Qed.

Lemma signed_balance_small (t : AccountType) (as_of : date) (branch : option Z)
    (acc : Account) :
  Z.abs (signed_balance db t as_of branch acc) <= total_abs db.
Proof.
  pose proof (raw_balance_small as_of branch acc).
  unfold signed_balance. destruct t; lia.
Qed.





End WholeBooks.

Close Scope Z_scope.

Local Open Scope Z_scope.









Close Scope Z_scope.

Local Open Scope Z_scope.






Close Scope Z_scope.



(** C10, as amended.  Both reports test the binary64 balance of an account
    against zero.  An account whose debit and credit sums, as the store
    returns them, are the same finite double has balance zero, and so has
    an account of books kept in whole numbers whose debits equal its
    credits.  An account of balance zero changes neither report: the trial
    balance and each balance-sheet section are what they would be with only
    the accounts of non-zero balance, every report line stems from such an
    account, and a posting followed by its reversal leaves no line
    behind. *)
Theorem zero_balance_accounts_are_omitted :
  (forall (func_sum : list float -> float) (precedes : Account -> Account -> bool)
          (db : Db) (business_id : Z) (as_of : date) (branch : option Z),
      let tb_zero acc := feq (tb_balance func_sum db as_of branch acc) zero in
      let bs_zero t acc := feq (bs_balance func_sum db t as_of branch acc) zero in
      (forall t acc,
          debit_sum func_sum db (acc_id acc) as_of branch
          = credit_sum func_sum db (acc_id acc) as_of branch ->
          is_finite (debit_sum func_sum db (acc_id acc) as_of branch) = true ->
          tb_zero acc = true /\ bs_zero t acc = true)
      /\ (exact_on_whole_numbers func_sum -> whole_amounts db ->
          (total_abs db < 2 ^ 53)%Z ->
          forall t acc,
            tb_zero acc = (raw_balance db as_of branch acc =? 0)%Z
            /\ bs_zero t acc = (raw_balance db as_of branch acc =? 0)%Z)
      /\ (forall report acc,
             tb_zero acc = true ->
             tb_account func_sum db as_of branch report acc = report)
      /\ get_trial_balance_data func_sum precedes db business_id as_of branch
         = fold_left (tb_account func_sum db as_of branch)
             (filter (fun acc => negb (tb_zero acc))
                     (order_by precedes (accounts_of_business db business_id)))
             empty_trial_balance
      /\ (forall t line,
             In line (lines (section (get_trial_balance_data func_sum precedes db
                                        business_id as_of branch) t)) ->
             exists acc, In acc (accounts_of_business db business_id)
                         /\ acc_name acc = account_name line
                         /\ acc_type acc = t
                         /\ tb_zero acc = false)
      /\ (forall t state acc,
             bs_zero t acc = true ->
             bs_account func_sum db t as_of branch state acc = state)
      /\ (forall t,
             get_account_balances func_sum db business_id as_of branch t
             = fold_left (bs_account func_sum db t as_of branch)
                 (filter (fun acc => negb (bs_zero t acc))
                         (accounts_of_type db business_id t))
                 ([], zero))
      /\ (forall t name balance,
             In (name, balance)
                (fst (get_account_balances func_sum db business_id as_of branch t)) ->
             exists acc, In acc (accounts_of_type db business_id t)
                         /\ acc_name acc = name
                         /\ bs_zero t acc = false))
  /\ (let history := books (received some_day (whole 100)
                            ++ returned some_day (whole 100)) in
      let report :=
        get_trial_balance_data sum_in_order by_type_and_name history 1 some_day
          None in
      let sheet :=
        get_balance_sheet_data sum_in_order sum_in_order history 1 some_day None in
      List.length (ledger_entries history) = 4%nat
      /\ (forall t, lines (section report t) = [])
      /\ grand_total_debit report = zero
      /\ grand_total_credit report = zero
      /\ assets sheet = []
      /\ liabilities sheet = []
      /\ total_assets sheet = zero).
Proof.
  split.
  - intros func_sum precedes db business_id as_of branch. cbv zeta.
    split; [|split; [|split; [|split; [|split; [|split; [|split]]]]]].
    + intros t acc E F. unfold tb_balance, bs_balance. cbv zeta. rewrite <- E.
      split; [apply fsub_diag; exact F|].
      destruct t; apply fsub_diag; exact F.
    + intros FE WA Mlt t acc.
      rewrite (tb_balance_whole func_sum FE db WA Mlt).
      rewrite (bs_balance_whole func_sum FE db WA Mlt).
      pose proof (raw_balance_small db as_of branch acc) as Sb.
      pose proof (signed_balance_small db t as_of branch acc) as Ss.
      rewrite !feq_whole_zero by (unfold small; lia).
      split; [reflexivity|].
      unfold signed_balance.
      destruct t; try reflexivity;
        destruct (Z.eqb_spec (- raw_balance db as_of branch acc) 0);
        destruct (Z.eqb_spec (raw_balance db as_of branch acc) 0); auto; lia.
    + intros report acc. apply tb_account_skips.
    + unfold get_trial_balance_data. cbv zeta. apply fold_skips_zero.
      intros s acc K. apply tb_account_skips.
      apply negb_false_iff in K. exact K.
    + unfold get_trial_balance_data. cbv zeta.
      apply (tb_lines_stem_from_listed func_sum db as_of branch
               (fun t line =>
                  exists acc, In acc (accounts_of_business db business_id)
                              /\ acc_name acc = account_name line
                              /\ acc_type acc = t
                              /\ feq (tb_balance func_sum db as_of branch acc) zero
                                 = false)).
      * intros t l H. destruct t; contradiction.
      * intros acc dr cr Hin Hnz. exists acc.
        apply in_order_by in Hin. repeat split; auto.
    + intros t state acc. apply bs_account_skips.
    + intro t. unfold get_account_balances. apply fold_skips_zero.
      intros s acc K. apply bs_account_skips.
      apply negb_false_iff in K. exact K.
    + intros t name balance. unfold get_account_balances.
      apply (bs_keys_stem_from_listed func_sum db t as_of branch
               (fun name =>
                  exists acc, In acc (accounts_of_type db business_id t)
                              /\ acc_name acc = name
                              /\ feq (bs_balance func_sum db t as_of branch acc) zero
                                 = false)).
      * intros k v [].
      * intros acc Hin Hnz. exists acc. repeat split; auto.
  - cbv zeta. split; [vm_compute; reflexivity|].
    split; [intro t; destruct t; vm_compute; reflexivity|].
    repeat split; vm_compute; reflexivity.
Qed.

Lemma zero_balance_accounts_are_omitted_witness :
  tb_account sum_in_order (books (received some_day (whole 100))) some_day None
    empty_trial_balance
    {| acc_id := 5; acc_name := "Accounts Payable"; acc_type := LIABILITY;
       is_system_account := true; acc_business_id := 1 |}
  = empty_trial_balance.
Proof.
  apply (proj1 (proj2 (proj2 (proj1 zero_balance_accounts_are_omitted
                                sum_in_order by_type_and_name
                                (books (received some_day (whole 100)))
                                1%Z some_day None)))).
  vm_compute. reflexivity.
Defined.

(** C10, counterexample.  With sums taken in row order, an account debited
    with 0.1, 0.2 and 0.3 and credited with 0.3, 0.2 and 0.1 carries the
    same amounts on both sides, yet its binary64 balance is not zero and
    both reports list it; so does an account debited with 0.1 and 0.2 and
    credited with 0.3. *)
Lemma equal_columns_can_leave_a_line :
  (let db := books (received some_day (decimal 1 10)
                    ++ received some_day (decimal 2 10)
                    ++ received some_day (decimal 3 10)
                    ++ returned some_day (decimal 3 10)
                    ++ returned some_day (decimal 2 10)
                    ++ returned some_day (decimal 1 10)) in
   let report :=
     get_trial_balance_data sum_in_order by_type_and_name db 1 some_day None in
   let sheet := get_balance_sheet_data sum_in_order sum_in_order db 1 some_day None in
   filter (fun x => negb (feq x zero)) (debit_column db 1 some_day)
   = [ decimal 1 10; decimal 2 10; decimal 3 10 ]
   /\ filter (fun x => negb (feq x zero)) (credit_column db 1 some_day)
      = [ decimal 3 10; decimal 2 10; decimal 1 10 ]
   /\ map account_name (lines (tb_asset report)) = [ "Cash"%string ]
   /\ map fst (assets sheet) = [ "Cash"%string ]
   /\ feq (total_assets sheet) zero = false)
  /\ (let db := books (received some_day (decimal 1 10)
                       ++ received some_day (decimal 2 10)
                       ++ returned some_day (decimal 3 10)) in
      let report :=
     get_trial_balance_data sum_in_order by_type_and_name db 1 some_day None in
      let sheet := get_balance_sheet_data sum_in_order sum_in_order db 1 some_day None in
      filter (fun x => negb (feq x zero)) (debit_column db 1 some_day)
      = [ decimal 1 10; decimal 2 10 ]
      /\ filter (fun x => negb (feq x zero)) (credit_column db 1 some_day)
         = [ decimal 3 10 ]
      /\ ((1 # 10) + (2 # 10) == (3 # 10))%Q
      /\ map account_name (lines (tb_asset report)) = [ "Cash"%string ]
      /\ map fst (assets sheet) = [ "Cash"%string ]
      /\ feq (total_assets sheet) zero = false).
Proof.
  split; cbv zeta; repeat split; vm_compute; reflexivity.
Qed.

(* ------------------------------------------------------------------ *)
(** ** Fund transfers *)

(** X22.  A fund transfer between two different accounts is refused exactly
    when its amount compares [<= 0]: zero of either sign, a negative number
    or minus infinity.  Any other amount, NaN and plus infinity included,
    writes two rows of that amount, a credit on the paying account and a
    debit on the receiving one.  A transfer from an account to itself is
    refused whatever the amount. *)
Theorem fund_transfer_guard_and_rows (d : date) (amount : float)
    (from_account to_account branch transfer : Z) :
  let request :=
    fund_transfer_postings d amount from_account to_account branch transfer in
  let refused_amount :=
    match amount with
    | S754_zero _ => true
    | S754_finite s _ _ => s
    | S754_infinity s => s
    | S754_nan => false
    end in
  (from_account = to_account -> request = inl SameTransferAccounts)
  /\ (from_account <> to_account -> refused_amount = true ->
      request = inl NonPositiveTransfer)
  /\ (from_account <> to_account -> refused_amount = false ->
      request = inr [ Credit d amount from_account branch (FundTransferDoc transfer);
                      Debit d amount to_account branch (FundTransferDoc transfer) ])
  /\ (forall rows, request = inr rows ->
        from_account <> to_account
        /\ (is_finite amount = true -> (0 < value amount)%Q)
        /\ map columns rows
           = [ (from_account, zero, amount); (to_account, amount, zero) ]).
Proof.
  cbv zeta. unfold fund_transfer_postings.
  split; [|split; [|split]].
  - intros ->. rewrite Z.eqb_refl. reflexivity.
  - intros N R. apply Z.eqb_neq in N. rewrite N.
    destruct amount as [s|s| |s m e]; try discriminate R; try (subst s); reflexivity.
  - intros N R. apply Z.eqb_neq in N. rewrite N.
    destruct amount as [s|s| |s m e]; try discriminate R; try (subst s); reflexivity.
  - intros rows.
    destruct (Z.eqb_spec from_account to_account) as [E|N]; [discriminate|].
    destruct (fle amount zero) eqn:G; [discriminate|].
    intro H. injection H as <-. split; [exact N|]. split; [|reflexivity].
    intro F. destruct amount as [s|s| |s m e]; try discriminate G;
      try discriminate F.
    destruct s; [discriminate G|]. unfold value.
    destruct (0 <=? e)%Z eqn:E.
    + apply Z.leb_le in E. unfold Qlt. cbn [inject_Z Qnum Qden].
      pose proof (Z.pow_pos_nonneg 2 e ltac:(lia) E). nia.
    + unfold Qlt. cbn [Qnum Qden]. lia.
Qed.

Lemma fund_transfer_guard_and_rows_witness :
  fund_transfer_postings some_day S754_nan 1 3 1 1
  = inr [ Credit some_day S754_nan 1 1 (FundTransferDoc 1);
          Debit some_day S754_nan 3 1 (FundTransferDoc 1) ]
  /\ fund_transfer_postings some_day (whole 0) 1 3 1 1 = inl NonPositiveTransfer.
Proof.
  split.
  - apply (proj1 (proj2 (proj2 (fund_transfer_guard_and_rows some_day S754_nan
                                   1 3 1 1)))); [lia|reflexivity].
  - apply (proj1 (proj2 (fund_transfer_guard_and_rows some_day (whole 0)
                           1 3 1 1))); [lia|reflexivity].
Defined.
